(** * Accounting document updater: the transaction drivers and the
      recovery-retrying controller

    A shallow embedding of [engine/fb03.py], [engine/va03.py],
    [engine/qm02.py] and of the three processing stages of
    [engine/controller.py], followed by the properties of the design
    document that concern them.

    The SAP GUI is an external, screen-oriented system.  It is modelled as a
    deterministic function from the history of everything the program did so
    far (connections opened, keys sent, fields written, controls pressed) to
    the screen a session currently shows.  Every call into the scripting
    engine first looks at the state of the link: when it is not up the call
    raises [com_error], and the drivers' liveness probe ([_sess.IsActive])
    decides between a lost connection and a plain fault. *)

From Stdlib Require Import String Ascii ZArith NArith Lia DecimalString DecimalPos.
From stdpp Require Import base tactics option list.

Open Scope string_scope.
Open Scope list_scope.

Infix "+:+" := String.append (at level 60, right associativity) : string_scope.

(** ** Python strings

    A [str] is modelled as a [string] of code points below 256. *)

(** [str.isspace] on one code point below 256. *)
Definition is_space (c : ascii) : bool :=
  let n := nat_of_ascii c in
  ((9 <=? n)%nat && (n <=? 13)%nat) || ((28 <=? n)%nat && (n <=? 32)%nat)
  || (n =? 133)%nat || (n =? 160)%nat.

Fixpoint lstrip (s : string) : string :=
  match s with
  | "" => ""
  | String c s' => if is_space c then lstrip s' else s
  end.

Fixpoint rstrip (s : string) : string :=
  match s with
  | "" => ""
  | String c s' =>
      match rstrip s' with
      | "" => if is_space c then "" else String c ""
      | r => String c r
      end
  end.

(** [s.strip()] *)
Definition strip (s : string) : string := rstrip (lstrip s).

(** [s.startswith(p)] *)
Fixpoint startswith (p s : string) : bool :=
  match p, s with
  | "", _ => true
  | String _ _, "" => false
  | String a p', String b s' => Ascii.eqb a b && startswith p' s'
  end.

(** [sub in s] *)
Fixpoint contains (sub s : string) : bool :=
  startswith sub s ||
  match s with
  | "" => false
  | String _ s' => contains sub s'
  end.

(** [s[n:]] for [n >= 0] *)
Fixpoint drop_s (n : nat) (s : string) : string :=
  match n, s with
  | 0, _ => s
  | S _, "" => ""
  | S n', String _ s' => drop_s n' s'
  end.

(** [s[-n:]] for [n > 0] *)
Definition last_chars (n : nat) (s : string) : string :=
  drop_s (String.length s - n) s.

(** The positions at which [pat] occurs in [s] (overlapping ones included),
    in increasing order. *)
Fixpoint occurrences (pat s : string) : list nat :=
  (if startswith pat s then [0] else []) ++
  match s with
  | "" => []
  | String _ s' => map S (occurrences pat s')
  end.

(** [str(n)] for a non-negative integer *)
Definition str (n : N) : string := NilEmpty.string_of_uint (N.to_uint n).

(** [str(x)] for an integer *)
Definition str_int (z : Z) : string :=
  match z with
  | Zneg p => "-" +:+ str (Npos p)
  | _ => str (Z.to_N z)
  end.

(** [str(x)] where [x] is an integer or [pd.NA] *)
Definition str_na (x : option Z) : string :=
  match x with
  | Some z => str_int z
  | None => "<NA>"
  end.

(** *** Regular expressions whose pattern is a literal

    The only pattern the program compiles is [str(case_id)], a string of
    decimal digits; on such a pattern matching is plain substring search.
    [re.findall] and [re.sub] scan from left to right and resume after the end
    of each match; [skip] counts the characters of the current match that are
    still to be passed over. *)

Fixpoint findall_from (pat : string) (skip : nat) (s : string) : list string :=
  match s with
  | "" =>
      match skip with
      | 0 => if startswith pat s then [pat] else []
      | S _ => []
      end
  | String _ s' =>
      match skip with
      | S k => findall_from pat k s'
      | 0 =>
          if startswith pat s
          then pat :: findall_from pat (String.length pat - 1) s'
          else findall_from pat 0 s'
      end
  end.

(** [re.findall(pat, s)] *)
Definition re_findall (pat s : string) : list string := findall_from pat 0 s.

Fixpoint sub_from (pat : string) (skip : nat) (s : string) : string :=
  match s with
  | "" => ""
  | String c s' =>
      match skip with
      | S k => sub_from pat k s'
      | 0 =>
          if startswith pat s
          then match pat with
               | "" => String c (sub_from pat 0 s')
               | _ => sub_from pat (String.length pat - 1) s'
               end
          else String c (sub_from pat 0 s')
      end
  end.

(** [re.sub(pat, "", s)] *)
Definition re_sub_empty (pat s : string) : string := sub_from pat 0 s.

(** [int(s)] on a string: surrounding white space is ignored, one sign is
    allowed, and single underscores may separate digits. *)
Definition digit_val (c : ascii) : option Z :=
  let n := nat_of_ascii c in
  if (48 <=? n)%nat && (n <=? 57)%nat then Some (Z.of_nat (n - 48)) else None.

Fixpoint int_digits (acc : Z) (after_digit : bool) (s : string) : option Z :=
  match s with
  | "" => if after_digit then Some acc else None
  | String c s' =>
      match digit_val c with
      | Some d => int_digits (10 * acc + d) true s'
      | None =>
          if Ascii.eqb c "_" && after_digit
          then match s' with
               | "" => None
               | String c' _ =>
                   match digit_val c' with
                   | Some _ => int_digits acc false s'
                   | None => None
                   end
               end
          else None
      end
  end.

Definition py_int (s : string) : option Z :=
  match strip s with
  | String "-" t => Z.opp <$> int_digits 0 false t
  | String "+" t => int_digits 0 false t
  | t => int_digits 0 false t
  end.

(** ** Exceptions

    Each driver module declares its own exception classes; the module that
    declared the class is part of the exception, since the controller's
    handlers name the class of one particular module.  [com_error] is
    [pywintypes.com_error]; the text the transport attaches to it is not
    modelled. *)

Inductive module_ := VA03 | FB03 | QM02.

Inductive exn :=
| com_error
| AttributeError (msg : string)
| TypeError (msg : string)
| ValueError (msg : string)
| KeyError (msg : string)
| StopIteration
| ZeroDivisionError (msg : string)
| AssertionError (msg : string)
| RuntimeError (msg : string)
| ConnectionError (msg : string)
| UnboundLocalError (msg : string)
| UninitializedModuleError (m : module_) (msg : string)
| SapConnectionLostError (m : module_) (msg : string)
| DocumentProcessingError (m : module_) (msg : string)
| DocumentProcessingWarning (msg : string)
| CreditNoteNotFoundWarning (msg : string)
| CaseIdContainedWarning (msg : string)
| NotificationCompletionError (msg : string)
| NotificationCompletionWarning (msg : string).

(** [str(exc)] *)
Definition exn_str (e : exn) : string :=
  match e with
  | com_error => "com_error"
  | StopIteration => ""
  | AttributeError msg | TypeError msg | ValueError msg | KeyError msg
  | ZeroDivisionError msg | AssertionError msg | RuntimeError msg
  | ConnectionError msg | UnboundLocalError msg
  | UninitializedModuleError _ msg | SapConnectionLostError _ msg
  | DocumentProcessingError _ msg | DocumentProcessingWarning msg
  | CreditNoteNotFoundWarning msg | CaseIdContainedWarning msg
  | NotificationCompletionError msg | NotificationCompletionWarning msg => msg
  end.

(** ** The remote GUI *)

Inductive link_state :=
| LinkUp      (* calls into the scripting engine succeed *)
| LinkFault   (* the next call raises com_error, the session object is alive *)
| LinkLost.   (* the next call raises com_error, and so does the liveness probe's
                 attribute access, with AttributeError *)

(** The hierarchy widget of VA03, as the search walks it.  A node has a key, a
    text ([getNodeTextByKey]), the first of its sub-nodes ([GetSubNodesCol];
    [NoNode] when the call returns [None]) and the node that follows it on
    its level ([GetNextNodeKey]; [NoNode] when the call raises). *)
Inductive nodes :=
| NoNode
| Node (key : string) (text : string) (children : nodes) (next : nodes).

Record screen := {
  link : link_state;
  window_type : string;       (* _sess.ActiveWindow.type *)
  window_text : string;       (* _sess.ActiveWindow.text *)
  (* _sess.ActiveWindow.children, each with its own children as (Type, text) *)
  window_children : list (list (string * string));
  stat_text : string;         (* _stat_bar.text *)
  stat_type : string;         (* _stat_bar.messageType *)
  (* FB03 *)
  sgtxt : string;             (* the text of the field BSEG-SGTXT *)
  sgtxt_settable : bool;      (* whether assigning to it succeeds *)
  augbl_count : nat;          (* findAllByName("BSEG-AUGBL", ...).Count *)
  (* VA03 *)
  messtxt : list string;      (* the texts of MESSTXT1, MESSTXT2, ... of wnd[1] *)
  tree : nodes;               (* GetNodesCol(), from its first node on *)
  docnuv : string;            (* GetCellValue(0, "DOCNUV") *)
  (* QM02 *)
  row_count : Z;              (* task_viewer.RowCount *)
  visible_row_count : Z;      (* task_viewer.visibleRowCount *)
  cell : Z -> Z -> string     (* task_viewer.GetCell(row, col).text *)
}.

(** What the program does to the remote side. *)
Inductive action :=
| SendVKey (code : Z)
| SetText (field : string) (val : string)
| SetFocus (field : string)
| Press (control : string)
| PressButton (caption : string)
| StartTransaction (name : string)
| EndTransaction
| SelectItem (key column : string)
| DoubleClickItem (key column : string)
| SetScrollbar (position : Z)
| SelectRow (row : Z)
| SelectTab (strip : string) (index : nat).

Inductive event :=
| Connect (system : string) (s : nat)   (* sap.connect(system) returned session s *)
| Act (s : nat) (a : action)            (* an action through session s *)
| Sleep (secs : Z).                     (* time.sleep(secs) *)

(** The environment of a run: the screen that session [s] shows after the
    history [h], whether a new connection is accepted after [h], and the
    constant [sap.system_code]. *)
Record env := {
  gui : list event -> nat -> screen;
  reachable : list event -> bool;
  system_code : string
}.

(** The state of the program that the claims are about: the history of
    events, and the module-level [_sess] of each driver ([_main_wnd] and
    [_stat_bar] are always objects of that same session). *)
Record world := {
  hist : list event;
  va03_sess : option nat;
  fb03_sess : option nat;
  qm02_sess : option nat
}.

Definition get_sess (m : module_) (w : world) : option nat :=
  match m with
  | VA03 => va03_sess w
  | FB03 => fb03_sess w
  | QM02 => qm02_sess w
  end.

Definition set_sess (m : module_) (o : option nat) (w : world) : world :=
  match m with
  | VA03 => {| hist := hist w; va03_sess := o;
               fb03_sess := fb03_sess w; qm02_sess := qm02_sess w |}
  | FB03 => {| hist := hist w; va03_sess := va03_sess w;
               fb03_sess := o; qm02_sess := qm02_sess w |}
  | QM02 => {| hist := hist w; va03_sess := va03_sess w;
               fb03_sess := fb03_sess w; qm02_sess := o |}
  end.

Definition record_event (e : event) (w : world) : world :=
  {| hist := hist w ++ [e]; va03_sess := va03_sess w;
     fb03_sess := fb03_sess w; qm02_sess := qm02_sess w |}.

(** ** Computations

    A computation reads the environment and the world, and returns a value,
    raises an exception, or is cut off because a loop of the source that has
    no bound of its own used up the fuel it was given. *)

Inductive result (A : Type) :=
| Ok (a : A)
| Raise (e : exn)
| OutOfFuel.
Arguments Ok {A} a.
Arguments Raise {A} e.
Arguments OutOfFuel {A}.

Definition M (A : Type) : Type := env -> world -> result A * world.

Definition ret {A} (a : A) : M A := fun _ w => (Ok a, w).
Definition raise {A} (e : exn) : M A := fun _ w => (Raise e, w).
Definition out_of_fuel {A} : M A := fun _ w => (OutOfFuel, w).

Definition bind {A B} (c : M A) (k : A -> M B) : M B := fun E w =>
  match c E w with
  | (Ok a, w') => k a E w'
  | (Raise e, w') => (Raise e, w')
  | (OutOfFuel, w') => (OutOfFuel, w')
  end.

Notation "x <- c ;; k" := (bind c (fun x => k))
  (at level 100, c at next level, right associativity).
Notation "c ;; k" := (bind c (fun _ => k))
  (at level 100, right associativity).

(** [if b: c] *)
Definition when (b : bool) (c : M unit) : M unit := if b then c else ret tt.

(** [try: c  except <the classes accepted by handles> as e: h e] *)
Definition try_except {A} (c : M A) (handles : exn -> bool) (h : exn -> M A) : M A :=
  fun E w =>
    match c E w with
    | (Raise e, w') => if handles e then h e E w' else (Raise e, w')
    | r => r
    end.

(** [for x in l: body x] *)
Fixpoint for_each {A} (l : list A) (body : A -> M unit) : M unit :=
  match l with
  | [] => ret tt
  | x :: l' => body x ;; for_each l' body
  end.

(** [d[k]] on a dict with string keys, given by its items *)
Fixpoint assoc {V} (k : string) (d : list (string * V)) : option V :=
  match d with
  | [] => None
  | (k', v) :: d' => if String.eqb k k' then Some v else assoc k d'
  end.

(** *** Calls into the scripting engine

    Through the session held by the module [m]: reading a property of the
    current screen, and performing an action.  A module whose [_sess] is
    [None] has no object to call. *)

Definition none_attribute : exn :=
  AttributeError "'NoneType' object has no attribute".

Definition com {A} (m : module_) (f : screen -> A) : M A := fun E w =>
  match get_sess m w with
  | None => (Raise none_attribute, w)
  | Some s =>
      match link (gui E (hist w) s) with
      | LinkUp => (Ok (f (gui E (hist w) s)), w)
      | _ => (Raise com_error, w)
      end
  end.

Definition act (m : module_) (a : action) : M unit := fun E w =>
  match get_sess m w with
  | None => (Raise none_attribute, w)
  | Some s =>
      match link (gui E (hist w) s) with
      | LinkUp => (Ok tt, record_event (Act s a) w)
      | _ => (Raise com_error, w)
      end
  end.

(** [time.sleep(secs)] *)
Definition sleep (secs : Z) : M unit := fun _ w => (Ok tt, record_event (Sleep secs) w).

Definition is_com_error (e : exn) : bool :=
  match e with
  | com_error => true
  | _ => false
  end.

(** The handler that closes every public procedure of the three drivers:
[[
	except pywintypes.com_error:
		try:
			_sess.IsActive
		except AttributeError as exc:
			raise SapConnectionLostError("Connection to SAP lost!") from exc
		raise
]] *)
Definition except_com_error {A} (m : module_) (c : M A) : M A :=
  try_except c is_com_error (fun e E w =>
    match get_sess m w with
    | None => (Raise (SapConnectionLostError m "Connection to SAP lost!"), w)
    | Some s =>
        match link (gui E (hist w) s) with
        | LinkLost => (Raise (SapConnectionLostError m "Connection to SAP lost!"), w)
        | _ => (Raise e, w)
        end
    end).

(** ** What the three drivers have in common

    [fb03.py], [va03.py] and [qm02.py] each carry their own copy of the
    following helpers, identical but for the module's globals and key table;
    they are written once here, with the module as a parameter. *)

(** [_main_wnd.SendVKey(_virtual_keys[name])] *)
Definition press_key (m : module_) (keys : list (string * Z)) (name : string) : M unit :=
  match assoc name keys with
  | Some code => act m (SendVKey code)
  | None => raise (KeyError name)
  end.

Definition check_prerequisities (m : module_) : M unit := fun _ w =>
  match get_sess m w with
  | None =>
      (Raise (UninitializedModuleError m
         "Uninitialized module! Use the `start()` procedure to run the transaction first!"), w)
  | Some _ => (Ok tt, w)
  end.

Definition is_popup_dialog (m : module_) : M bool :=
  com m (fun sc => window_type sc =? "GuiModalWindow").

Definition is_error_message (m : module_) : M bool :=
  com m (fun sc => stat_type sc =? "E").

Definition dialog_titles : list string :=
  ["Information"; "Status check error"; "Document lines: Display messages"].

Definition in_list (x : string) (l : list string) : bool :=
  existsb (String.eqb x) l.

(** The loop of [_close_popup_dialog]:
    [while _sess.ActiveWindow.text in (dialog_titles) and nth < max_attempts],
    with [remaining = max_attempts - nth]. *)
Fixpoint close_popup_presses (m : module_) (keys : list (string * Z))
    (confirm : bool) (remaining : nat) : M unit :=
  t <- com m window_text ;;
  if in_list t dialog_titles then
    match remaining with
    | 0 => ret tt
    | S r =>
        (if confirm then press_key m keys "Enter" else press_key m keys "F12") ;;
        close_popup_presses m keys confirm r
    end
  else ret tt.

(** Whether some grandchild of the window is a button with the caption. *)
Definition has_button (caption : string) (children : list (list (string * string))) : bool :=
  existsb (existsb (fun gc : string * string =>
             (fst gc =? "GuiButton") && (caption =? strip (snd gc)))) children.

Definition close_popup_dialog (m : module_) (keys : list (string * Z))
    (confirm : bool) (max_attempts : nat) : M unit :=
  close_popup_presses m keys confirm max_attempts ;;
  ty <- com m window_type ;;
  if ty =? "GuiModalWindow" then
    dialog_title <- com m window_text ;;
    raise (RuntimeError ("Could not close the dialog window: '" +:+ dialog_title +:+ "'!"))
  else
    let btn_caption := if confirm then "Yes" else "No" in
    children <- com m window_children ;;
    when (has_button btn_caption children) (act m (PressButton btn_caption)).

(** The assignments to the module globals in [start] and [close]. *)
Definition assign_sess (m : module_) (o : option nat) : M unit :=
  fun _ w => (Ok tt, set_sess m o w).

(** ** engine/fb03.py *)

Module fb03.

Definition MAX_TEXT_FIELD_CHARS : nat := 50.

Definition _virtual_keys : list (string * Z) :=
  [("Enter", 0); ("F2", 2); ("F3", 3); ("CtrlS", 11); ("F12", 12); ("CtrlF1", 25)]%Z.

Definition _press_key : string -> M unit := press_key FB03 _virtual_keys.
Definition _is_error_message : M bool := is_error_message FB03.

Definition _is_warning_message : M bool :=
  com FB03 (fun sc => stat_type sc =? "W").

Definition _is_alert_message : M bool :=
  e <- _is_error_message ;;
  if e then ret true else _is_warning_message.

Definition _check_prerequisities : M unit := check_prerequisities FB03.
Definition _is_popup_dialog : M bool := is_popup_dialog FB03.

Definition _is_cleared_document : M bool :=
  com FB03 (fun sc => (augbl_count sc =? 1)%nat).

Definition _close_popup_dialog (confirm : bool) (max_attempts : nat) : M unit :=
  close_popup_dialog FB03 _virtual_keys confirm max_attempts.

Definition _save_changes : M unit :=
  _press_key "CtrlS" ;;
  msg <- com FB03 stat_text ;;
  alert <- _is_alert_message ;;
  if alert then
    if contains "Net due date on * is in the past" msg
    then _press_key "Enter"
    else raise (DocumentProcessingError FB03 "Unable to save document changes!")
  else ret tt.

Definition _remove_duplicates (text case_id : string) : string :=
  let matches := re_findall case_id text in
  if (2 <=? length matches)%nat && (nth 0 matches "" =? nth 1 matches "")
  then strip (re_sub_empty case_id text)
  else text.

Definition _set_company_code (val : string) : M unit :=
  act FB03 (SetText "RF05L-BUKRS" val).

Definition _set_document_number (val : string) : M unit :=
  act FB03 (SetText "RF05L-BELNR" val).

Definition _set_document_year (val : string) : M unit :=
  act FB03 (SetText "RF05L-GJAHR" val).

(** [doc_num] is an integer or [pd.NA], see [controller.update_accounting_documents]. *)
Definition _set_search_criteria (cocd : string) (doc_num : option Z) (doc_year : N) : M unit :=
  _set_company_code cocd ;;
  _set_document_number (str_na doc_num) ;;
  _set_document_year (str doc_year) ;;
  _press_key "Enter" ;;
  t <- com FB03 stat_text ;;
  if contains "does not exist " t
  then raise (DocumentProcessingError FB03 t)
  else ret tt.

(** The module defines [_clear_search_criteria] three times; the last
    definition is the one in force. *)
Definition _clear_search_criteria : M unit :=
  _set_company_code "" ;;
  _set_document_number "" ;;
  _set_document_year "".

Definition _to_initial_screen : M unit :=
  _press_key "F12" ;;
  _press_key "F12".

Definition _open_document_parameters : M unit :=
  act FB03 (SetFocus "RF05L-ANZDT") ;;
  _press_key "F2".

Definition _append_case_id (text : string) (case_id : N) : M string :=
  if contains (str case_id) text then
    _to_initial_screen ;;
    raise (CaseIdContainedWarning "Document text already contains the case ID!")
  else
    let compiled_text := _remove_duplicates text (str case_id) in
    let compiled_text := strip compiled_text +:+ " D " +:+ str case_id in
    if negb (String.length compiled_text <=? MAX_TEXT_FIELD_CHARS)%nat then
      raise (DocumentProcessingError FB03
               ("'Text' value exceeds " +:+ str (N.of_nat MAX_TEXT_FIELD_CHARS)
                +:+ " chars length!"))
    else ret compiled_text.

Definition _get_document_text : M string := com FB03 sgtxt.

(** The assignment raises AttributeError when the field cannot be set. *)
Definition _set_document_text (val : string) : M unit :=
  settable <- com FB03 sgtxt_settable ;;
  if settable then act FB03 (SetText "BSEG-SGTXT" val)
  else
    _to_initial_screen ;;
    cleared <- _is_cleared_document ;;
    if cleared then
      raise (DocumentProcessingError FB03
               "The document is already cleared and the text cannot be changed!")
    else
      raise (DocumentProcessingError FB03 "Property '<unknown>.text' can not be set.").

Definition start (sess : nat) : M unit :=
  assign_sess FB03 (Some sess) ;;
  com FB03 (fun _ => tt) ;;          (* _sess.findById("wnd[0]") *)
  com FB03 (fun _ => tt) ;;          (* _main_wnd.findById("sbar") *)
  act FB03 (StartTransaction "FB03") ;;
  _clear_search_criteria.

Definition close : M unit := fun E w =>
  match get_sess FB03 w with
  | None => (Ok tt, w)
  | Some _ =>
      (act FB03 EndTransaction ;;
       popup <- _is_popup_dialog ;;
       when popup (_close_popup_dialog true 3) ;;
       assign_sess FB03 None) E w
  end.

Definition append_case_id (document : option Z) (fiscal_year : N)
    (company_code : string) (case_id : N) : M unit :=
  _check_prerequisities ;;
  except_com_error FB03
    (_set_search_criteria company_code document fiscal_year ;;
     alert <- _is_alert_message ;;
     when alert (t <- com FB03 stat_text ;; raise (DocumentProcessingError FB03 t)) ;;
     _open_document_parameters ;;
     old_text <- _get_document_text ;;
     new_text <- _append_case_id old_text case_id ;;
     popup <- _is_popup_dialog ;;
     when popup (_close_popup_dialog false 3 ;;
                 raise (DocumentProcessingError FB03 "Unable to edit the document!")) ;;
     _press_key "CtrlF1" ;;
     _set_document_text new_text ;;
     _save_changes ;;
     _clear_search_criteria).

End fb03.

(** ** engine/va03.py *)

Module va03.

Definition _virtual_keys : list (string * Z) :=
  [("Enter", 0); ("F2", 2); ("F3", 3); ("F5", 5); ("F12", 12); ("ShiftF3", 15)]%Z.

Definition _press_key : string -> M unit := press_key VA03 _virtual_keys.
Definition _check_prerequisities : M unit := check_prerequisities VA03.
Definition _is_popup_dialog : M bool := is_popup_dialog VA03.
Definition _is_error_message : M bool := is_error_message VA03.

Definition _close_popup_dialog (confirm : bool) (max_attempts : nat) : M unit :=
  close_popup_dialog VA03 _virtual_keys confirm max_attempts.

(** The loop joins the texts of MESSTXT1, MESSTXT2, ... for as long as the
    field exists. *)
Definition _get_dialog_message : M string :=
  texts <- com VA03 messtxt ;;
  ret (strip (fold_left (fun msg t => msg +:+ " " +:+ t) texts "")).

Definition _get_reference_number (key : string) : M Z :=
  let credit_note_digits_count := 9 in
  act VA03 (SelectItem key "&Hierarchy") ;;
  act VA03 (DoubleClickItem key "&Hierarchy") ;;
  val <- com VA03 docnuv ;;
  match py_int (last_chars credit_note_digits_count val) with
  | Some num => ret num
  | None => raise (ValueError "invalid literal for int() with base 10")
  end.

(** [_get_node_value(substr, tree, node)], the call with the tree and the
    node given; it is never called without a node.  [GetNextNodeKey] raises
    when the node is the last one of its level, and like every call when the
    link is not up: in both cases the handler returns [None]. *)
Fixpoint _get_node_value_from (substr : string) (node : nodes) : M (option Z) :=
  match node with
  | NoNode => ret None
  | Node key text children sibling =>
      com VA03 (fun _ => tt) ;;          (* tree.getNodeTextByKey(node) *)
      if contains substr text then
        num <- _get_reference_number key ;;
        ret (Some num)
      else
        com VA03 (fun _ => tt) ;;        (* tree.GetSubNodesCol(node) *)
        res <- match children with
               | NoNode => ret None
               | Node _ _ _ _ => _get_node_value_from substr children
               end ;;
        match res with
        | Some r => ret (Some r)
        | None =>
            answered <- try_except (com VA03 (fun _ => true))
                          (fun _ => true) (fun _ => ret false) ;;
            match answered, sibling with
            | true, Node _ _ _ _ => _get_node_value_from substr sibling
            | _, _ => ret None
            end
        end
  end.

(** [_get_node_value(substr)], the call that fetches the tree and its first
    node itself. *)
Definition _get_node_value (substr : string) : M (option Z) :=
  nodes <- com VA03 tree ;;
  match nodes with
  | NoNode => raise StopIteration
  | Node _ _ _ _ => _get_node_value_from substr nodes
  end.

Definition _set_order_number (val : string) : M unit :=
  act VA03 (SetText "VBAK-VBELN" val).
Definition _set_purchase_order_number (val : string) : M unit :=
  act VA03 (SetText "RV45S-BSTNK" val).
Definition _set_sold_to_number (val : string) : M unit :=
  act VA03 (SetText "RV45S-KUNNR" val).
Definition _set_delivery_number (val : string) : M unit :=
  act VA03 (SetText "RV45Z-LFNKD" val).
Definition _set_billing_document_number (val : string) : M unit :=
  act VA03 (SetText "RV45S-FAKKD" val).
Definition _set_wbs_element (val : string) : M unit :=
  act VA03 (SetText "RV45S-PSPID" val).

Definition _clear_search_criteria : M unit :=
  _set_order_number "" ;;
  _set_purchase_order_number "" ;;
  _set_sold_to_number "" ;;
  _set_delivery_number "" ;;
  _set_billing_document_number "" ;;
  _set_wbs_element "".

Definition _to_initial_screen : M unit :=
  _press_key "ShiftF3" ;;
  _press_key "F12".

Definition _open_document_parameters : M unit :=
  act VA03 (SetFocus "KUWEV-KUNNR") ;;
  _press_key "F2" ;;
  _press_key "F5".

Definition _handle_popup_dialog : M unit :=
  msg <- _get_dialog_message ;;
  _close_popup_dialog true 3 ;;
  if contains "information in the customer comment text" msg then ret tt
  else if contains "Order is blocked" msg then
    _press_key "F3" ;;
    raise (DocumentProcessingWarning msg)
  else
    _press_key "F3" ;;
    raise (DocumentProcessingError VA03 msg).

Definition start (sess : nat) : M unit :=
  assign_sess VA03 (Some sess) ;;
  com VA03 (fun _ => tt) ;;          (* _sess.findById("wnd[0]") *)
  com VA03 (fun _ => tt) ;;          (* _main_wnd.findById("sbar") *)
  act VA03 (StartTransaction "VA03") ;;
  _clear_search_criteria.

Definition close : M unit := fun E w =>
  match get_sess VA03 w with
  | None => (Ok tt, w)
  | Some _ =>
      (act VA03 EndTransaction ;;
       popup <- _is_popup_dialog ;;
       when popup (_close_popup_dialog true 3) ;;
       assign_sess VA03 None) E w
  end.

(** [order] is the string the controller passes, [str(order)]. *)
Definition get_creditnote_number (order : string) : M Z :=
  _check_prerequisities ;;
  except_com_error VA03
    (_set_order_number order ;;
     _press_key "Enter" ;;
     popup <- _is_popup_dialog ;;
     when popup _handle_popup_dialog ;;
     t <- com VA03 stat_text ;;
     when (contains "is not in the database or has been archived" t)
       (raise (DocumentProcessingError VA03 ("Order " +:+ order +:+ " not found!"))) ;;
     _open_document_parameters ;;
     popup <- _is_popup_dialog ;;
     when popup _handle_popup_dialog ;;
     err <- _is_error_message ;;
     when err (t <- com VA03 stat_text ;; raise (DocumentProcessingError VA03 t)) ;;
     num <- _get_node_value "Accounting document" ;;
     _to_initial_screen ;;
     match num with
     | None =>
         raise (CreditNoteNotFoundWarning
                  "The credit note does not exist yet in the system.")
     | Some num =>
         _clear_search_criteria ;;
         ret num
     end).

End va03.

(** ** engine/qm02.py *)

Module qm02.

Definition _virtual_keys : list (string * Z) :=
  [("Enter", 0); ("F2", 2); ("F8", 8); ("F9", 9); ("CtrlS", 11); ("F12", 12);
   ("ShiftF3", 15); ("ShiftF4", 16); ("ShiftF12", 24); ("CtrlF1", 25)]%Z.

Definition _is_error_message : M bool := is_error_message QM02.
Definition _press_key : string -> M unit := press_key QM02 _virtual_keys.

Definition _to_initial_screen : M unit :=
  _press_key "ShiftF3" ;;
  _press_key "F12".

Definition _check_prerequisities : M unit := check_prerequisities QM02.
Definition _is_popup_dialog : M bool := is_popup_dialog QM02.

Definition _close_popup_dialog (confirm : bool) (max_attempts : nat) : M unit :=
  close_popup_dialog QM02 _virtual_keys confirm max_attempts.

(** [_main_wnd.FindByName("SAPLIQS0MASSNAHMEN_VIEWER", "GuiTableControl")] *)
Definition _get_task_viewer : M unit := com QM02 (fun _ => tt).

Definition _select_task (row_idx : Z) : M unit :=
  _get_task_viewer ;;
  act QM02 (SetScrollbar row_idx) ;;
  _get_task_viewer ;;
  act QM02 (SelectRow row_idx).

Definition _activate_tab (name : string) : M unit :=
  if name =? "Data" then act QM02 (SelectTab "TAB_GROUP_10" 3)
  else raise (AssertionError "Unrecognized tab name!").

(** The loop [while _is_popup_dialog(): _close_popup_dialog(confirm = True)]
    has no bound of its own. *)
Fixpoint confirm_popups (fuel : nat) : M unit :=
  popup <- _is_popup_dialog ;;
  if popup then
    match fuel with
    | 0 => out_of_fuel
    | S fuel' => _close_popup_dialog true 3 ;; confirm_popups fuel'
    end
  else ret tt.

Definition _complete_task (fuel : nat) (task_num : Z) : M unit :=
  _select_task (task_num - 1) ;;
  act QM02 (Press "FC_ERLEDIGT") ;;
  t <- com QM02 window_text ;;
  if t =? "Status check error" then
    _close_popup_dialog false 3
  else
    confirm_popups fuel.

Definition _set_notification_id (val : string) : M unit :=
  act QM02 (SetText "wnd[0]/usr/ctxtRIWO00-QMNUM" val).

Definition _clear_notification_search_field : M unit :=
  _set_notification_id "".

(** A task parameter is the task number (an integer) or the completion date
    (a string). *)
Inductive task_param :=
| TaskNumber (n : Z)
| TaskDate (d : string).

Definition _get_task_param (row_idx : Z) (param : string) : M task_param :=
  if param =? "number" then
    num <- com QM02 (fun sc => cell sc row_idx 0) ;;
    match py_int num with
    | Some n => ret (TaskNumber n)
    | None => raise (ValueError "invalid literal for int() with base 10")
    end
  else if param =? "completion_date" then
    d <- com QM02 (fun sc => cell sc row_idx 16) ;;
    ret (TaskDate d)
  else raise (AssertionError ("Unrecognized parameter: " +:+ param +:+ "!")).

(** The dict [tasks]: task number to completion date and row index, in
    insertion order.  Assigning to a key that is present replaces its value
    and keeps its place. *)
Record task := { completion_date : string; row_idx : Z }.

Fixpoint dict_set (k : Z) (v : task) (d : list (Z * task)) : list (Z * task) :=
  match d with
  | [] => [(k, v)]
  | (k', v') :: d' => if (k =? k')%Z then (k, v) :: d' else (k', v') :: dict_set k v d'
  end.

(** The loop of [_get_available_tasks], [while row_idx < last_row_idx], with
    [remaining = last_row_idx - row_idx]. *)
Fixpoint available_tasks_from (remaining : nat) (row_idx : Z) (tasks : list (Z * task))
    : M (list (Z * task)) :=
  match remaining with
  | 0 => ret tasks
  | S remaining' =>
      visible <- com QM02 visible_row_count ;;
      if (visible =? 0)%Z then raise (ZeroDivisionError "integer modulo by zero")
      else
        let visible_row_idx := (row_idx mod visible)%Z in
        when ((visible_row_idx =? 0)%Z && (0 <? row_idx)%Z)
          (act QM02 (SetScrollbar row_idx) ;; _get_task_viewer) ;;
        id_text <- com QM02 (fun sc => cell sc visible_row_idx 0) ;;
        if id_text =? "" then ret tasks
        else
          task_num <- _get_task_param visible_row_idx "number" ;;
          compl_date <- _get_task_param visible_row_idx "completion_date" ;;
          match task_num, compl_date with
          | TaskNumber n, TaskDate d =>
              available_tasks_from remaining' (row_idx + 1)
                (dict_set n {| completion_date := d; row_idx := row_idx |} tasks)
          | _, _ => raise (TypeError "unexpected task parameter")
          end
  end.

Definition _get_available_tasks : M (list (Z * task)) :=
  rows <- com QM02 row_count ;;
  let last_row_idx := (rows - 1)%Z in
  available_tasks_from (Z.to_nat (last_row_idx - 0)) 0 [].

(** The loop of [_reopen_blocked], [while n_attempts <= max_attempts], with
    [remaining = max_attempts + 1 - n_attempts]. *)
Fixpoint reopen_attempts (remaining : nat) (wait_secs : Z) : M unit :=
  match remaining with
  | 0 => ret tt
  | S remaining' =>
      sleep wait_secs ;;
      _press_key "Enter" ;;
      err <- _is_error_message ;;
      if negb err then ret tt else reopen_attempts remaining' wait_secs
  end.

Definition _reopen_blocked (max_attempts : nat) (wait_secs : Z) : M unit :=
  reopen_attempts (max_attempts + 1) wait_secs ;;
  err <- _is_error_message ;;
  when err (t <- com QM02 stat_text ;; raise (NotificationCompletionError t)).

Definition _search_notification (val : N) : M unit :=
  _set_notification_id (str val) ;;
  _press_key "Enter" ;;
  popup <- _is_popup_dialog ;;
  when popup (_close_popup_dialog true 3) ;;
  msg <- com QM02 stat_text ;;
  when (contains "does not exist" msg) (raise (NotificationCompletionError msg)) ;;
  when (contains "can only be displayed" msg)
    (_press_key "F12" ;; raise (NotificationCompletionWarning msg)) ;;
  if contains "blocked" msg then _reopen_blocked 3 2
  else
    popup <- _is_popup_dialog ;;
    when popup (_close_popup_dialog true 3 ;;
                _to_initial_screen ;;
                raise (NotificationCompletionError msg)).

Definition _complete (fuel : nat) : M unit :=
  tasks <- _get_available_tasks ;;
  for_each tasks (fun item =>
    let '(task_num, param) := item in
    if negb (completion_date param =? "") then ret tt
    else _complete_task fuel task_num) ;;
  act QM02 (Press "tbar[1]/btn[20]") ;;
  t <- com QM02 window_text ;;
  when (t =? "Status check error")
    (_close_popup_dialog false 3 ;;
     _press_key "F12" ;;
     popup <- _is_popup_dialog ;;
     when popup (_close_popup_dialog false 3) ;;
     raise (NotificationCompletionError "Status check error!")).

Definition start (sess : nat) : M unit :=
  assign_sess QM02 (Some sess) ;;
  com QM02 (fun _ => tt) ;;          (* _sess.findById("wnd[0]") *)
  com QM02 (fun _ => tt) ;;          (* _main_wnd.findById("sbar") *)
  act QM02 (StartTransaction "QM02") ;;
  _clear_notification_search_field.

Definition close : M unit := fun E w =>
  match get_sess QM02 w with
  | None => (Ok tt, w)
  | Some _ =>
      (act QM02 EndTransaction ;;
       popup <- _is_popup_dialog ;;
       when popup (_close_popup_dialog true 3) ;;
       assign_sess QM02 None) E w
  end.

Definition complete_notification (fuel : nat) (notif_id : N) : M unit :=
  except_com_error QM02
    (_check_prerequisities ;;
     _search_notification notif_id ;;
     _activate_tab "Data" ;;
     _get_task_viewer ;;
     _complete fuel ;;
     _press_key "Enter" ;;
     _clear_notification_search_field).

End qm02.

(** ** engine/sap.py *)

Module sap.

Definition is_connect (e : event) : bool :=
  match e with
  | Connect _ _ => true
  | _ => false
  end.

(** Modelled from the spec: [engine/sap.py] is not among the sources.  The
    design document, section 4.1: "open(system) -> Handle fails with
    ConnectionError if the remote host is unreachable or rejects the
    session", and a handle "may be recreated on connection loss".  Sessions
    are numbered in the order in which they are opened. *)
Definition connect (system : string) : M nat := fun E w =>
  if reachable E (hist w) then
    let s := length (filter is_connect (hist w)) in
    (Ok s, record_event (Connect system s) w)
  else (Raise (ConnectionError "Could not connect to SAP."), w).

End sap.

(** ** engine/controller.py: the three processing stages *)

Module controller.

Definition ORDER_NUMBERING_PREFIX : string := "501".
Definition MAX_RECOVERY_ATTEMPTS : nat := 3.

(** One row of the user's data.  [None] is [pd.NA].  The company code of a
    row is present whenever its document number is (input validation); it is
    the empty string in a row that has none. *)
Record row := {
  Company_Code : string;
  Document_Number : option N;
  Document_Year : option N;
  Case_ID : option N;
  Notification : option N;
  Message : option string;
  Credit_Note : option Z;
  Is_Order : option bool
}.

(** The frame; the index of a row is its position. *)
Abbreviation DataFrame := (list row).

Definition set_Message (v : option string) (r : row) : row :=
  {| Company_Code := Company_Code r; Document_Number := Document_Number r;
     Document_Year := Document_Year r; Case_ID := Case_ID r;
     Notification := Notification r; Message := v;
     Credit_Note := Credit_Note r; Is_Order := Is_Order r |}.

Definition set_Credit_Note (v : option Z) (r : row) : row :=
  {| Company_Code := Company_Code r; Document_Number := Document_Number r;
     Document_Year := Document_Year r; Case_ID := Case_ID r;
     Notification := Notification r; Message := Message r;
     Credit_Note := v; Is_Order := Is_Order r |}.

Definition set_Is_Order (v : option bool) (r : row) : row :=
  {| Company_Code := Company_Code r; Document_Number := Document_Number r;
     Document_Year := Document_Year r; Case_ID := Case_ID r;
     Notification := Notification r; Message := Message r;
     Credit_Note := Credit_Note r; Is_Order := v |}.

Definition isna {A} (x : option A) : bool :=
  match x with
  | None => true
  | Some _ => false
  end.

(** [result.loc[mask, column] = v] with [mask = result["Document_Number"] == order];
    a missing document number is not selected. *)
Definition loc_mask (order : N) (f : row -> row) (result : DataFrame) : DataFrame :=
  map (fun r => match Document_Number r with
                | Some d => if (d =? order)%N then f r else r
                | None => r
                end) result.

(** [result.loc[idx, column] = v] *)
Definition loc_idx (idx : nat) (f : row -> row) (result : DataFrame) : DataFrame :=
  alter f idx result.

Definition connect_to_sap (system : string) : M nat := sap.connect system.

Definition recovery_failed (m : string) : exn :=
  RuntimeError ("Attempts to handle the " +:+ m +:+ ".SapConnectionLostError exception failed!").

(** The loop [while n_attempts < MAX_RECOVERY_ATTEMPTS] of
    [assign_credit_note_numbers].  It returns the value of [n_attempts] and
    the frame at the exit of the loop.  The handler of
    [CreditNoteNotFoundWarning] has no [break] and does not touch
    [n_attempts], so the loop has no bound of its own. *)
Fixpoint lookup_attempts (fuel : nat) (order : N) (n_attempts : nat)
    (result : DataFrame) : M (nat * DataFrame) :=
  if (n_attempts <? MAX_RECOVERY_ATTEMPTS)%nat then
    match fuel with
    | 0 => out_of_fuel
    | S fuel' => fun E w =>
        match va03.get_creditnote_number (str order) E w with
        | (Raise (SapConnectionLostError VA03 _), w') =>
            (sess <- connect_to_sap (system_code E) ;;
             va03.start sess ;;
             lookup_attempts fuel' order (n_attempts + 1) result) E w'
        | (Raise (DocumentProcessingError VA03 msg), w') =>
            (Ok (n_attempts, loc_mask order (set_Message (Some msg)) result), w')
        | (Raise (DocumentProcessingWarning msg), w') =>
            (Ok (n_attempts, loc_mask order (set_Message (Some msg)) result), w')
        | (Raise (CreditNoteNotFoundWarning msg), w') =>
            lookup_attempts fuel' order n_attempts
              (loc_mask order (set_Credit_Note None)
                 (loc_mask order (set_Message (Some msg)) result)) E w'
        | (Ok credit_note, w') =>
            (Ok (0, loc_mask order (set_Credit_Note (Some credit_note)) result), w')
        | (Raise e, w') => (Raise e, w')
        | (OutOfFuel, w') => (OutOfFuel, w')
        end
    end
  else ret (n_attempts, result).

(** The loop [for nth, order in enumerate(orders, start = 1)]. *)
Fixpoint lookup_orders (fuel : nat) (orders : list N) (result : DataFrame) : M DataFrame :=
  match orders with
  | [] => ret result
  | order :: orders' =>
      r <- lookup_attempts fuel order 0 result ;;
      let '(n_attempts, result) := r in
      if negb (n_attempts =? 0)%nat then raise (recovery_failed "va03")
      else lookup_orders fuel orders' result
  end.

(** [result.assign(Is_Order = doc_nums.str.startswith(ORDER_NUMBERING_PREFIX))]
    with [doc_nums = result["Document_Number"].astype("string")]; the flag of
    a row without a document number is [pd.NA]. *)
Definition flag_orders (in_data : DataFrame) : DataFrame :=
  map (fun r => set_Is_Order
                  (startswith ORDER_NUMBERING_PREFIX <$> (str <$> Document_Number r)) r)
      in_data.

(** [result["Is_Order"].sum()] *)
Definition count_orders (result : DataFrame) : nat :=
  length (filter (fun r => bool_decide (Is_Order r = Some true)) result).

(** [result["Document_Number"][result["Is_Order"]]] *)
Definition order_numbers (result : DataFrame) : list N :=
  omap (fun r => if bool_decide (Is_Order r = Some true)
                 then Document_Number r else None) result.

Definition none_found : exn :=
  RuntimeError "None of the processed orders was found in VA03!".

Definition assign_credit_note_numbers (fuel : nat) (sess : nat) (in_data : DataFrame)
    : M DataFrame :=
  if forallb (fun r => isna (Document_Number r)) in_data then ret in_data
  else
    let result := flag_orders in_data in
    let n_orders := count_orders result in
    if (n_orders =? 0)%nat then ret result
    else
      let orders := order_numbers result in
      va03.start sess ;;
      result <- lookup_orders fuel orders result ;;
      va03.close ;;
      if forallb (fun r => isna (Credit_Note r)) result then raise none_found
      else if existsb (fun r => match Credit_Note r with
                                | Some c => (c <? 0)%Z
                                | None => false
                                end) result then
        (* result["Credit_Note"].astype("UInt64") *)
        raise (TypeError "cannot safely cast non-equivalent object to uint64")
      else ret result.

Definition int_of_NA : exn :=
  TypeError "int() argument must be a string, a bytes-like object or a real number, not 'NAType'".

(** The loop [while n_attempts < MAX_RECOVERY_ATTEMPTS] of
    [update_accounting_documents]; it returns the value of [n_attempts] and
    the frame at the exit of the loop.  Every pass that stays in the loop adds
    one to [n_attempts], so [MAX_RECOVERY_ATTEMPTS] passes are all it can
    make (lemma [update_attempts_fuel]). *)
Fixpoint update_attempts (fuel : nat) (idx : nat) (doc_num : option Z) (doc_year : N)
    (cocd : string) (case_id : N) (n_attempts : nat) (result : DataFrame)
    : M (nat * DataFrame) :=
  if (n_attempts <? MAX_RECOVERY_ATTEMPTS)%nat then
    match fuel with
    | 0 => out_of_fuel
    | S fuel' => fun E w =>
        match fb03.append_case_id doc_num doc_year cocd case_id E w with
        | (Raise (SapConnectionLostError FB03 _), w') =>
            (sess <- connect_to_sap (system_code E) ;;
             fb03.start sess ;;
             update_attempts fuel' idx doc_num doc_year cocd case_id (n_attempts + 1) result)
              E w'
        | (Raise (CaseIdContainedWarning msg), w') =>
            (Ok (n_attempts, loc_idx idx (set_Message (Some msg)) result), w')
        | (Raise (DocumentProcessingError FB03 msg), w') =>
            (Ok (n_attempts, loc_idx idx (set_Message (Some msg)) result), w')
        | (Ok _, w') =>
            (Ok (0, loc_idx idx (set_Message (Some "Document updated.")) result), w')
        | (Raise e, w') => (Raise e, w')
        | (OutOfFuel, w') => (OutOfFuel, w')
        end
    end
  else ret (n_attempts, result).

(** The part of the loop body that follows the choice of [doc_num]. *)
Definition update_document (idx : nat) (row : row) (doc_num : option Z)
    (result : DataFrame) : M DataFrame :=
  match Document_Year row, Case_ID row with
  | None, _ => raise int_of_NA
  | Some _, None => raise int_of_NA
  | Some doc_year, Some case_id =>
      let cocd := Company_Code row in
      r <- update_attempts MAX_RECOVERY_ATTEMPTS idx doc_num doc_year cocd case_id 0 result ;;
      let '(n_attempts, result) := r in
      if negb (n_attempts =? 0)%nat then raise (recovery_failed "fb03")
      else ret result
  end.

(** The branch that ends in [continue]. *)
Definition skip_document (idx : nat) (result : DataFrame) : DataFrame :=
  loc_idx idx
    (fun r =>
       let msg := match Message r with
                  | None => ""
                  | Some m => m
                  end in
       set_Message (Some (strip (msg +:+ " Document skipped."))) r)
    result.

(** One pass of the loop [for nth, row in enumerate(in_data.itertuples(), start = 1)]. *)
Definition update_row (idx : nat) (row : row) (result : DataFrame) : M DataFrame :=
  match Is_Order row with
  | None => raise (TypeError "boolean value of NA is ambiguous")
  | Some is_order =>
      if negb is_order then
        update_document idx row (Z.of_N <$> Document_Number row) result
      else
        match Credit_Note row with
        | Some credit_note => update_document idx row (Some credit_note) result
        | None => ret (skip_document idx result)
        end
  end.

Fixpoint update_rows (idx : nat) (rows : list row) (result : DataFrame) : M DataFrame :=
  match rows with
  | [] => ret result
  | row :: rows' =>
      result <- update_row idx row result ;;
      update_rows (S idx) rows' result
  end.

Definition update_accounting_documents (sess : nat) (in_data : DataFrame) : M DataFrame :=
  let n_docs := length (filter (fun r => negb (isna (Document_Number r))) in_data) in
  if (n_docs =? 0)%nat then ret in_data
  else
    fb03.start sess ;;
    let result := in_data in
    result <- update_rows 0 in_data result ;;
    fb03.close ;;
    ret result.

(** The loop [while n_attempts < MAX_RECOVERY_ATTEMPTS] of
    [close_service_notifications]; it returns the value of [n_attempts] at
    the exit of the loop and, when a pass left the loop through [break], the
    value of [msg].  [fuel] is for the driver, the loop itself is given
    [MAX_RECOVERY_ATTEMPTS] passes. *)
Fixpoint close_attempts (passes : nat) (fuel : nat) (notif_id : N) (n_attempts : nat)
    : M (nat * option string) :=
  if (n_attempts <? MAX_RECOVERY_ATTEMPTS)%nat then
    match passes with
    | 0 => out_of_fuel
    | S passes' => fun E w =>
        match qm02.complete_notification fuel notif_id E w with
        | (Raise (SapConnectionLostError QM02 _), w') =>
            (sess <- connect_to_sap (system_code E) ;;
             fb03.start sess ;;
             close_attempts passes' fuel notif_id (n_attempts + 1)) E w'
        | (Raise exc, w') => (Ok (n_attempts, Some (exn_str exc)), w')
        | (Ok _, w') => (Ok (0, Some "Notification completed."), w')
        | (OutOfFuel, w') => (OutOfFuel, w')
        end
    end
  else ret (n_attempts, None).

Definition close_row (fuel : nat) (idx : nat) (row : row) (result : DataFrame) : M DataFrame :=
  match Notification row with
  | None => raise int_of_NA
  | Some notif_id =>
      r <- close_attempts MAX_RECOVERY_ATTEMPTS fuel notif_id 0 ;;
      let '(n_attempts, msg) := r in
      if negb (n_attempts =? 0)%nat then raise (recovery_failed "qm02")
      else
        match msg, Message <$> result !! idx with
        | Some msg, Some (Some old) =>
            ret (loc_idx idx (set_Message (Some (old +:+ " " +:+ msg))) result)
        | Some _, Some None =>
            raise (TypeError "sequence item 0: expected str instance, NAType found")
        | Some _, None => raise (KeyError "Message")
        | None, _ => raise (UnboundLocalError "local variable 'msg' referenced before assignment")
        end
  end.

Fixpoint close_rows (fuel : nat) (idx : nat) (rows : list row) (result : DataFrame)
    : M DataFrame :=
  match rows with
  | [] => ret result
  | row :: rows' =>
      result <- close_row fuel idx row result ;;
      close_rows fuel (S idx) rows' result
  end.

Definition close_service_notifications (fuel : nat) (sess : nat) (in_data : DataFrame)
    : M DataFrame :=
  let result := in_data in
  let n_notifs := length (filter (fun r => negb (isna (Notification r))) result) in
  if (n_notifs =? 0)%nat then ret in_data
  else
    qm02.start sess ;;
    result <- close_rows fuel 0 in_data result ;;
    qm02.close ;;
    ret result.

End controller.

(** ** app.py: the processing phase of [main] *)

Module app.

Definition processing (fuel : nat) (sess : nat) (data : controller.DataFrame)
    : M controller.DataFrame :=
  in_data <- controller.assign_credit_note_numbers fuel sess data ;;
  update_output <- controller.update_accounting_documents sess in_data ;;
  controller.close_service_notifications fuel sess update_output.

End app.


(** ** The helpers of the report and of the mail modules that compute

    [engine/report.py] and [engine/mails.py] talk to the file system and to
    the mail servers; the two functions below only compute. *)

(** [c.lower()] for a code point below 256: the letters A-Z and the capital
    letters of the Latin-1 supplement (0xC0-0xD6, 0xD8-0xDE) move up by 32. *)
Definition lower_char (c : ascii) : ascii :=
  let n := nat_of_ascii c in
  if ((65 <=? n)%nat && (n <=? 90)%nat)
     || ((192 <=? n)%nat && (n <=? 214)%nat)
     || ((216 <=? n)%nat && (n <=? 222)%nat)
  then ascii_of_nat (n + 32)
  else c.

(** [s.lower()] *)
Fixpoint lower (s : string) : string :=
  match s with
  | "" => ""
  | String c s' => String (lower_char c) (lower s')
  end.

(** [s.endswith(p)] *)
Definition endswith (p s : string) : bool :=
  (String.length p <=? String.length s)%nat
  && (drop_s (String.length s - String.length p) s =? p).

(** *** engine/report.py *)

Module report.

(** A cell of a column of the frame: a string, an integer or [pd.NA]. *)
Inductive value :=
| Text (s : string)
| Int (z : Z)
| NA.

(** [Series.astype("string")] on one cell; [None] is [pd.NA]. *)
Definition astype_string (v : value) : option string :=
  match v with
  | Text s => Some s
  | Int z => Some (str_int z)
  | NA => None
  end.

Definition _calculate_max_column_width (column_data_values : list value)
    (column_name : string) : nat :=
  let column_lengths := omap astype_string column_data_values in
  let column_lengths := map String.length column_lengths in
  let column_lengths := column_lengths ++ [String.length column_name] in
  let column_width := max_list column_lengths in
  if negb (column_name =? "Message") then column_width + 2 else column_width.

End report.

(** *** engine/mails.py *)

Module mails.

(** What the function reads of an attachment of a message, and the keys of
    a dictionary it returns. *)
Record attachment := {
  name : string;
  content : list Byte.byte
}.

(** [attachments] is [msg.attachments]; [ext] is [None] or a string, ".*"
    when the caller gives none. *)
Fixpoint get_attachments (attachments : list attachment) (ext : option string)
    : list attachment :=
  match attachments with
  | [] => []
  | att :: rest =>
      let fetch := match ext with
                   | Some e => endswith e (lower (name att))
                   | None => false
                   end in
      if fetch
      then {| name := name att; content := content att |} :: get_attachments rest ext
      else get_attachments rest ext
  end.

End mails.

(** ** The credit note lookup with the value the call evaluates to

    [va03.get_creditnote_number] above yields [num], the number the function
    has read from the document flow and that its docstring promises.  The
    source function has no [return] statement: a call that raises nothing
    evaluates to [None], and [None] is what the controller writes into
    [Credit_Note].  This module gives the call with that value and, with it,
    the loop, the stage and the processing phase; they are otherwise those of
    [controller] and of [app]. *)

Module no_return.

Definition get_creditnote_number (order : string) : M (option Z) :=
  va03.get_creditnote_number order ;;
  ret None.

(** The loop [while n_attempts < MAX_RECOVERY_ATTEMPTS] of
    [assign_credit_note_numbers]. *)
Fixpoint lookup_attempts (fuel : nat) (order : N) (n_attempts : nat)
    (result : controller.DataFrame) : M (nat * controller.DataFrame) :=
  if (n_attempts <? controller.MAX_RECOVERY_ATTEMPTS)%nat then
    match fuel with
    | 0 => out_of_fuel
    | S fuel' => fun E w =>
        match get_creditnote_number (str order) E w with
        | (Raise (SapConnectionLostError VA03 _), w') =>
            (sess <- controller.connect_to_sap (system_code E) ;;
             va03.start sess ;;
             lookup_attempts fuel' order (n_attempts + 1) result) E w'
        | (Raise (DocumentProcessingError VA03 msg), w') =>
            (Ok (n_attempts,
                 controller.loc_mask order (controller.set_Message (Some msg)) result), w')
        | (Raise (DocumentProcessingWarning msg), w') =>
            (Ok (n_attempts,
                 controller.loc_mask order (controller.set_Message (Some msg)) result), w')
        | (Raise (CreditNoteNotFoundWarning msg), w') =>
            lookup_attempts fuel' order n_attempts
              (controller.loc_mask order (controller.set_Credit_Note None)
                 (controller.loc_mask order (controller.set_Message (Some msg)) result))
              E w'
        | (Ok credit_note, w') =>
            (Ok (0, controller.loc_mask order (controller.set_Credit_Note credit_note)
                      result), w')
        | (Raise e, w') => (Raise e, w')
        | (OutOfFuel, w') => (OutOfFuel, w')
        end
    end
  else ret (n_attempts, result).

(** The loop [for nth, order in enumerate(orders, start = 1)]. *)
Fixpoint lookup_orders (fuel : nat) (orders : list N) (result : controller.DataFrame)
    : M controller.DataFrame :=
  match orders with
  | [] => ret result
  | order :: orders' =>
      r <- lookup_attempts fuel order 0 result ;;
      let '(n_attempts, result) := r in
      if negb (n_attempts =? 0)%nat then raise (controller.recovery_failed "va03")
      else lookup_orders fuel orders' result
  end.

Definition assign_credit_note_numbers (fuel : nat) (sess : nat)
    (in_data : controller.DataFrame) : M controller.DataFrame :=
  if forallb (fun r => controller.isna (controller.Document_Number r)) in_data
  then ret in_data
  else
    let result := controller.flag_orders in_data in
    let n_orders := controller.count_orders result in
    if (n_orders =? 0)%nat then ret result
    else
      let orders := controller.order_numbers result in
      va03.start sess ;;
      result <- lookup_orders fuel orders result ;;
      va03.close ;;
      if forallb (fun r => controller.isna (controller.Credit_Note r)) result
      then raise controller.none_found
      else if existsb (fun r => match controller.Credit_Note r with
                                | Some c => (c <? 0)%Z
                                | None => false
                                end) result then
        (* result["Credit_Note"].astype("UInt64") *)
        raise (TypeError "cannot safely cast non-equivalent object to uint64")
      else ret result.

Definition processing (fuel : nat) (sess : nat) (data : controller.DataFrame)
    : M controller.DataFrame :=
  in_data <- assign_credit_note_numbers fuel sess data ;;
  update_output <- controller.update_accounting_documents sess in_data ;;
  controller.close_service_notifications fuel sess update_output.

End no_return.
(** * Properties *)

(** ** Vocabulary *)

(** The order of the design document: "current node, then recursively its
    first child and the child's subtree, then its next sibling". *)
Fixpoint preorder (n : nodes) : list (string * string) :=
  match n with
  | NoNode => []
  | Node key text children sibling => (key, text) :: preorder children ++ preorder sibling
  end.

(** "first match wins" *)
Definition first_match (substr : string) (n : nodes) : option string :=
  fst <$> find (fun kt => contains substr (snd kt)) (preorder n).

(** [w'] extends [w] by events that all satisfy [P]. *)
Definition extends (P : event -> Prop) (w w' : world) : Prop :=
  exists evs, hist w' = hist w ++ evs /\ Forall P evs.

(** Whatever the environment and the world, [c] only adds events that
    satisfy [P], and it is not cut off for lack of fuel. *)
Definition emits {A} (P : event -> Prop) (c : M A) : Prop :=
  forall E w, (c E w).1 <> OutOfFuel /\ extends P w (c E w).2.

(** The keys and fields with which the program edits the document text:
    Ctrl+F1 opens the edit mode, BSEG-SGTXT is the text field. *)
Definition edits (e : event) : bool :=
  match e with
  | Act _ (SendVKey code) => (code =? 25)%Z
  | Act _ (SetText field _) => field =? "BSEG-SGTXT"
  | _ => false
  end.

Definition no_edit (e : event) : Prop := edits e = false.

Definition text_too_long : exn :=
  DocumentProcessingError FB03 "'Text' value exceeds 50 chars length!".

(** The screen of session [s] never shows an alert, and the link holds. *)
Definition opens_quietly (E : env) (s : nat) : Prop :=
  forall h, link (gui E h s) = LinkUp
            /\ contains "does not exist " (stat_text (gui E h s)) = false
            /\ (stat_type (gui E h s) =? "E") = false
            /\ (stat_type (gui E h s) =? "W") = false.

(** On session [s] the document opens without an alert or a popup, its text
    is [text], and the text can be edited and saved. *)
Definition edits_quietly (E : env) (s : nat) (text : string) : Prop :=
  forall h,
    link (gui E h s) = LinkUp
    /\ contains "does not exist " (stat_text (gui E h s)) = false
    /\ (stat_type (gui E h s) =? "E") = false
    /\ (stat_type (gui E h s) =? "W") = false
    /\ (window_type (gui E h s) =? "GuiModalWindow") = false
    /\ sgtxt (gui E h s) = text
    /\ sgtxt_settable (gui E h s) = true.

(** The link of session [s] holds. *)
Definition link_holds (E : env) (s : nat) : Prop :=
  forall h, link (gui E h s) = LinkUp.

(** Pressing the completion button of a task brings up the popup. *)
Definition task_check_fails (E : env) (s : nat) : Prop :=
  forall h, window_text (gui E (h ++ [Act s (Press "FC_ERLEDIGT")]) s) = "Status check error".

(** Pressing the completion control of the notification brings up the popup. *)
Definition final_check_fails (E : env) : Prop :=
  forall s h,
    window_text (gui E (h ++ [Act s (Press "tbar[1]/btn[20]")]) s) = "Status check error".

(** The decline key (F12) closes a popup. *)
Definition decline_closes (E : env) (s : nat) : Prop :=
  forall h,
    in_list (window_text (gui E (h ++ [Act s (SendVKey 12)]) s)) dialog_titles = false
    /\ (window_type (gui E (h ++ [Act s (SendVKey 12)]) s) =? "GuiModalWindow") = false.

(** After Enter on the initial screen the notification is open: no popup,
    and a status line that reports nothing. *)
Definition notification_opens (E : env) (s : nat) : Prop :=
  forall h,
    (window_type (gui E (h ++ [Act s (SendVKey 0)]) s) =? "GuiModalWindow") = false
    /\ contains "does not exist" (stat_text (gui E (h ++ [Act s (SendVKey 0)]) s)) = false
    /\ contains "can only be displayed" (stat_text (gui E (h ++ [Act s (SendVKey 0)]) s))
       = false
    /\ contains "blocked" (stat_text (gui E (h ++ [Act s (SendVKey 0)]) s)) = false.

(** The task grid can be read: some rows are visible, and the first cell of
    a row is empty or holds a number. *)
Definition grid_readable (E : env) (s : nat) : Prop :=
  forall h,
    visible_row_count (gui E h s) <> 0%Z
    /\ forall row, cell (gui E h s) row 0 = "" \/ is_Some (py_int (cell (gui E h s) row 0)).

(** Session assignments apart, a computation leaves the modules' sessions
    as they are. *)
Definition keeps_sess {A} (c : M A) : Prop :=
  forall E w m, get_sess m (c E w).2 = get_sess m w.

(** Any event at all. *)
Definition any_event (e : event) : Prop := True.

(** ** Concrete screens, environments and worlds *)

(** The main window of a transaction, with nothing to report. *)
Definition plain_screen : screen :=
  {| link := LinkUp; window_type := "GuiMainWindow"; window_text := "SAP";
     window_children := []; stat_text := ""; stat_type := "";
     sgtxt := ""; sgtxt_settable := true; augbl_count := 0;
     messtxt := []; tree := NoNode; docnuv := "";
     row_count := 0; visible_row_count := 1; cell := fun _ _ => "" |}.

Definition with_link (l : link_state) (sc : screen) : screen :=
  {| link := l; window_type := window_type sc; window_text := window_text sc;
     window_children := window_children sc; stat_text := stat_text sc;
     stat_type := stat_type sc; sgtxt := sgtxt sc; sgtxt_settable := sgtxt_settable sc;
     augbl_count := augbl_count sc; messtxt := messtxt sc; tree := tree sc;
     docnuv := docnuv sc; row_count := row_count sc;
     visible_row_count := visible_row_count sc; cell := cell sc |}.

Definition with_window (ty text : string) (sc : screen) : screen :=
  {| link := link sc; window_type := ty; window_text := text;
     window_children := window_children sc; stat_text := stat_text sc;
     stat_type := stat_type sc; sgtxt := sgtxt sc; sgtxt_settable := sgtxt_settable sc;
     augbl_count := augbl_count sc; messtxt := messtxt sc; tree := tree sc;
     docnuv := docnuv sc; row_count := row_count sc;
     visible_row_count := visible_row_count sc; cell := cell sc |}.

Definition with_status (ty text : string) (sc : screen) : screen :=
  {| link := link sc; window_type := window_type sc; window_text := window_text sc;
     window_children := window_children sc; stat_text := text;
     stat_type := ty; sgtxt := sgtxt sc; sgtxt_settable := sgtxt_settable sc;
     augbl_count := augbl_count sc; messtxt := messtxt sc; tree := tree sc;
     docnuv := docnuv sc; row_count := row_count sc;
     visible_row_count := visible_row_count sc; cell := cell sc |}.

Definition with_sgtxt (text : string) (sc : screen) : screen :=
  {| link := link sc; window_type := window_type sc; window_text := window_text sc;
     window_children := window_children sc; stat_text := stat_text sc;
     stat_type := stat_type sc; sgtxt := text; sgtxt_settable := sgtxt_settable sc;
     augbl_count := augbl_count sc; messtxt := messtxt sc; tree := tree sc;
     docnuv := docnuv sc; row_count := row_count sc;
     visible_row_count := visible_row_count sc; cell := cell sc |}.

Definition with_tree (t : nodes) (reference : string) (sc : screen) : screen :=
  {| link := link sc; window_type := window_type sc; window_text := window_text sc;
     window_children := window_children sc; stat_text := stat_text sc;
     stat_type := stat_type sc; sgtxt := sgtxt sc; sgtxt_settable := sgtxt_settable sc;
     augbl_count := augbl_count sc; messtxt := messtxt sc; tree := t;
     docnuv := reference; row_count := row_count sc;
     visible_row_count := visible_row_count sc; cell := cell sc |}.

Definition with_grid (rows visible : Z) (cells : Z -> Z -> string) (sc : screen) : screen :=
  {| link := link sc; window_type := window_type sc; window_text := window_text sc;
     window_children := window_children sc; stat_text := stat_text sc;
     stat_type := stat_type sc; sgtxt := sgtxt sc; sgtxt_settable := sgtxt_settable sc;
     augbl_count := augbl_count sc; messtxt := messtxt sc; tree := tree sc;
     docnuv := docnuv sc; row_count := rows;
     visible_row_count := visible; cell := cells |}.

(** An environment whose sessions all show the same screen, whatever is
    done. *)
Definition static_env (sc : screen) : env :=
  {| gui := fun _ _ => sc; reachable := fun _ => true; system_code := "P01" |}.

(** The world at the start of the processing phase: [main] has opened
    session 0, no transaction is running. *)
Definition initial_world : world :=
  {| hist := [Connect "P01" 0]; va03_sess := None; fb03_sess := None; qm02_sess := None |}.

(** The same with one transaction started on session 0. *)
Definition started (m : module_) : world := set_sess m (Some 0) initial_world.

(** Whether Enter has been sent through session 0. *)
Definition enter_sent (h : list event) : bool :=
  existsb (fun e => match e with
                    | Act 0 (SendVKey code) => (code =? 0)%Z
                    | _ => false
                    end) h.

(** The connection of session 0 breaks for good when it is first sent
    Enter; the sessions opened afterwards are sound and show [sc]. *)
Definition session0_breaks (sc : screen) : env :=
  {| gui := fun h s =>
              match s with
              | 0 => if enter_sent h then with_link LinkLost sc else sc
              | _ => sc
              end;
     reachable := fun _ => true;
     system_code := "P01" |}.

Definition a_row (company : string) (document : N) (year case_id : N)
    (notification : option N) : controller.row :=
  {| controller.Company_Code := company;
     controller.Document_Number := Some document;
     controller.Document_Year := Some year;
     controller.Case_ID := Some case_id;
     controller.Notification := notification;
     controller.Message := Some "";
     controller.Credit_Note := None;
     controller.Is_Order := None |}.

(** A document of company 0010 with case 400081469. *)
Definition invoice_row (notification : option N) : controller.row :=
  controller.set_Is_Order (Some false)
    (a_row "0010" 544411698 2024 400081469 notification).

(** On session [s] an order opens without a popup or an error, and the
    document flow it shows has no node for an accounting document. *)
Definition no_accounting_document (E : env) (s : nat) : Prop :=
  forall h,
    link (gui E h s) = LinkUp
    /\ (window_type (gui E h s) =? "GuiModalWindow") = false
    /\ contains "is not in the database or has been archived" (stat_text (gui E h s)) = false
    /\ (stat_type (gui E h s) =? "E") = false
    /\ tree (gui E h s) <> NoNode
    /\ first_match "Accounting document" (tree (gui E h s)) = None.

Definition not_found : exn :=
  CreditNoteNotFoundWarning "The credit note does not exist yet in the system.".

(** A document flow in which the credit memo has not been posted yet. *)
Definition flow_without_accounting : nodes :=
  Node "          1" "Credit memo request 5012233445"
    (Node "          2" "Credit memo 0090012345" NoNode NoNode)
    NoNode.

(** How many times the order number was typed into the search field. *)
Definition enters_order (order : string) (e : event) : bool :=
  match e with
  | Act _ (SetText field val) => (field =? "VBAK-VBELN") && (val =? order)
  | _ => false
  end.

Definition order_entered (order : string) (h : list event) : nat :=
  length (filter (enters_order order) h).

(** Order 5012233445 has no accounting document when it is first looked
    up; when it is looked up again it has been archived. *)
Definition archived_on_retry : env :=
  {| gui := fun h _ =>
              if (2 <=? order_entered "5012233445" h)%nat
              then with_status "E"
                     "Sales document 5012233445 is not in the database or has been archived"
                     plain_screen
              else with_tree flow_without_accounting "" plain_screen;
     reachable := fun _ => true;
     system_code := "P01" |}.

Definition order_row : controller.row := a_row "0010" 5012233445 2024 400081469 None.

(** A text of 39 characters: with " D 400081469" it takes 51. *)
Definition long_text : string := "RET711884319 RETURN OF DAMAGED GOODS 24".

(** A document flow whose only accounting document is the first sub-node of
    the second sub-node of the root. *)
Definition flow_with_one_accounting : nodes :=
  Node "          1" "Credit memo request 5012233445"
    (Node "          2" "Delivery 0080004711"
       (Node "          3" "Picking request 20240115" NoNode
          (Node "          4" "GD goods issue 4900001234" NoNode NoNode))
       (Node "          5" "Credit memo 0090012345"
          (Node "          6" "Accounting document 0090012345" NoNode NoNode)
          (Node "          8" "Cancellation 0090012346" NoNode NoNode)))
    NoNode.

(** The same with a second accounting document after the first. *)
Definition flow_with_accounting : nodes :=
  Node "          1" "Credit memo request 5012233445"
    (Node "          2" "Delivery 0080004711"
       (Node "          3" "Picking request 20240115" NoNode
          (Node "          4" "GD goods issue 4900001234" NoNode NoNode))
       (Node "          5" "Credit memo 0090012345"
          (Node "          6" "Accounting document 0090012345" NoNode
             (Node "          7" "Accounting document 0090099999" NoNode NoNode))
          (Node "          8" "Cancellation 0090012346" NoNode NoNode)))
    NoNode.

(** A notification with two open tasks.  Pressing the completion button of
    a task, or the completion control of the notification, brings up the
    popup "Status check error"; F12 closes it. *)
Definition task_cells (row col : Z) : string :=
  if (col =? 0)%Z then
    (if (row =? 0)%Z then "1" else if (row =? 1)%Z then "2" else "")
  else "".

Definition status_checks_fail : env :=
  {| gui := fun h _ =>
              let sc := with_grid 3 5 task_cells plain_screen in
              match last h with
              | Some (Act _ (Press _)) =>
                  with_window "GuiModalWindow" "Status check error" sc
              | _ => sc
              end;
     reachable := fun _ => true;
     system_code := "P01" |}.

(** ** Vocabulary for the drivers' life cycle and for the controller's loops *)


(** The key table of a driver. *)
Definition keys_of (m : module_) : list (string * Z) :=
  match m with
  | VA03 => va03._virtual_keys
  | FB03 => fb03._virtual_keys
  | QM02 => qm02._virtual_keys
  end.





(** The connection of session 0 breaks for good when it is first sent
    Enter; the link of the sessions opened afterwards is at fault. *)
Definition second_session_faulty (sc : screen) : env :=
  {| gui := fun h s =>
              match s with
              | 0 => if enter_sent h then with_link LinkLost sc else sc
              | _ => with_link LinkFault sc
              end;
     reachable := fun _ => true;
     system_code := "P01" |}.

(** Whatever the environment and the world, [c] only adds events that
    satisfy [P]; it may be cut off for lack of fuel. *)
Definition adds {A} (P : event -> Prop) (c : M A) : Prop :=
  forall E w, extends P w (c E w).2.

(** The exception classes for which the retry loop of
    [update_accounting_documents] has a handler. *)
Definition handled_by_annotation (e : exn) : bool :=
  match e with
  | SapConnectionLostError FB03 _ | CaseIdContainedWarning _
  | DocumentProcessingError FB03 _ => true
  | _ => false
  end.

(** Two frames that differ at most in the column Message. *)
Definition same_but_message (a b : controller.DataFrame) : Prop :=
  Forall2 (fun r r' => controller.set_Message None r = controller.set_Message None r') a b.

(** The connections opened in a history. *)
Definition connections (h : list event) : nat := length (filter sap.is_connect h).

(** An event of a driver: anything but the opening of a connection. *)
Definition driver_event (e : event) : Prop := sap.is_connect e = false.

(** A write to the text field of a document is a trimmed text followed by
    " D " and a case id that the text did not hold, and fits the field. *)
Definition writes_fit (e : event) : Prop :=
  match e with
  | Act _ (SetText field val) =>
      field = "BSEG-SGTXT" ->
      String.length val <= fb03.MAX_TEXT_FIELD_CHARS
      /\ exists text case_id,
           contains (str case_id) text = false
           /\ val = strip text +:+ " D " +:+ str case_id
  | _ => True
  end.

(** A dialog "Information" that stays whatever key is sent. *)
Definition stuck_dialog : env :=
  static_env (with_window "GuiModalWindow" "Information" plain_screen).

(** The pauses in a history. *)
Definition is_sleep (e : event) : bool :=
  match e with
  | Sleep _ => true
  | _ => false
  end.

Definition sleeps (h : list event) : nat := length (filter is_sleep h).

(** On session [s] the link holds and the status bar shows an error,
    whatever is done. *)
Definition stays_blocked (E : env) (s : nat) : Prop :=
  forall h, link (gui E h s) = LinkUp /\ stat_type (gui E h s) = "E".

(** A notification that another user keeps locked. *)
Definition locked_notification : env :=
  static_env (with_status "E" "Notification 300012345 is blocked by user MILLER" plain_screen).

(** On session [s] the link holds and no dialog comes up, whatever is
    done. *)
Definition no_popup (E : env) (s : nat) : Prop :=
  forall h,
    link (gui E h s) = LinkUp
    /\ (window_text (gui E h s) =? "Status check error") = false
    /\ (window_type (gui E h s) =? "GuiModalWindow") = false.

(** What [_complete] does for one entry of the task dict: a task without a
    completion date is selected by its number less one and its completion
    button is pressed; a task that has a completion date is passed over. *)
Definition completes_task (s : nat) (item : Z * qm02.task) : list event :=
  if qm02.completion_date item.2 =? "" then
    [Act s (SetScrollbar (item.1 - 1)); Act s (SelectRow (item.1 - 1));
     Act s (Press "FC_ERLEDIGT")]
  else [].

(** A notification whose task 10 is open and whose task 20 was completed on
    15.01.2024. *)
Definition two_task_cells (row col : Z) : string :=
  if (col =? 0)%Z then
    (if (row =? 0)%Z then "10" else if (row =? 1)%Z then "20" else "")
  else if (col =? 16)%Z then
    (if (row =? 1)%Z then "15.01.2024" else "")
  else "".

Definition two_tasks : env := static_env (with_grid 3 5 two_task_cells plain_screen).

(** The world after the notification number has been typed and Enter
    pressed through session [s]. *)
Definition searched (s : nat) (notif_id : N) (w : world) : world :=
  record_event (Act s (SendVKey 0))
    (record_event (Act s (SetText "wnd[0]/usr/ctxtRIWO00-QMNUM" (str notif_id))) w).

(** A notification that was completed before. *)
Definition display_only : env :=
  static_env (with_status "W" "Notification 300012345 can only be displayed" plain_screen).









(** The text that [_save_changes] looks for in an alert. *)
Definition net_due_date_alert : string := "Net due date on * is in the past".

(** A document whose net due date has passed: saving brings up a warning
    that names the date. *)
Definition past_due_date : env :=
  static_env (with_status "W" "Net due date on 15.01.2024 is in the past" plain_screen).

Definition with_sgtxt_locked (augbl : nat) (sc : screen) : screen :=
  {| link := link sc; window_type := window_type sc; window_text := window_text sc;
     window_children := window_children sc; stat_text := stat_text sc;
     stat_type := stat_type sc; sgtxt := sgtxt sc; sgtxt_settable := false;
     augbl_count := augbl; messtxt := messtxt sc; tree := tree sc;
     docnuv := docnuv sc; row_count := row_count sc;
     visible_row_count := visible_row_count sc; cell := cell sc |}.

(** What [append_case_id] does to a document that opens and saves without a
    message: the search fields are filled in and confirmed, the line item is
    opened, the edit mode is entered, the text is written and saved, and the
    search fields are blanked. *)
Definition updates_document (s : nat) (company_code : string) (document : option Z)
    (fiscal_year : N) (new_text : string) : list event :=
  [Act s (SetText "RF05L-BUKRS" company_code);
   Act s (SetText "RF05L-BELNR" (str_na document));
   Act s (SetText "RF05L-GJAHR" (str fiscal_year));
   Act s (SendVKey 0); Act s (SetFocus "RF05L-ANZDT"); Act s (SendVKey 2);
   Act s (SendVKey 25); Act s (SetText "BSEG-SGTXT" new_text); Act s (SendVKey 11);
   Act s (SetText "RF05L-BUKRS" ""); Act s (SetText "RF05L-BELNR" "");
   Act s (SetText "RF05L-GJAHR" "")].

(** A row that is not an order, with its year and its case id, whose case
    id is not in [text] and fits behind it. *)
Definition to_annotate (text : string) (r : controller.row) : Prop :=
  controller.Is_Order r = Some false
  /\ exists year case_id,
       controller.Document_Year r = Some year
       /\ controller.Case_ID r = Some case_id
       /\ contains (str case_id) text = false
       /\ String.length (strip text +:+ " D " +:+ str case_id) <= fb03.MAX_TEXT_FIELD_CHARS.

(** The events of the annotation stage for such a row. *)
Definition annotates_row (s : nat) (text : string) (r : controller.row) : list event :=
  updates_document s (controller.Company_Code r)
    (Z.of_N <$> controller.Document_Number r)
    (default 0%N (controller.Document_Year r))
    (strip text +:+ " D " +:+ str (default 0%N (controller.Case_ID r))).

(** The message of a row after its notification was completed. *)
Definition completed (r : controller.row) : controller.row :=
  controller.set_Message
    (Some (default "" (controller.Message r) +:+ " " +:+ "Notification completed.")) r.





(** ** Strings *)

Example strip_example : strip "  RET 711 " = "RET 711".
Proof. reflexivity. Qed.

Example findall_example :
  re_findall "12" "112122" = ["12"; "12"] /\ re_findall "11" "1111" = ["11"; "11"]
  /\ occurrences "11" "1111" = [0; 1; 2].
Proof. repeat split. Qed.

Example sub_example :
  re_sub_empty "12" "112122" = "12" /\ re_sub_empty "400081469" "A 400081469 B" = "A  B".
Proof. split; reflexivity. Qed.

Example int_example :
  py_int " 1_000 " = Some 1000%Z /\ py_int "1__0" = None /\ py_int "-12" = Some (-12)%Z
  /\ py_int "" = None /\ py_int "12_" = None.
Proof. repeat split. Qed.

Example last_chars_example :
  last_chars 9 "0090400081469" = "400081469" /\ last_chars 9 "123" = "123".
Proof. split; reflexivity. Qed.

Lemma append_assoc (a b c : string) : (a +:+ b) +:+ c = a +:+ b +:+ c.
Proof. induction a as [|x a IH]; simpl; [done | by rewrite IH]. Qed.

Lemma length_append (a b : string) :
  String.length (a +:+ b) = String.length a + String.length b.
Proof. induction a as [|x a IH]; simpl; [done | by rewrite IH]. Qed.

Lemma startswith_append (p s : string) : startswith p (p +:+ s) = true.
Proof.
  induction p as [|a p IH]; simpl; [done |].
  by rewrite Ascii.eqb_refl, IH.
Qed.

Lemma startswith_app_r (p s t : string) :
  startswith p s = true -> startswith p (s +:+ t) = true.
Proof.
  revert s; induction p as [|a p IH]; intros [|b s]; simpl; try done.
  intros [-> ?]%andb_true_iff. rewrite andb_true_l. by apply IH.
Qed.

Lemma contains_app_r (p s t : string) :
  contains p s = true -> contains p (s +:+ t) = true.
Proof.
  induction s as [|b s IH]; simpl.
  - rewrite orb_false_r. intros H. destruct p; [|done].
    destruct t; done.
  - intros [H|H]%orb_true_iff.
    + apply (startswith_app_r _ (String b s) t) in H. simpl in H. by rewrite H.
    + rewrite (IH H). by rewrite orb_true_r.
Qed.

Lemma contains_app_l (p s t : string) :
  contains p t = true -> contains p (s +:+ t) = true.
Proof.
  induction s as [|b s IH]; simpl; [done |].
  intros H. rewrite (IH H). by rewrite orb_true_r.
Qed.

Lemma lstrip_suffix (s : string) : exists u, s = u +:+ lstrip s.
Proof.
  induction s as [|a s [u IH]]; simpl.
  - by exists "".
  - destruct (is_space a).
    + exists (String a u). simpl. by rewrite <- IH.
    + by exists "".
Qed.

Lemma rstrip_prefix (s : string) : exists u, s = rstrip s +:+ u.
Proof.
  induction s as [|a s [u IH]]; simpl.
  - by exists "".
  - destruct (rstrip s) as [|b r] eqn:Hr.
    + destruct (is_space a).
      * by exists (String a s).
      * exists s. done.
    + exists u. simpl. simpl in IH. by rewrite <- IH.
Qed.

Lemma contains_strip (p s : string) :
  contains p (strip s) = true -> contains p s = true.
Proof.
  unfold strip. intros H.
  destruct (lstrip_suffix s) as [u Hu].
  destruct (rstrip_prefix (lstrip s)) as [v Hv].
  rewrite Hu. apply contains_app_l. rewrite Hv. by apply contains_app_r.
Qed.

Lemma rstrip_append (x y : string) :
  y <> "" -> rstrip y = y -> rstrip (x +:+ y) = x +:+ y.
Proof.
  intros Hy Hr. induction x as [|a x IH]; [done |].
  cbn [String.append rstrip]. rewrite IH.
  destruct (x +:+ y) eqn:Hxy; [|done].
  destruct x; [by subst | done].
Qed.

(** An earlier message that does not begin with white space is kept as it
    is, and the note follows it. *)
Lemma strip_skipped (a : ascii) (m : string) :
  is_space a = false ->
  strip (String a m +:+ " Document skipped.") = String a m +:+ " Document skipped.".
Proof.
  intros Ha. unfold strip. cbn [String.append lstrip]. rewrite Ha.
  by apply (rstrip_append (String a m) " Document skipped.").
Qed.

Lemma contains_occurrences (p s : string) :
  contains p s = false <-> occurrences p s = [].
Proof.
  induction s as [|a s IH]; simpl.
  - rewrite orb_false_r. destruct (startswith p ""); simpl; split; done.
  - rewrite orb_false_iff, IH. destruct (startswith p (String a s)); simpl.
    + split; [by intros [? ?] | done].
    + split; [by intros [_ ->] | intros H; split; [done|]].
      by destruct (occurrences p s).
Qed.

Lemma findall_le_occurrences (p s : string) (k : nat) :
  length (findall_from p k s) <= length (occurrences p s).
Proof.
  revert k; induction s as [|a s IH]; intros k; simpl.
  - destruct k; simpl; [|lia]. destruct (startswith p ""); simpl; lia.
  - rewrite length_app, length_map. destruct k.
    + destruct (startswith p (String a s)); simpl.
      * specialize (IH (String.length p - 1)). lia.
      * apply IH.
    + specialize (IH k). lia.
Qed.

Lemma sub_from_skip (p x s : string) :
  sub_from p (String.length x) (x +:+ s) = sub_from p 0 s.
Proof. induction x as [|a x IH]; simpl; [by destruct s | done]. Qed.

Lemma findall_from_skip (p x s : string) :
  p <> "" ->
  findall_from p (String.length x) (x +:+ s) = findall_from p 0 s.
Proof.
  intros Hp. induction x as [|a x IH]; simpl; [by destruct s | done].
Qed.

Lemma sub_from_match (p s : string) :
  p <> "" -> sub_from p 0 (p +:+ s) = sub_from p 0 s.
Proof.
  intros Hp. destruct p as [|a p]; [done |].
  change (String a p +:+ s) with (String a (p +:+ s)).
  cbn [sub_from].
  assert (startswith (String a p) (String a (p +:+ s)) = true) as ->
    by apply (startswith_append (String a p) s).
  change (String.length (String a p) - 1) with (S (String.length p) - 1).
  replace (S (String.length p) - 1) with (String.length p) by lia.
  apply sub_from_skip.
Qed.

Lemma findall_from_match (p s : string) :
  p <> "" -> findall_from p 0 (p +:+ s) = p :: findall_from p 0 s.
Proof.
  intros Hp. destruct p as [|a p]; [done |].
  change (String a p +:+ s) with (String a (p +:+ s)).
  cbn [findall_from].
  assert (startswith (String a p) (String a (p +:+ s)) = true) as ->
    by apply (startswith_append (String a p) s).
  change (String.length (String a p) - 1) with (S (String.length p) - 1).
  replace (S (String.length p) - 1) with (String.length p) by lia.
  f_equal. by apply findall_from_skip.
Qed.

Lemma sub_from_absent (p s : string) :
  occurrences p s = [] -> sub_from p 0 s = s.
Proof.
  induction s as [|a s IH]; simpl; [done |].
  destruct (startswith p (String a s)); simpl; [done |].
  intros H. rewrite IH; [done |]. by destruct (occurrences p s).
Qed.

Lemma findall_from_absent (p s : string) :
  occurrences p s = [] -> findall_from p 0 s = [].
Proof.
  intros H. pose proof (findall_le_occurrences p s 0) as Hle.
  rewrite H in Hle. destruct (findall_from p 0 s); [done | simpl in Hle; lia].
Qed.

(** The occurrences in [x +:+ y]: those that start inside [x], then those of
    [y], shifted. *)
Lemma occurrences_app (p x y : string) :
  exists l, occurrences p (x +:+ y) = l ++ map (plus (String.length x)) (occurrences p y)
            /\ Forall (fun i => i < String.length x) l.
Proof.
  induction x as [|a x (l & IH & Hl)]; simpl.
  - exists []. split; [|done]. simpl. by rewrite map_id.
  - exists ((if startswith p (String a (x +:+ y)) then [0] else []) ++ map S l).
    rewrite IH, map_app, map_map, <- app_assoc. split; [done |].
    apply Forall_app. split.
    + destruct (startswith _ _); [constructor; [simpl; lia | constructor] | constructor].
    + apply Forall_map. eapply Forall_impl; [exact Hl |]. simpl. lia.
Qed.

Lemma str_nonempty (n : N) : str n <> "".
Proof.
  unfold str. destruct n as [|p]; [done |].
  simpl. pose proof (DecimalPos.Unsigned.to_uint_nonnil p) as H.
  destruct (Pos.to_uint p); done.
Qed.

(** ** The text repair *)

(** A text with exactly two occurrences of [c], one right after the other:
    both are matched, and removing them leaves what was before and after. *)
Lemma two_adjacent (c p s : string) :
  c <> "" ->
  occurrences c (p +:+ c +:+ c +:+ s)
    = [String.length p; String.length p + String.length c] ->
  re_findall c (p +:+ c +:+ c +:+ s) = [c; c]
  /\ re_sub_empty c (p +:+ c +:+ c +:+ s) = p +:+ s.
Proof.
  intros Hc. unfold re_findall, re_sub_empty.
  assert (0 < String.length c) as HL by (destruct c; [done | simpl; lia]).
  induction p as [|a p IH].
  - cbn [String.append String.length plus]. intros Hocc.
    assert (occurrences c s = []) as Hs.
    { destruct (occurrences_app c (c +:+ c) s) as (l & Hl & _).
      rewrite append_assoc, Hocc, length_append in Hl.
      assert (Forall (fun i => i <= String.length c) [0; String.length c]) as HF
        by (repeat constructor; lia).
      rewrite Hl in HF. apply Forall_app in HF as [_ HF].
      destruct (occurrences c s) as [|e ?]; [done |].
      simpl in HF. apply Forall_cons in HF as [HF _]. lia. }
    rewrite !findall_from_match, !sub_from_match by done.
    by rewrite findall_from_absent, sub_from_absent.
  - change (String a p +:+ c +:+ c +:+ s) with (String a (p +:+ c +:+ c +:+ s)).
    cbn [occurrences findall_from sub_from String.length].
    destruct (startswith c (String a (p +:+ c +:+ c +:+ s))); [done |].
    cbn [app]. intros Hocc.
    destruct (occurrences c (p +:+ c +:+ c +:+ s)) as [|x [|y [|z l]]]; try done.
    simpl in Hocc. injection Hocc as -> Hy.
    assert (y = String.length p + String.length c) as -> by lia.
    destruct (IH eq_refl) as [-> ->]. done.
Qed.

Lemma remove_duplicates_absent (text c : string) :
  length (occurrences c text) <= 1 -> fb03._remove_duplicates text c = text.
Proof.
  intros H. unfold fb03._remove_duplicates, re_findall.
  pose proof (findall_le_occurrences c text 0) as Hle.
  destruct (findall_from c 0 text) as [|m0 [|m1 l]]; try done.
  simpl in Hle. lia.
Qed.

Lemma remove_duplicates_not_contained (text c : string) :
  contains c text = false -> fb03._remove_duplicates text c = text.
Proof.
  intros H. apply remove_duplicates_absent.
  apply contains_occurrences in H. rewrite H. simpl. lia.
Qed.

(** C4 (as amended): applied to a text with exactly two occurrences of the
    case id, one right after the other, the text repair returns what stood
    before and after the pair, joined and trimmed; the result has no
    occurrence of the case id unless joining the two parts forms one.
    Applied to a text with at most one occurrence it returns the text
    unchanged. *)
Theorem remove_duplicates_repair (case_id : N) (p s text : string) :
  let c := str case_id in
  (text = p +:+ c +:+ c +:+ s ->
   occurrences c text = [String.length p; String.length p + String.length c] ->
   fb03._remove_duplicates text c = strip (p +:+ s)
   /\ (contains c (p +:+ s) = false ->
       contains c (fb03._remove_duplicates text c) = false))
  /\ (length (occurrences c text) <= 1 -> fb03._remove_duplicates text c = text).
Proof.
  intros c. split; [|apply remove_duplicates_absent].
  intros -> Hocc.
  destruct (two_adjacent c p s (str_nonempty case_id) Hocc) as [Hf Hs].
  assert (fb03._remove_duplicates (p +:+ c +:+ c +:+ s) c = strip (p +:+ s)) as Hr.
  { unfold fb03._remove_duplicates. rewrite Hf, Hs. simpl.
    by rewrite String.eqb_refl. }
  split; [done |]. rewrite Hr. intros Hn.
  destruct (contains c (strip (p +:+ s))) eqn:Hc; [|done].
  apply contains_strip in Hc. congruence.
Qed.

Lemma remove_duplicates_repair_witness :
  (fb03._remove_duplicates "RET 400081469400081469 X " (str 400081469) = "RET  X"
   /\ contains (str 400081469) (fb03._remove_duplicates "RET 400081469400081469 X " (str 400081469)) = false)
  /\ fb03._remove_duplicates "RET 400081469" (str 400081469) = "RET 400081469".
Proof.
  pose proof (remove_duplicates_repair 400081469 "RET " " X " "RET 400081469400081469 X ") as [H1 _].
  pose proof (remove_duplicates_repair 400081469 "" "" "RET 400081469") as [_ H2].
  split.
  - destruct (H1 eq_refl eq_refl) as [Ha Hb]. split; [exact Ha | apply Hb; reflexivity].
  - apply H2. vm_compute. lia.
Defined.

(** C4, a text with exactly two adjacent occurrences of case id 12 whose
    repair still holds the case id: "1" and "2" are joined. *)
Lemma remove_duplicates_rejoins :
  "112122" = "1" +:+ str 12 +:+ str 12 +:+ "2"
  /\ occurrences (str 12) "112122" = [1; 1 + String.length (str 12)]
  /\ fb03._remove_duplicates "112122" (str 12) = "12"
  /\ contains (str 12) (fb03._remove_duplicates "112122" (str 12)) = true.
Proof. repeat split. Qed.

(** ** Running computations *)

Lemma bind_ok {A B} (c : M A) (k : A -> M B) E w a w' :
  c E w = (Ok a, w') -> bind c k E w = k a E w'.
Proof. unfold bind. by intros ->. Qed.

Lemma bind_raise {A B} (c : M A) (k : A -> M B) E w e w' :
  c E w = (Raise e, w') -> bind c k E w = (Raise e, w').
Proof. unfold bind. by intros ->. Qed.

Lemma bind_assoc {A B C} (c : M A) (k : A -> M B) (k' : B -> M C) E w :
  bind (bind c k) k' E w = bind c (fun a => bind (k a) k') E w.
Proof. unfold bind. by destruct (c E w) as [[a|e|] w1]. Qed.

Lemma bind_ok_inv {A B} (c : M A) (k : A -> M B) E w b w' :
  bind c k E w = (Ok b, w') ->
  exists a w1, c E w = (Ok a, w1) /\ k a E w1 = (Ok b, w').
Proof. unfold bind. destruct (c E w) as [[a|e|] w1]; [by eauto | done..]. Qed.

Lemma get_sess_record_event m e w : get_sess m (record_event e w) = get_sess m w.
Proof. by destruct m. Qed.

Lemma hist_record_event e w : hist (record_event e w) = hist w ++ [e].
Proof. done. Qed.

Lemma com_up {A} m (f : screen -> A) E w s :
  get_sess m w = Some s -> link (gui E (hist w) s) = LinkUp ->
  com m f E w = (Ok (f (gui E (hist w) s)), w).
Proof. unfold com. by intros -> ->. Qed.

Lemma act_up m a E w s :
  get_sess m w = Some s -> link (gui E (hist w) s) = LinkUp ->
  act m a E w = (Ok tt, record_event (Act s a) w).
Proof. unfold act. by intros -> ->. Qed.

Lemma com_ok_inv {A} m (f : screen -> A) E w a w' :
  com m f E w = (Ok a, w') ->
  w' = w /\ exists s, get_sess m w = Some s /\ a = f (gui E (hist w) s).
Proof.
  unfold com. destruct (get_sess m w) as [s|]; [|done].
  destruct (link _); [|done..]. intros [= <- <-]. eauto.
Qed.

Lemma act_ok_inv m a E w u w' :
  act m a E w = (Ok u, w') ->
  exists s, get_sess m w = Some s /\ w' = record_event (Act s a) w.
Proof.
  unfold act. destruct (get_sess m w) as [s|]; [|done].
  destruct (link _); [|done..]. intros [= _ <-]. eauto.
Qed.

Lemma try_except_ok {A} (c : M A) handles h E w a w' :
  c E w = (Ok a, w') -> try_except c handles h E w = (Ok a, w').
Proof. unfold try_except. by intros ->. Qed.

Lemma try_except_ok_inv {A} (c : M A) E w a w' :
  try_except c is_com_error
    (fun e E w => match get_sess QM02 w with
                  | None => (Raise (SapConnectionLostError QM02 "Connection to SAP lost!"), w)
                  | Some s =>
                      match link (gui E (hist w) s) with
                      | LinkLost => (Raise (SapConnectionLostError QM02 "Connection to SAP lost!"), w)
                      | _ => (Raise e, w)
                      end
                  end) E w = (Ok a, w') ->
  c E w = (Ok a, w').
Proof.
  unfold try_except. destruct (c E w) as [[x|e|] w1]; [done | | done].
  destruct (is_com_error e); [|done]. destruct (get_sess QM02 w1); [|done].
  by destruct (link _).
Qed.

Lemma except_com_error_raise {A} m (c : M A) E w e w' :
  c E w = (Raise e, w') -> exists e', except_com_error m c E w = (Raise e', w').
Proof.
  unfold except_com_error, try_except. intros ->.
  destruct (is_com_error e); [|by eauto].
  destruct (get_sess m w'); [|by eauto]. destruct (link _); by eauto.
Qed.

Lemma except_com_error_world {A} m (c : M A) E w :
  (except_com_error m c E w).2 = (c E w).2.
Proof.
  unfold except_com_error, try_except. destruct (c E w) as [[a|e|] w1]; [done | | done].
  destruct (is_com_error e); [|done]. destruct (get_sess m w1); [|done].
  by destruct (link _).
Qed.

(** A call through a session whose link holds. *)
Ltac up Hup :=
  first [apply act_up | apply com_up];
  [first [eassumption | by rewrite ?get_sess_record_event] | apply Hup].

(** ** What a computation adds to the history *)

Lemma extends_refl P w : extends P w w.
Proof. exists []. by rewrite app_nil_r. Qed.

Lemma extends_trans P w1 w2 w3 : extends P w1 w2 -> extends P w2 w3 -> extends P w1 w3.
Proof.
  intros (e1 & H1 & F1) (e2 & H2 & F2). exists (e1 ++ e2).
  rewrite H2, H1, app_assoc. split; [done | by apply Forall_app].
Qed.

Lemma extends_record (P : event -> Prop) e w : P e -> extends P w (record_event e w).
Proof. intros He. exists [e]. split; [done | by repeat constructor]. Qed.

Lemma extends_set_sess P m o w : extends P w (set_sess m o w).
Proof. exists []. rewrite app_nil_r. by destruct m. Qed.

Lemma emits_ret {A} P (a : A) : emits P (ret a).
Proof. intros E w. split; [done | apply extends_refl]. Qed.

Lemma emits_raise {A} P e : emits P (@raise A e).
Proof. intros E w. split; [done | apply extends_refl]. Qed.

Lemma emits_bind {A B} P (c : M A) (k : A -> M B) :
  emits P c -> (forall a, emits P (k a)) -> emits P (bind c k).
Proof.
  intros Hc Hk E w. unfold bind. destruct (Hc E w) as [Hf Hw].
  destruct (c E w) as [[a|e|] w1]; simpl in *; [|done..].
  destruct (Hk a E w1) as [Hf' Hw']. split; [done |]. by eapply extends_trans.
Qed.

Lemma emits_com {A} P m (f : screen -> A) : emits P (com m f).
Proof.
  intros E w. unfold com. destruct (get_sess m w); [|split; [done | apply extends_refl]].
  destruct (link _); (split; [done | apply extends_refl]).
Qed.

Lemma emits_act (P : event -> Prop) m a : (forall s, P (Act s a)) -> emits P (act m a).
Proof.
  intros Ha E w. unfold act. destruct (get_sess m w); [|split; [done | apply extends_refl]].
  destruct (link _); (split; [done |]); try apply extends_refl.
  by apply extends_record.
Qed.

Lemma emits_when P b c : emits P c -> emits P (when b c).
Proof. intros Hc. destruct b; [done | apply emits_ret]. Qed.

Lemma emits_try_except {A} P (c : M A) handles h :
  emits P c -> (forall e, emits P (h e)) -> emits P (try_except c handles h).
Proof.
  intros Hc Hh E w. unfold try_except. destruct (Hc E w) as [Hf Hw].
  destruct (c E w) as [[a|e|] w1]; simpl in *; [done | | done].
  destruct (handles e); [|done]. destruct (Hh e E w1) as [Hf' Hw'].
  split; [done |]. by eapply extends_trans.
Qed.

Lemma emits_except_com_error {A} P m (c : M A) : emits P c -> emits P (except_com_error m c).
Proof.
  intros Hc. apply emits_try_except; [done |]. intros e E w.
  destruct (get_sess m w); [|split; [done | apply extends_refl]].
  destruct (link _); (split; [done | apply extends_refl]).
Qed.

Lemma emits_check_prerequisities P m : emits P (check_prerequisities m).
Proof.
  intros E w. unfold check_prerequisities.
  destruct (get_sess m w); (split; [done | apply extends_refl]).
Qed.

Lemma emits_assign_sess P m o : emits P (assign_sess m o).
Proof. intros E w. split; [done | apply extends_set_sess]. Qed.

Lemma emits_press_key (P : event -> Prop) m keys name :
  (forall s code, assoc name keys = Some code -> P (Act s (SendVKey code))) ->
  emits P (press_key m keys name).
Proof.
  intros H. unfold press_key. destruct (assoc name keys) as [code|].
  - apply emits_act. intros s. by apply H.
  - apply emits_raise.
Qed.

(** Goals [emits P c] for straight-line code: one rule per construct. *)
Ltac emits_step :=
  match goal with
  | |- emits _ (bind _ _) => apply emits_bind; [|intros ?]
  | |- emits _ (ret _) => apply emits_ret
  | |- emits _ (raise _) => apply emits_raise
  | |- emits _ (com _ _) => apply emits_com
  | |- emits _ (act _ _) => apply emits_act; intros ?
  | |- emits _ (when _ _) => apply emits_when
  | |- emits _ (except_com_error _ _) => apply emits_except_com_error
  | |- emits _ (check_prerequisities _) => apply emits_check_prerequisities
  | |- emits _ (assign_sess _ _) => apply emits_assign_sess
  | |- emits _ (press_key _ _ _) =>
      apply emits_press_key; intros ? ? [= <-]
  | |- emits _ (if ?b then _ else _) => destruct b
  | |- emits _ (match ?x with _ => _ end) => destruct x
  end.

(** If [c] only adds [P]-events and what follows it fails the same way, so
    does the sequence. *)
Lemma bind_fails {A B} P (c : M A) (k : A -> M B) E w :
  emits P c ->
  (forall a w1, c E w = (Ok a, w1) ->
     exists e w', k a E w1 = (Raise e, w') /\ extends P w1 w') ->
  exists e w', bind c k E w = (Raise e, w') /\ extends P w w'.
Proof.
  intros Hc Hk. unfold bind. destruct (Hc E w) as [Hf Hw].
  destruct (c E w) as [[a|e|] w1]; simpl in *; [|by eauto|done].
  destruct (Hk a w1 eq_refl) as (e & w' & -> & Hw').
  exists e, w'. split; [done | by eapply extends_trans].
Qed.

Lemma close_popup_presses_eq m keys confirm remaining :
  close_popup_presses m keys confirm remaining =
    (t <- com m window_text ;;
     if in_list t dialog_titles then
       match remaining with
       | 0 => ret tt
       | S r =>
           (if confirm then press_key m keys "Enter" else press_key m keys "F12") ;;
           close_popup_presses m keys confirm r
       end
     else ret tt).
Proof. by destruct remaining. Qed.

Lemma emits_close_popup_presses m keys confirm remaining :
  emits any_event (close_popup_presses m keys confirm remaining).
Proof.
  induction remaining as [|r IH]; rewrite close_popup_presses_eq.
  - repeat emits_step.
  - emits_step; [emits_step |]. destruct (in_list _ _); [|emits_step].
    emits_step; [|done].
    destruct confirm; apply emits_press_key; done.
Qed.

Lemma emits_close_popup_dialog m keys confirm max_attempts :
  emits any_event (close_popup_dialog m keys confirm max_attempts).
Proof.
  unfold close_popup_dialog.
  emits_step; [apply emits_close_popup_presses |].
  repeat emits_step; done.
Qed.

Lemma keeps_ret {A} (a : A) : keeps_sess (ret a).
Proof. done. Qed.

Lemma keeps_raise {A} e : keeps_sess (@raise A e).
Proof. done. Qed.

Lemma keeps_bind {A B} (c : M A) (k : A -> M B) :
  keeps_sess c -> (forall a, keeps_sess (k a)) -> keeps_sess (bind c k).
Proof.
  intros Hc Hk E w m. unfold bind. specialize (Hc E w m).
  destruct (c E w) as [[a|e|] w1]; simpl in *; [|done..].
  by rewrite Hk.
Qed.

Lemma keeps_com {A} m (f : screen -> A) : keeps_sess (com m f).
Proof. intros E w m'. unfold com. destruct (get_sess m w); [|done]. by destruct (link _). Qed.

Lemma keeps_act m a : keeps_sess (act m a).
Proof.
  intros E w m'. unfold act. destruct (get_sess m w); [|done].
  destruct (link _); try done.
Qed.

Lemma keeps_when b c : keeps_sess c -> keeps_sess (when b c).
Proof. by destruct b. Qed.

Ltac keeps_step :=
  match goal with
  | |- keeps_sess (bind _ _) => apply keeps_bind; [|intros ?]
  | |- keeps_sess (ret _) => apply keeps_ret
  | |- keeps_sess (raise _) => apply keeps_raise
  | |- keeps_sess (com _ _) => apply keeps_com
  | |- keeps_sess (act _ _) => apply keeps_act
  | |- keeps_sess (when _ _) => apply keeps_when
  | |- keeps_sess (if ?b then _ else _) => destruct b
  | |- keeps_sess (match ?x with _ => _ end) => destruct x
  end.

(** ** Document annotation: the text that is written *)

Lemma emits_set_search_criteria cocd doc_num doc_year :
  emits no_edit (fb03._set_search_criteria cocd doc_num doc_year).
Proof.
  unfold fb03._set_search_criteria, fb03._set_company_code, fb03._set_document_number,
    fb03._set_document_year, fb03._press_key.
  repeat emits_step; done.
Qed.

Lemma emits_is_alert_message : emits no_edit fb03._is_alert_message.
Proof.
  unfold fb03._is_alert_message, fb03._is_error_message, fb03._is_warning_message,
    is_error_message.
  repeat emits_step; done.
Qed.

Lemma emits_open_document_parameters : emits no_edit fb03._open_document_parameters.
Proof.
  unfold fb03._open_document_parameters, fb03._press_key. repeat emits_step; done.
Qed.

Lemma append_case_id_fits E w (text : string) (case_id : N) :
  contains (str case_id) text = false ->
  String.length (strip text +:+ " D " +:+ str case_id) <= fb03.MAX_TEXT_FIELD_CHARS ->
  fb03._append_case_id text case_id E w = (Ok (strip text +:+ " D " +:+ str case_id), w).
Proof.
  intros Hc Hlen. unfold fb03._append_case_id. rewrite Hc.
  rewrite remove_duplicates_not_contained by done.
  apply Nat.leb_le in Hlen. by rewrite Hlen.
Qed.

Lemma append_case_id_exceeds E w (text : string) (case_id : N) :
  contains (str case_id) text = false ->
  fb03.MAX_TEXT_FIELD_CHARS < String.length (strip text +:+ " D " +:+ str case_id) ->
  fb03._append_case_id text case_id E w = (Raise text_too_long, w).
Proof.
  intros Hc Hlen. unfold fb03._append_case_id. rewrite Hc.
  rewrite remove_duplicates_not_contained by done.
  apply Nat.leb_gt in Hlen. by rewrite Hlen.
Qed.

Lemma append_case_id_contained E w s (text : string) (case_id : N) :
  contains (str case_id) text = true ->
  get_sess FB03 w = Some s ->
  (forall h, link (gui E h s) = LinkUp) ->
  fb03._append_case_id text case_id E w =
    (Raise (CaseIdContainedWarning "Document text already contains the case ID!"),
     record_event (Act s (SendVKey 12)) (record_event (Act s (SendVKey 12)) w)).
Proof.
  intros Hc Hs Hup. unfold fb03._append_case_id. rewrite Hc.
  unfold fb03._to_initial_screen, fb03._press_key, press_key. cbn [assoc fb03._virtual_keys String.eqb Ascii.eqb Bool.eqb].
  erewrite bind_ok; cycle 1.
  { erewrite bind_ok by (by apply act_up).
    apply act_up; [by rewrite get_sess_record_event | apply Hup]. }
  done.
Qed.

(** The steps of [append_case_id] up to the reading of the text, on a
    document that opens quietly. *)
Lemma append_case_id_opens E w s text document fiscal_year company_code {A}
    (rest : string -> M A) :
  get_sess FB03 w = Some s -> edits_quietly E s text ->
  exists w1,
    get_sess FB03 w1 = Some s
    /\ hist w1 = hist w ++
         [Act s (SetText "RF05L-BUKRS" company_code);
          Act s (SetText "RF05L-BELNR" (str_na document));
          Act s (SetText "RF05L-GJAHR" (str fiscal_year));
          Act s (SendVKey 0); Act s (SetFocus "RF05L-ANZDT"); Act s (SendVKey 2)]
    /\ (fb03._set_search_criteria company_code document fiscal_year ;;
        alert <- fb03._is_alert_message ;;
        when alert (t <- com FB03 stat_text ;; raise (DocumentProcessingError FB03 t)) ;;
        fb03._open_document_parameters ;;
        old_text <- fb03._get_document_text ;;
        rest old_text) E w = rest text E w1.
Proof.
  intros Hs Hq.
  assert (link_holds E s) as Hup by (intros h; apply Hq).
  eexists. split; [|split]; cycle 2.
  - erewrite bind_ok; cycle 1.
    { unfold fb03._set_search_criteria, fb03._set_company_code, fb03._set_document_number,
        fb03._set_document_year, fb03._press_key, press_key.
      cbn [assoc fb03._virtual_keys String.eqb Ascii.eqb Bool.eqb].
      erewrite bind_ok by (up Hup). erewrite bind_ok by (up Hup).
      erewrite bind_ok by (up Hup). erewrite bind_ok by (up Hup).
      erewrite bind_ok by (up Hup).
      match goal with |- context [stat_text (gui E ?h s)] =>
        destruct (Hq h) as (_ & -> & _) end.
      reflexivity. }
    erewrite bind_ok; cycle 1.
    { unfold fb03._is_alert_message, fb03._is_error_message, is_error_message,
        fb03._is_warning_message.
      erewrite bind_ok by (up Hup).
      match goal with |- context [stat_type (gui E ?h s)] =>
        destruct (Hq h) as (_ & _ & -> & HW & _) end.
      erewrite com_up; [|by rewrite !get_sess_record_event | apply Hup].
      by rewrite HW. }
    cbn [when]. erewrite bind_ok by done.
    erewrite bind_ok; cycle 1.
    { unfold fb03._open_document_parameters, fb03._press_key, press_key.
      cbn [assoc fb03._virtual_keys String.eqb Ascii.eqb Bool.eqb].
      erewrite bind_ok by (up Hup). up Hup. }
    unfold fb03._get_document_text. erewrite bind_ok by (up Hup).
    match goal with |- context [sgtxt (gui E ?h s)] =>
      destruct (Hq h) as (_ & _ & _ & _ & _ & -> & _) end.
    reflexivity.
  - done.
  - cbn. by rewrite <- !app_assoc.
Qed.

(** C5 (as amended): when the case id is not in the text and the composed
    string fits the 50 characters of the field, the composition step returns
    the trimmed text followed by " D " and the case id, and on a document
    that opens and saves without an alert that string is what
    [append_case_id] writes into the text field; when the case id is in the
    text the driver goes back to the initial screen (F12 twice) and, the
    connection holding, raises [CaseIdContainedWarning]: nothing is
    written. *)
Theorem append_case_id_composes E w s (text : string) (case_id : N)
    (document : option Z) (fiscal_year : N) (company_code : string) :
  let composed := strip text +:+ " D " +:+ str case_id in
  let opened :=
    [Act s (SetText "RF05L-BUKRS" company_code);
     Act s (SetText "RF05L-BELNR" (str_na document));
     Act s (SetText "RF05L-GJAHR" (str fiscal_year));
     Act s (SendVKey 0); Act s (SetFocus "RF05L-ANZDT"); Act s (SendVKey 2)] in
  (contains (str case_id) text = false ->
   String.length composed <= fb03.MAX_TEXT_FIELD_CHARS ->
   fb03._append_case_id text case_id E w = (Ok composed, w)
   /\ (get_sess FB03 w = Some s -> edits_quietly E s text ->
       exists w',
         fb03.append_case_id document fiscal_year company_code case_id E w = (Ok tt, w')
         /\ hist w' = hist w ++ opened ++
              [Act s (SendVKey 25); Act s (SetText "BSEG-SGTXT" composed);
               Act s (SendVKey 11);
               Act s (SetText "RF05L-BUKRS" ""); Act s (SetText "RF05L-BELNR" "");
               Act s (SetText "RF05L-GJAHR" "")]))
  /\ (contains (str case_id) text = true ->
      get_sess FB03 w = Some s -> link_holds E s ->
      fb03._append_case_id text case_id E w
        = (Raise (CaseIdContainedWarning "Document text already contains the case ID!"),
           record_event (Act s (SendVKey 12)) (record_event (Act s (SendVKey 12)) w))
      /\ (edits_quietly E s text ->
          exists w',
            fb03.append_case_id document fiscal_year company_code case_id E w
              = (Raise (CaseIdContainedWarning "Document text already contains the case ID!"),
                 w')
            /\ hist w' = hist w ++ opened ++ [Act s (SendVKey 12); Act s (SendVKey 12)])).
Proof.
  intros composed opened. split.
  - intros Hc Hlen. split; [by apply append_case_id_fits |]. intros Hs Hq.
    assert (link_holds E s) as Hup by (intros h; apply Hq).
    destruct (append_case_id_opens E w s text document fiscal_year company_code
                (fun old_text =>
                   new_text <- fb03._append_case_id old_text case_id ;;
                   popup <- fb03._is_popup_dialog ;;
                   when popup (fb03._close_popup_dialog false 3 ;;
                               raise (DocumentProcessingError FB03
                                        "Unable to edit the document!")) ;;
                   fb03._press_key "CtrlF1" ;;
                   fb03._set_document_text new_text ;;
                   fb03._save_changes ;;
                   fb03._clear_search_criteria) Hs Hq) as (w1 & Hs1 & Hh1 & Hrun).
    eexists. split.
    + unfold fb03.append_case_id.
      erewrite bind_ok
        by (unfold fb03._check_prerequisities, check_prerequisities; by rewrite Hs).
      unfold except_com_error, try_except. rewrite Hrun.
      erewrite bind_ok by (by apply append_case_id_fits).
      unfold fb03._is_popup_dialog, is_popup_dialog.
      erewrite bind_ok by (up Hup).
      destruct (Hq (hist w1)) as (_ & _ & _ & _ & -> & _). cbn [when].
      erewrite bind_ok by done.
      unfold fb03._press_key, press_key.
      cbn [assoc fb03._virtual_keys String.eqb Ascii.eqb Bool.eqb].
      erewrite bind_ok by (up Hup).
      erewrite bind_ok; cycle 1.
      { unfold fb03._set_document_text. erewrite bind_ok by (up Hup).
        match goal with |- context [sgtxt_settable (gui E ?h s)] =>
          destruct (Hq h) as (_ & _ & _ & _ & _ & _ & ->) end.
        up Hup. }
      erewrite bind_ok; cycle 1.
      { unfold fb03._save_changes, fb03._press_key, press_key.
        cbn [assoc fb03._virtual_keys String.eqb Ascii.eqb Bool.eqb].
        erewrite bind_ok by (up Hup). erewrite bind_ok by (up Hup).
        unfold fb03._is_alert_message, fb03._is_error_message, is_error_message,
          fb03._is_warning_message.
        erewrite bind_ok; cycle 1.
        { erewrite bind_ok by (up Hup).
          match goal with |- context [stat_type (gui E ?h s) =? "E"] =>
            destruct (Hq h) as (_ & _ & -> & HW & _) end.
          erewrite com_up; [|by rewrite !get_sess_record_event | apply Hup].
          by rewrite HW. }
        reflexivity. }
      unfold fb03._clear_search_criteria, fb03._set_company_code,
        fb03._set_document_number, fb03._set_document_year.
      erewrite bind_ok by (up Hup). erewrite bind_ok by (up Hup).
      erewrite act_up; [|by rewrite !get_sess_record_event | apply Hup].
      reflexivity.
    + cbn. rewrite Hh1. by rewrite <- !app_assoc.
  - intros Hc Hs Hup. split; [by apply append_case_id_contained |]. intros Hq.
    destruct (append_case_id_opens E w s text document fiscal_year company_code
                (fun old_text =>
                   new_text <- fb03._append_case_id old_text case_id ;;
                   popup <- fb03._is_popup_dialog ;;
                   when popup (fb03._close_popup_dialog false 3 ;;
                               raise (DocumentProcessingError FB03
                                        "Unable to edit the document!")) ;;
                   fb03._press_key "CtrlF1" ;;
                   fb03._set_document_text new_text ;;
                   fb03._save_changes ;;
                   fb03._clear_search_criteria) Hs Hq) as (w1 & Hs1 & Hh1 & Hrun).
    eexists. split.
    + unfold fb03.append_case_id.
      erewrite bind_ok
        by (unfold fb03._check_prerequisities, check_prerequisities; by rewrite Hs).
      unfold except_com_error, try_except. rewrite Hrun.
      erewrite bind_raise by (by apply (append_case_id_contained E w1 s)).
      reflexivity.
    + cbn. rewrite Hh1. by rewrite <- !app_assoc.
Qed.

Lemma append_case_id_composes_witness :
  (fb03._append_case_id "RET711884319" 400081469
     (static_env (with_sgtxt "RET711884319" plain_screen)) (started FB03)
   = (Ok "RET711884319 D 400081469", started FB03)
   /\ exists w',
        fb03.append_case_id (Some 544411698%Z) 2024 "0010" 400081469
          (static_env (with_sgtxt "RET711884319" plain_screen)) (started FB03) = (Ok tt, w')
        /\ hist w' = hist (started FB03) ++
             [Act 0 (SetText "RF05L-BUKRS" "0010");
              Act 0 (SetText "RF05L-BELNR" (str_na (Some 544411698%Z)));
              Act 0 (SetText "RF05L-GJAHR" (str 2024));
              Act 0 (SendVKey 0); Act 0 (SetFocus "RF05L-ANZDT"); Act 0 (SendVKey 2)] ++
             [Act 0 (SendVKey 25);
              Act 0 (SetText "BSEG-SGTXT" (strip "RET711884319" +:+ " D " +:+ str 400081469));
              Act 0 (SendVKey 11);
              Act 0 (SetText "RF05L-BUKRS" ""); Act 0 (SetText "RF05L-BELNR" "");
              Act 0 (SetText "RF05L-GJAHR" "")])
  /\ (fb03._append_case_id "RET711884319 D 400081469" 400081469
        (static_env (with_sgtxt "RET711884319 D 400081469" plain_screen)) (started FB03)
      = (Raise (CaseIdContainedWarning "Document text already contains the case ID!"),
         record_event (Act 0 (SendVKey 12))
           (record_event (Act 0 (SendVKey 12)) (started FB03)))
      /\ exists w',
           fb03.append_case_id (Some 544411698%Z) 2024 "0010" 400081469
             (static_env (with_sgtxt "RET711884319 D 400081469" plain_screen))
             (started FB03)
           = (Raise (CaseIdContainedWarning "Document text already contains the case ID!"),
              w')
           /\ hist w' = hist (started FB03) ++
                [Act 0 (SetText "RF05L-BUKRS" "0010");
                 Act 0 (SetText "RF05L-BELNR" (str_na (Some 544411698%Z)));
                 Act 0 (SetText "RF05L-GJAHR" (str 2024));
                 Act 0 (SendVKey 0); Act 0 (SetFocus "RF05L-ANZDT"); Act 0 (SendVKey 2)] ++
                [Act 0 (SendVKey 12); Act 0 (SendVKey 12)]).
Proof.
  destruct (append_case_id_composes
              (static_env (with_sgtxt "RET711884319" plain_screen)) (started FB03) 0
              "RET711884319" 400081469 (Some 544411698%Z) 2024 "0010") as [H1 _].
  destruct (append_case_id_composes
              (static_env (with_sgtxt "RET711884319 D 400081469" plain_screen))
              (started FB03) 0
              "RET711884319 D 400081469" 400081469 (Some 544411698%Z) 2024 "0010")
    as [_ H2].
  split.
  - destruct H1 as [Ha Hb]; [reflexivity | vm_compute; lia |].
    split; [exact Ha |]. apply Hb; [reflexivity |]. intros h. repeat split.
  - destruct H2 as [Ha Hb]; [reflexivity | reflexivity | intros h; reflexivity |].
    split; [exact Ha |]. apply Hb. intros h. repeat split.
Defined.

(** C5, a text that does not hold the case id and is too long for it: the
    composed string is not produced. *)
Lemma append_case_id_does_not_compose :
  contains (str 400081469) long_text = false
  /\ fb03._append_case_id long_text 400081469 (static_env plain_screen) (started FB03)
     = (Raise (DocumentProcessingError FB03 "'Text' value exceeds 50 chars length!"),
        started FB03).
Proof. split; reflexivity. Qed.

(** Whatever the text, the composition step either returns, or raises after
    at most going back to the initial screen. *)
Lemma emits_append_case_id_step text case_id :
  emits no_edit (fb03._append_case_id text case_id).
Proof.
  unfold fb03._append_case_id, fb03._to_initial_screen, fb03._press_key.
  repeat emits_step; done.
Qed.

(** C6: a document whose text, trimmed and followed by " D " and the case id,
    is longer than the 50 characters of the field.  [append_case_id] ends in
    an exception, and nothing it did up to then opened the edit mode
    (Ctrl+F1) or wrote to the text field, so the text of the document is as
    it was.  The composition step, which the text reaches when it does not
    hold the case id already, raises the error without touching the remote
    side; when the document opens without an alert this error is what
    [append_case_id] raises, right after it has read the text. *)
Theorem too_long_text_is_not_written E w s (document : option Z) (fiscal_year : N)
    (company_code : string) (case_id : N) (text : string) :
  fb03.MAX_TEXT_FIELD_CHARS < String.length (strip text +:+ " D " +:+ str case_id) ->
  (forall h s', sgtxt (gui E h s') = text) ->
  (exists e w',
     fb03.append_case_id document fiscal_year company_code case_id E w = (Raise e, w')
     /\ extends no_edit w w')
  /\ (contains (str case_id) text = false ->
      fb03._append_case_id text case_id E w = (Raise text_too_long, w)
      /\ (get_sess FB03 w = Some s -> opens_quietly E s ->
          exists w',
            fb03.append_case_id document fiscal_year company_code case_id E w
              = (Raise text_too_long, w')
            /\ hist w' = hist w ++
                 [Act s (SetText "RF05L-BUKRS" company_code);
                  Act s (SetText "RF05L-BELNR" (str_na document));
                  Act s (SetText "RF05L-GJAHR" (str fiscal_year));
                  Act s (SendVKey 0);
                  Act s (SetFocus "RF05L-ANZDT");
                  Act s (SendVKey 2)])).
Proof.
  intros Hlen Htext. split.
  - unfold fb03.append_case_id.
    apply bind_fails; [apply emits_check_prerequisities |]. intros _ w1 _.
    assert (exists e w',
      (fb03._set_search_criteria company_code document fiscal_year ;;
       alert <- fb03._is_alert_message ;;
       when alert (t <- com FB03 stat_text ;; raise (DocumentProcessingError FB03 t)) ;;
       fb03._open_document_parameters ;;
       old_text <- fb03._get_document_text ;;
       new_text <- fb03._append_case_id old_text case_id ;;
       popup <- fb03._is_popup_dialog ;;
       when popup (fb03._close_popup_dialog false 3 ;;
                   raise (DocumentProcessingError FB03 "Unable to edit the document!")) ;;
       fb03._press_key "CtrlF1" ;;
       fb03._set_document_text new_text ;;
       fb03._save_changes ;;
       fb03._clear_search_criteria) E w1 = (Raise e, w') /\ extends no_edit w1 w')
      as (e & w' & Hbody & Hext).
    { apply bind_fails; [apply emits_set_search_criteria |]. intros _ w2 _.
      apply bind_fails; [apply emits_is_alert_message |]. intros alert w3 _.
      apply bind_fails; [repeat emits_step |]. intros _ w4 _.
      apply bind_fails; [apply emits_open_document_parameters |]. intros _ w5 _.
      apply bind_fails; [apply emits_com |]. intros old_text w6 Hread.
      apply com_ok_inv in Hread as (-> & s0 & _ & ->). rewrite Htext.
      apply bind_fails; [apply emits_append_case_id_step |]. intros new_text w7 Hnew.
      exfalso. unfold fb03._append_case_id in Hnew.
      destruct (contains (str case_id) text) eqn:Hc.
      - apply bind_ok_inv in Hnew as (u & w8 & _ & Hnew). done.
      - rewrite remove_duplicates_not_contained in Hnew by done.
        apply Nat.leb_gt in Hlen. by rewrite Hlen in Hnew. }
    destruct (except_com_error_raise FB03 _ _ _ _ _ Hbody) as [e' He'].
    by exists e', w'.
  - intros Hc. split; [by apply append_case_id_exceeds |]. intros Hs Hq.
    assert (forall h, link (gui E h s) = LinkUp) as Hup by (intros h; apply Hq).
    eexists. split.
    + unfold fb03.append_case_id.
      erewrite bind_ok by (unfold fb03._check_prerequisities, check_prerequisities; by rewrite Hs).
      unfold except_com_error, try_except.
      erewrite bind_ok; cycle 1.
      { unfold fb03._set_search_criteria, fb03._set_company_code, fb03._set_document_number,
          fb03._set_document_year, fb03._press_key, press_key. cbn [assoc fb03._virtual_keys String.eqb Ascii.eqb Bool.eqb].
        erewrite bind_ok by (up Hup). erewrite bind_ok by (up Hup).
        erewrite bind_ok by (up Hup). erewrite bind_ok by (up Hup).
        erewrite bind_ok by (up Hup).
        match goal with |- context [stat_text (gui E ?h s)] =>
          destruct (Hq h) as (_ & -> & _) end.
        done. }
      erewrite bind_ok; cycle 1.
      { unfold fb03._is_alert_message, fb03._is_error_message, is_error_message,
          fb03._is_warning_message.
        erewrite bind_ok by (up Hup).
        match goal with |- context [stat_type (gui E ?h s)] =>
          destruct (Hq h) as (_ & _ & -> & HW) end.
        erewrite com_up; [|by rewrite !get_sess_record_event | apply Hup].
        by rewrite HW. }
      cbn [when].
      erewrite bind_ok by done.
      erewrite bind_ok; cycle 1.
      { unfold fb03._open_document_parameters, fb03._press_key, press_key.
        cbn [assoc fb03._virtual_keys String.eqb Ascii.eqb Bool.eqb].
        erewrite bind_ok by (up Hup). up Hup. }
      erewrite bind_ok by (up Hup).
      rewrite Htext.
      erewrite bind_raise by (by apply append_case_id_exceeds).
      reflexivity.
    + cbn. by rewrite <- !app_assoc.
Qed.

Lemma too_long_text_is_not_written_witness :
  (exists e w',
     fb03.append_case_id (Some 544411698%Z) 2024 "0010" 400081469
       (static_env (with_sgtxt long_text plain_screen)) (started FB03) = (Raise e, w')
     /\ extends no_edit (started FB03) w')
  /\ fb03._append_case_id long_text 400081469
       (static_env (with_sgtxt long_text plain_screen)) (started FB03)
     = (Raise text_too_long, started FB03)
  /\ (exists w',
        fb03.append_case_id (Some 544411698%Z) 2024 "0010" 400081469
          (static_env (with_sgtxt long_text plain_screen)) (started FB03)
          = (Raise text_too_long, w')
        /\ hist w' = hist (started FB03) ++
             [Act 0 (SetText "RF05L-BUKRS" "0010");
              Act 0 (SetText "RF05L-BELNR" (str_na (Some 544411698%Z)));
              Act 0 (SetText "RF05L-GJAHR" (str 2024));
              Act 0 (SendVKey 0);
              Act 0 (SetFocus "RF05L-ANZDT");
              Act 0 (SendVKey 2)]).
Proof.
  destruct (too_long_text_is_not_written
              (static_env (with_sgtxt long_text plain_screen)) (started FB03) 0
              (Some 544411698%Z) 2024 "0010" 400081469 long_text)
    as (H1 & H2); [vm_compute; lia | reflexivity |].
  split; [exact H1 |]. destruct H2 as [H2 H3]; [reflexivity |].
  split; [exact H2 |]. apply H3; [reflexivity |]. intros h. repeat split.
Defined.

(** ** Credit-note lookup: the tree search *)

Lemma find_app_first {A} (f : A -> bool) (l1 l2 : list A) :
  find f (l1 ++ l2) = match find f l1 with
                      | Some x => Some x
                      | None => find f l2
                      end.
Proof. induction l1 as [|x l1 IH]; simpl; [done |]. by destruct (f x). Qed.

Lemma first_match_node substr key text children sibling :
  first_match substr (Node key text children sibling) =
    if contains substr text then Some key
    else match first_match substr children with
         | Some k => Some k
         | None => first_match substr sibling
         end.
Proof.
  unfold first_match. simpl. destruct (contains substr text); [done |].
  rewrite find_app_first. by destruct (find _ (preorder children)).
Qed.

Theorem get_node_value_preorder E w s substr (n : nodes) :
  get_sess VA03 w = Some s ->
  link (gui E (hist w) s) = LinkUp ->
  va03._get_node_value_from substr n E w =
    match first_match substr n with
    | Some key => (num <- va03._get_reference_number key ;; ret (Some num)) E w
    | None => (Ok None, w)
    end.
Proof.
  intros Hs Hup. induction n as [|key text children IHc sibling IHx]; [done |].
  rewrite first_match_node. cbn [va03._get_node_value_from].
  erewrite bind_ok by (by apply com_up).
  destruct (contains substr text); [done |].
  erewrite bind_ok by (by apply com_up).
  assert ((match children with
           | NoNode => ret None
           | Node _ _ _ _ => va03._get_node_value_from substr children
           end) E w = va03._get_node_value_from substr children E w) as Hch
    by (by destruct children).
  unfold bind at 1. rewrite Hch, IHc.
  destruct (first_match substr children) as [k|].
  - unfold bind. destruct (va03._get_reference_number k E w) as [[num| |] w']; done.
  - erewrite bind_ok by (apply try_except_ok; by apply com_up).
    rewrite <- IHx. by destruct sibling.
Qed.

(** C7: the search visits the nodes in pre-order (a node, then its
    sub-nodes, then the nodes after it on its level) and stops at the first
    one whose text contains the marker; what it returns is the reference
    number read after opening that node, and [None] when no node matches. *)
Theorem tree_search_is_preorder E w s (substr : string) :
  get_sess VA03 w = Some s ->
  link (gui E (hist w) s) = LinkUp ->
  (forall n : nodes,
     va03._get_node_value_from substr n E w =
       match first_match substr n with
       | Some key => (num <- va03._get_reference_number key ;; ret (Some num)) E w
       | None => (Ok None, w)
       end)
  /\ va03._get_node_value substr E w =
       match tree (gui E (hist w) s) with
       | NoNode => (Raise StopIteration, w)
       | Node _ _ _ _ =>
           match first_match substr (tree (gui E (hist w) s)) with
           | Some key => (num <- va03._get_reference_number key ;; ret (Some num)) E w
           | None => (Ok None, w)
           end
       end.
Proof.
  intros Hs Hup. split; [intros n; by apply (get_node_value_preorder E w s) |].
  unfold va03._get_node_value. erewrite bind_ok by (by apply com_up).
  destruct (tree (gui E (hist w) s)) as [|key text children sibling] eqn:Ht; [done |].
  by apply (get_node_value_preorder E w s).
Qed.

Lemma tree_search_is_preorder_witness :
  first_match "Accounting document" flow_with_one_accounting = Some "          6"
  /\ va03._get_node_value "Accounting document"
       (static_env (with_tree flow_with_one_accounting "0090012345" plain_screen))
       (started VA03)
     = (Ok (Some 90012345%Z),
        record_event (Act 0 (DoubleClickItem "          6" "&Hierarchy"))
          (record_event (Act 0 (SelectItem "          6" "&Hierarchy")) (started VA03)))
  /\ preorder flow_with_accounting =
    [("          1", "Credit memo request 5012233445");
     ("          2", "Delivery 0080004711");
     ("          3", "Picking request 20240115");
     ("          4", "GD goods issue 4900001234");
     ("          5", "Credit memo 0090012345");
     ("          6", "Accounting document 0090012345");
     ("          7", "Accounting document 0090099999");
     ("          8", "Cancellation 0090012346")]
  /\ first_match "Accounting document" flow_with_accounting = Some "          6"
  /\ va03._get_node_value "Accounting document"
       (static_env (with_tree flow_with_accounting "0090012345" plain_screen)) (started VA03)
     = (Ok (Some 90012345%Z),
        record_event (Act 0 (DoubleClickItem "          6" "&Hierarchy"))
          (record_event (Act 0 (SelectItem "          6" "&Hierarchy")) (started VA03))).
Proof.
  destruct (tree_search_is_preorder
              (static_env (with_tree flow_with_one_accounting "0090012345" plain_screen))
              (started VA03) 0 "Accounting document" eq_refl eq_refl) as [_ H1].
  destruct (tree_search_is_preorder
              (static_env (with_tree flow_with_accounting "0090012345" plain_screen))
              (started VA03) 0 "Accounting document" eq_refl eq_refl) as [_ H2].
  split; [reflexivity |]. split; [rewrite H1; reflexivity |].
  split; [reflexivity |]. split; [reflexivity |].
  rewrite H2. reflexivity.
Defined.

(** ** Notification closure: the two status-check popups *)

Lemma status_check_in_titles : in_list "Status check error" dialog_titles = true.
Proof. reflexivity. Qed.

(** Declining the popup "Status check error": one F12, then the button "No"
    if the window that comes to the front has one. *)
Lemma decline_status_check E w s :
  get_sess QM02 w = Some s -> link_holds E s -> decline_closes E s ->
  window_text (gui E (hist w) s) = "Status check error" ->
  exists w' tail,
    qm02._close_popup_dialog false 3 E w = (Ok tt, w')
    /\ get_sess QM02 w' = Some s
    /\ hist w' = hist w ++ Act s (SendVKey 12) :: tail
    /\ (tail = [] \/ tail = [Act s (PressButton "No")]).
Proof.
  intros Hs Hup Hdec Htext.
  unfold qm02._close_popup_dialog, close_popup_dialog.
  set (w1 := record_event (Act s (SendVKey 12)) w).
  assert (get_sess QM02 w1 = Some s) as Hs1 by exact Hs.
  destruct (Hdec (hist w)) as [Ht Hty].
  assert (close_popup_presses QM02 qm02._virtual_keys false 3 E w = (Ok tt, w1)) as Hp.
  { rewrite close_popup_presses_eq.
    erewrite bind_ok by (up Hup). rewrite Htext, status_check_in_titles.
    unfold press_key at 1. cbn [assoc qm02._virtual_keys String.eqb Ascii.eqb Bool.eqb].
    erewrite bind_ok by (up Hup). fold w1.
    rewrite close_popup_presses_eq.
    erewrite bind_ok by (up Hup).
    change (hist w1) with (hist w ++ [Act s (SendVKey 12)]). by rewrite Ht. }
  erewrite bind_ok by exact Hp.
  erewrite bind_ok by (up Hup).
  change (hist w1) with (hist w ++ [Act s (SendVKey 12)]). rewrite Hty.
  erewrite bind_ok by (up Hup).
  destruct (has_button "No" _); cbn [when].
  - exists (record_event (Act s (PressButton "No")) w1), [Act s (PressButton "No")].
    split; [up Hup |]. split; [by rewrite get_sess_record_event |].
    split; [|by right]. cbn. by rewrite <- app_assoc.
  - exists w1, []. split; [done |]. split; [done |]. split; [done | by left].
Qed.

(** A task whose completion raises the popup: the popup is declined and
    [_complete_task] returns. *)
Lemma complete_task_declined fuel E w s (task_num : Z) :
  get_sess QM02 w = Some s -> link_holds E s -> decline_closes E s ->
  task_check_fails E s ->
  exists w' tail,
    qm02._complete_task fuel task_num E w = (Ok tt, w')
    /\ get_sess QM02 w' = Some s
    /\ hist w' = hist w ++
         [Act s (SetScrollbar (task_num - 1)); Act s (SelectRow (task_num - 1));
          Act s (Press "FC_ERLEDIGT"); Act s (SendVKey 12)] ++ tail
    /\ (tail = [] \/ tail = [Act s (PressButton "No")]).
Proof.
  intros Hs Hup Hdec Htask. unfold qm02._complete_task.
  set (w1 := record_event (Act s (SetScrollbar (task_num - 1))) w).
  set (w2 := record_event (Act s (SelectRow (task_num - 1))) w1).
  set (w3 := record_event (Act s (Press "FC_ERLEDIGT")) w2).
  assert (qm02._select_task (task_num - 1) E w = (Ok tt, w2)) as Hsel.
  { unfold qm02._select_task, qm02._get_task_viewer.
    erewrite bind_ok by (up Hup).
    erewrite bind_ok by (up Hup). fold w1.
    erewrite bind_ok by (up Hup).
    up Hup. }
  erewrite bind_ok by exact Hsel.
  erewrite bind_ok by (up Hup). fold w3.
  erewrite bind_ok by (up Hup).
  change (hist w3) with (hist w2 ++ [Act s (Press "FC_ERLEDIGT")]). rewrite Htask.
  cbn [String.eqb Ascii.eqb Bool.eqb].
  destruct (decline_status_check E w3 s) as (w' & tail & Hrun & Hs' & Hh & Htail);
    [done.. | apply Htask |].
  exists w', tail. split; [done |]. split; [done |]. split; [|done].
  rewrite Hh. cbn. by rewrite <- !app_assoc.
Qed.

(** The loop of [_complete] over the tasks: none of them makes it fail. *)
Lemma complete_tasks_declined fuel E s (tasks : list (Z * qm02.task)) w :
  get_sess QM02 w = Some s -> link_holds E s -> decline_closes E s ->
  task_check_fails E s ->
  exists w',
    for_each tasks (fun item =>
      let '(task_num, param) := item in
      if negb (qm02.completion_date param =? "") then ret tt
      else qm02._complete_task fuel task_num) E w = (Ok tt, w')
    /\ get_sess QM02 w' = Some s.
Proof.
  intros Hs Hup Hdec Htask. revert w Hs.
  induction tasks as [|[task_num param] tasks IH]; intros w Hs; [by exists w |].
  cbn [for_each]. destruct (negb (qm02.completion_date param =? "")).
  - erewrite bind_ok by done. by apply IH.
  - destruct (complete_task_declined fuel E w s task_num) as (w1 & tail & Hrun & Hs1 & _);
      [done.. |].
    erewrite bind_ok by exact Hrun. by apply IH.
Qed.

(** When the completion control of the notification raises the popup,
    [_complete] does not return normally, whatever else happens. *)
Lemma complete_fails fuel E w :
  final_check_fails E -> forall u w', qm02._complete fuel E w <> (Ok u, w').
Proof.
  intros Hfinal u w' H. unfold qm02._complete in H.
  apply bind_ok_inv in H as (tasks & w1 & _ & H).
  apply bind_ok_inv in H as (x1 & w2 & _ & H).
  apply bind_ok_inv in H as (x2 & w3 & Hpress & H).
  apply act_ok_inv in Hpress as (s & Hs & ->).
  apply bind_ok_inv in H as (t & w4 & Hread & H).
  apply com_ok_inv in Hread as (-> & s' & Hs' & ->).
  rewrite get_sess_record_event, Hs in Hs'. injection Hs' as <-.
  rewrite hist_record_event, Hfinal in H. cbn [String.eqb Ascii.eqb Bool.eqb when] in H.
  apply bind_ok_inv in H as (x3 & w5 & _ & H).
  apply bind_ok_inv in H as (x4 & w6 & _ & H).
  apply bind_ok_inv in H as (x5 & w7 & _ & H).
  apply bind_ok_inv in H as (x6 & w8 & _ & H). done.
Qed.

Lemma complete_notification_fails fuel E w (notif_id : N) :
  final_check_fails E ->
  forall u w', qm02.complete_notification fuel notif_id E w <> (Ok u, w').
Proof.
  intros Hfinal u w' H. unfold qm02.complete_notification, except_com_error in H.
  apply try_except_ok_inv in H.
  apply bind_ok_inv in H as (x7 & w1 & _ & H).
  apply bind_ok_inv in H as (x8 & w2 & _ & H).
  apply bind_ok_inv in H as (x9 & w3 & _ & H).
  apply bind_ok_inv in H as (x10 & w4 & _ & H).
  apply bind_ok_inv in H as (x & w5 & H & _).
  by eapply complete_fails.
Qed.

Lemma keeps_available_tasks_from remaining row_idx tasks :
  keeps_sess (qm02.available_tasks_from remaining row_idx tasks).
Proof.
  revert row_idx tasks. induction remaining as [|r IH]; intros row_idx tasks; [done |].
  cbn [qm02.available_tasks_from].
  unfold qm02._get_task_param, qm02._get_task_viewer.
  cbn [String.eqb Ascii.eqb Bool.eqb].
  repeat keeps_step; apply IH.
Qed.

Lemma keeps_get_available_tasks : keeps_sess qm02._get_available_tasks.
Proof.
  unfold qm02._get_available_tasks. keeps_step; [keeps_step |].
  apply keeps_available_tasks_from.
Qed.

(** With the connection holding and the decline key closing popups, a
    notification whose tasks and whose own completion all raise the popup:
    the tasks are passed over, the notification fails. *)
Lemma complete_status_check fuel E w s tasks w1 :
  get_sess QM02 w = Some s -> link_holds E s -> decline_closes E s ->
  task_check_fails E s -> final_check_fails E ->
  qm02._get_available_tasks E w = (Ok tasks, w1) ->
  exists w', qm02._complete fuel E w
             = (Raise (NotificationCompletionError "Status check error!"), w').
Proof.
  intros Hs Hup Hdec Htask Hfinal Htasks. unfold qm02._complete.
  erewrite bind_ok by exact Htasks.
  assert (get_sess QM02 w1 = Some s) as Hs1.
  { pose proof (keeps_get_available_tasks E w QM02) as H. rewrite Htasks in H.
    by rewrite <- Hs. }
  destruct (complete_tasks_declined fuel E s tasks w1) as (w2 & Hloop & Hs2); [done.. |].
  erewrite bind_ok by exact Hloop.
  erewrite bind_ok by (up Hup).
  set (w3 := record_event (Act s (Press "tbar[1]/btn[20]")) w2).
  erewrite bind_ok by (up Hup).
  change (hist w3) with (hist w2 ++ [Act s (Press "tbar[1]/btn[20]")]).
  rewrite Hfinal. cbn [String.eqb Ascii.eqb Bool.eqb when].
  destruct (decline_status_check E w3 s) as (w4 & tail & Hrun & Hs4 & Hh & Htail);
    [done.. | apply Hfinal |].
  erewrite bind_ok by exact Hrun.
  unfold qm02._press_key, press_key. cbn [assoc qm02._virtual_keys String.eqb Ascii.eqb Bool.eqb].
  erewrite bind_ok by (up Hup).
  unfold qm02._is_popup_dialog, is_popup_dialog.
  erewrite bind_ok by (up Hup).
  rewrite hist_record_event. destruct (Hdec (hist w4)) as [_ ->]. cbn [when].
  erewrite bind_ok by done. by eexists.
Qed.

(** A grid that can be read is read to the end. *)
Lemma available_tasks_read E s remaining :
  link_holds E s -> grid_readable E s ->
  forall row_idx tasks w, get_sess QM02 w = Some s ->
    exists tasks' w',
      qm02.available_tasks_from remaining row_idx tasks E w = (Ok tasks', w')
      /\ get_sess QM02 w' = Some s.
Proof.
  intros Hup Hgrid. induction remaining as [|r IH]; intros row_idx tasks w Hs.
  - by exists tasks, w.
  - cbn [qm02.available_tasks_from].
    erewrite bind_ok by (up Hup).
    destruct (Hgrid (hist w)) as [Hvis _]. apply Z.eqb_neq in Hvis. rewrite Hvis.
    set (visible_row_idx := (row_idx mod visible_row_count (gui E (hist w) s))%Z).
    assert (exists w1,
      when ((visible_row_idx =? 0)%Z && (0 <? row_idx)%Z)
        (act QM02 (SetScrollbar row_idx) ;; qm02._get_task_viewer) E w = (Ok tt, w1)
      /\ get_sess QM02 w1 = Some s) as (w1 & Hscroll & Hs1).
    { destruct (_ && _); cbn [when].
      - exists (record_event (Act s (SetScrollbar row_idx)) w). split; [|done].
        erewrite bind_ok by (up Hup). unfold qm02._get_task_viewer.
        by rewrite (com_up QM02 (fun _ => tt) E _ s)
          by first [by rewrite ?get_sess_record_event | apply Hup].
      - exists w. by split. }
    erewrite bind_ok by exact Hscroll.
    erewrite bind_ok by (up Hup).
    destruct (Hgrid (hist w1)) as [_ Hcell].
    destruct (cell (gui E (hist w1) s) visible_row_idx 0 =? "") eqn:Hempty;
      [by exists tasks, w1 |].
    destruct (Hcell visible_row_idx) as [Hc | [n Hn]];
      [by rewrite Hc in Hempty |].
    unfold qm02._get_task_param at 1. cbn [String.eqb Ascii.eqb Bool.eqb].
    erewrite bind_ok; cycle 1.
    { erewrite bind_ok by (up Hup). by rewrite Hn. }
    unfold qm02._get_task_param at 1. cbn [String.eqb Ascii.eqb Bool.eqb].
    erewrite bind_ok; cycle 1.
    { erewrite bind_ok by (up Hup). reflexivity. }
    by apply IH.
Qed.

(** With the connection holding and popups closing on F12, a notification
    that opens, whose tasks and whose own completion all raise the popup:
    the tasks are passed over, the notification fails. *)
Lemma complete_notification_status_check fuel E w s (notif_id : N) :
  get_sess QM02 w = Some s -> link_holds E s -> notification_opens E s ->
  grid_readable E s -> decline_closes E s -> task_check_fails E s ->
  final_check_fails E ->
  exists w',
    qm02.complete_notification fuel notif_id E w
      = (Raise (NotificationCompletionError "Status check error!"), w').
Proof.
  intros Hs Hup Hopen Hgrid Hdec Htask Hfinal.
  unfold qm02.complete_notification, except_com_error, try_except.
  erewrite bind_ok
    by (unfold qm02._check_prerequisities, check_prerequisities; by rewrite Hs).
  erewrite bind_ok; cycle 1.
  { unfold qm02._search_notification, qm02._set_notification_id, qm02._press_key, press_key,
      qm02._is_popup_dialog, is_popup_dialog.
    cbn [assoc qm02._virtual_keys String.eqb Ascii.eqb Bool.eqb].
    erewrite bind_ok by (up Hup). erewrite bind_ok by (up Hup).
    erewrite bind_ok by (up Hup). rewrite hist_record_event.
    match goal with |- context [gui E (?h ++ [Act s (SendVKey 0)]) s] =>
      destruct (Hopen h) as (Hw & Hm1 & Hm2 & Hm3) end.
    rewrite Hw. cbn [when]. erewrite bind_ok by done. erewrite bind_ok by (up Hup).
    rewrite hist_record_event, Hm1, Hm2, Hm3.
    cbn [when]. erewrite bind_ok by done. erewrite bind_ok by done.
    erewrite bind_ok by (up Hup). rewrite hist_record_event, Hw. reflexivity. }
  unfold qm02._activate_tab. cbn [String.eqb Ascii.eqb Bool.eqb].
  erewrite bind_ok by (up Hup).
  unfold qm02._get_task_viewer at 1. erewrite bind_ok by (up Hup).
  match goal with |- context [bind (qm02._complete fuel) _ E ?w1] =>
    assert (get_sess QM02 w1 = Some s) as Hs1 by (by rewrite !get_sess_record_event);
    destruct (available_tasks_read E s
                (Z.to_nat (row_count (gui E (hist w1) s) - 1 - 0)) Hup Hgrid 0%Z [] w1 Hs1)
      as (tasks & w2 & Htasks & _);
    destruct (complete_status_check fuel E w1 s tasks w2) as (w' & Hc); try done
  end.
  - unfold qm02._get_available_tasks. by erewrite bind_ok by (up Hup).
  - erewrite bind_raise by exact Hc. by eexists.
Qed.

(** C9: when completing a task brings up the popup "Status check error",
    the popup is declined with F12 and [_complete_task] returns, so that the
    loop over the tasks goes on to the end; when the completion control of
    the notification brings it up, [_complete] and [complete_notification]
    do not return normally, and with the connection holding, the
    notification opening and the popups closing on F12 the exception of
    [complete_notification] is [NotificationCompletionError]. *)
Theorem status_check_popups fuel E w s :
  (get_sess QM02 w = Some s -> link_holds E s -> decline_closes E s ->
   task_check_fails E s ->
   (forall task_num,
      exists w' tail,
        qm02._complete_task fuel task_num E w = (Ok tt, w')
        /\ hist w' = hist w ++
             [Act s (SetScrollbar (task_num - 1)); Act s (SelectRow (task_num - 1));
              Act s (Press "FC_ERLEDIGT"); Act s (SendVKey 12)] ++ tail
        /\ (tail = [] \/ tail = [Act s (PressButton "No")]))
   /\ (forall tasks : list (Z * qm02.task),
         exists w',
           for_each tasks (fun item =>
             let '(task_num, param) := item in
             if negb (qm02.completion_date param =? "") then ret tt
             else qm02._complete_task fuel task_num) E w = (Ok tt, w')))
  /\ (final_check_fails E ->
      (forall u w', qm02._complete fuel E w <> (Ok u, w'))
      /\ (forall notif_id u w', qm02.complete_notification fuel notif_id E w <> (Ok u, w')))
  /\ (get_sess QM02 w = Some s -> link_holds E s -> notification_opens E s ->
      grid_readable E s -> decline_closes E s -> task_check_fails E s ->
      final_check_fails E ->
      forall notif_id,
        exists w',
          qm02.complete_notification fuel notif_id E w
            = (Raise (NotificationCompletionError "Status check error!"), w')).
Proof.
  split; [|split].
  - intros Hs Hup Hdec Htask. split.
    + intros task_num.
      destruct (complete_task_declined fuel E w s task_num) as (w' & tail & H1 & _ & H2 & H3);
        [done.. |].
      by exists w', tail.
    + intros tasks.
      destruct (complete_tasks_declined fuel E s tasks w) as (w' & H & _); [done.. |].
      by exists w'.
  - intros Hfinal. split.
    + by apply complete_fails.
    + intros notif_id. by apply complete_notification_fails.
  - intros Hs Hup Hopen Hgrid Hdec Htask Hfinal notif_id.
    by apply (complete_notification_status_check fuel E w s).
Qed.

Lemma status_checks_fail_link s : link_holds status_checks_fail s.
Proof. intros h. cbn. by destruct (last h) as [[| ? [] |]|]. Qed.

Lemma status_checks_fail_decline s : decline_closes status_checks_fail s.
Proof. intros h. cbn. by rewrite last_snoc. Qed.

Lemma status_checks_fail_task s : task_check_fails status_checks_fail s.
Proof. intros h. cbn. by rewrite last_snoc. Qed.

Lemma status_checks_fail_final : final_check_fails status_checks_fail.
Proof. intros s h. cbn. by rewrite last_snoc. Qed.

Lemma status_checks_fail_opens s : notification_opens status_checks_fail s.
Proof. intros h. cbn. by rewrite last_snoc. Qed.

Lemma status_checks_fail_grid s : grid_readable status_checks_fail s.
Proof.
  intros h. assert (forall row, task_cells row 0 = "" \/ is_Some (py_int (task_cells row 0)))
    as Hcells.
  { intros row. unfold task_cells. cbn. destruct (row =? 0)%Z; [by right |].
    destruct (row =? 1)%Z; [by right | by left]. }
  cbn. by destruct (last h) as [[| ? [] |]|].
Qed.

Lemma status_check_popups_witness :
  (exists w' tail,
     qm02._complete_task 0 1 status_checks_fail (started QM02) = (Ok tt, w')
     /\ hist w' = hist (started QM02) ++
          [Act 0 (SetScrollbar (1 - 1)); Act 0 (SelectRow (1 - 1));
           Act 0 (Press "FC_ERLEDIGT"); Act 0 (SendVKey 12)] ++ tail
     /\ (tail = [] \/ tail = [Act 0 (PressButton "No")]))
  /\ (forall u w',
        qm02.complete_notification 0 300012345 status_checks_fail (started QM02)
          <> (Ok u, w'))
  /\ (exists w',
        qm02.complete_notification 0 300012345 status_checks_fail (started QM02)
          = (Raise (NotificationCompletionError "Status check error!"), w'))
  /\ qm02.complete_notification 0 300012345 status_checks_fail (started QM02)
     = (Raise (NotificationCompletionError "Status check error!"),
        {| hist :=
             [Connect "P01" 0;
              Act 0 (SetText "wnd[0]/usr/ctxtRIWO00-QMNUM" "300012345");
              Act 0 (SendVKey 0); Act 0 (SelectTab "TAB_GROUP_10" 3);
              Act 0 (SetScrollbar 0); Act 0 (SelectRow 0);
              Act 0 (Press "FC_ERLEDIGT"); Act 0 (SendVKey 12);
              Act 0 (SetScrollbar 1); Act 0 (SelectRow 1);
              Act 0 (Press "FC_ERLEDIGT"); Act 0 (SendVKey 12);
              Act 0 (Press "tbar[1]/btn[20]"); Act 0 (SendVKey 12);
              Act 0 (SendVKey 12)];
           va03_sess := None; fb03_sess := None; qm02_sess := Some 0 |}).
Proof.
  destruct (status_check_popups 0 status_checks_fail (started QM02) 0) as (H1 & H2 & H3).
  split; [|split; [|split]].
  - apply H1; [reflexivity | apply status_checks_fail_link | apply status_checks_fail_decline
              | apply status_checks_fail_task].
  - apply H2, status_checks_fail_final.
  - apply H3; [reflexivity | apply status_checks_fail_link | apply status_checks_fail_opens
              | apply status_checks_fail_grid | apply status_checks_fail_decline
              | apply status_checks_fail_task | apply status_checks_fail_final].
  - vm_compute. reflexivity.
Defined.

(** ** The annotation stage: which document is opened *)

Lemma emits_append_case_id document fiscal_year company_code case_id :
  emits any_event (fb03.append_case_id document fiscal_year company_code case_id).
Proof.
  unfold fb03.append_case_id, fb03._check_prerequisities, fb03._set_search_criteria,
    fb03._is_alert_message, fb03._is_error_message, fb03._is_warning_message,
    is_error_message, fb03._open_document_parameters, fb03._get_document_text,
    fb03._append_case_id, fb03._to_initial_screen, fb03._is_popup_dialog, is_popup_dialog,
    fb03._set_document_text, fb03._is_cleared_document, fb03._to_initial_screen,
    fb03._save_changes, fb03._is_alert_message, fb03._is_error_message,
    fb03._is_warning_message, is_error_message, fb03._clear_search_criteria,
    fb03._set_company_code, fb03._set_document_number, fb03._set_document_year,
    fb03._close_popup_dialog, fb03._press_key.
  repeat first [apply emits_close_popup_dialog | emits_step]; done.
Qed.

Lemma emits_fb03_start sess : emits any_event (fb03.start sess).
Proof.
  unfold fb03.start, fb03._clear_search_criteria,
    fb03._set_company_code, fb03._set_document_number, fb03._set_document_year.
  repeat emits_step; done.
Qed.

Lemma emits_connect system : emits any_event (sap.connect system).
Proof.
  intros E w. unfold sap.connect. destruct (reachable E (hist w)).
  - split; [done |]. by apply extends_record.
  - split; [done | apply extends_refl].
Qed.

Lemma emits_update_attempts fuel idx doc_num doc_year cocd case_id n_attempts result :
  controller.MAX_RECOVERY_ATTEMPTS <= fuel + n_attempts ->
  emits any_event
    (controller.update_attempts fuel idx doc_num doc_year cocd case_id n_attempts result).
Proof.
  revert n_attempts. induction fuel as [|fuel IH]; intros n_attempts Hfuel.
  - cbn [controller.update_attempts].
    destruct (n_attempts <? controller.MAX_RECOVERY_ATTEMPTS)%nat eqn:Hn;
      [apply Nat.ltb_lt in Hn; simpl in Hfuel; lia | apply emits_ret].
  - cbn [controller.update_attempts].
    destruct (n_attempts <? controller.MAX_RECOVERY_ATTEMPTS)%nat; [|apply emits_ret].
    intros E w.
    destruct (emits_append_case_id doc_num doc_year cocd case_id E w) as [Hf Hw].
    destruct (fb03.append_case_id doc_num doc_year cocd case_id E w) as [[u|e|] w1];
      simpl in *; [done | | done].
    assert (emits any_event
      (sess <- controller.connect_to_sap (system_code E) ;;
       fb03.start sess ;;
       controller.update_attempts fuel idx doc_num doc_year cocd case_id
         (n_attempts + 1) result)) as Hretry.
    { emits_step; [apply emits_connect |].
      emits_step; [apply emits_fb03_start |]. apply IH. lia. }
    destruct e as [| | | | | | | | | | | | m msg | m msg | | | | |]; try done.
    + destruct m; try done. destruct (Hretry E w1) as [Hf' Hw'].
      split; [done | by eapply extends_trans].
    + destruct m; done.
Qed.

(** The first thing [append_case_id] does is to type the company code and the
    document number it was given into the search fields. *)
Lemma append_case_id_types_document E w s document fiscal_year company_code case_id :
  get_sess FB03 w = Some s -> link_holds E s ->
  exists tail,
    hist (fb03.append_case_id document fiscal_year company_code case_id E w).2 =
      hist w ++ Act s (SetText "RF05L-BUKRS" company_code)
             :: Act s (SetText "RF05L-BELNR" (str_na document)) :: tail.
Proof.
  intros Hs Hup. unfold fb03.append_case_id.
  erewrite bind_ok by (unfold fb03._check_prerequisities, check_prerequisities; by rewrite Hs).
  rewrite except_com_error_world.
  unfold fb03._set_search_criteria, fb03._set_company_code, fb03._set_document_number.
  rewrite bind_assoc. erewrite bind_ok by (up Hup).
  rewrite bind_assoc. erewrite bind_ok by (up Hup).
  match goal with |- context [bind ?c ?k E ?w2] =>
    assert (emits any_event (bind c k)) as Hrest
  end.
  { unfold fb03._check_prerequisities, fb03._set_search_criteria,
      fb03._is_alert_message, fb03._is_error_message, fb03._is_warning_message,
      is_error_message, fb03._open_document_parameters, fb03._get_document_text,
      fb03._append_case_id, fb03._to_initial_screen, fb03._is_popup_dialog, is_popup_dialog,
      fb03._set_document_text, fb03._is_cleared_document, fb03._to_initial_screen,
      fb03._save_changes, fb03._is_alert_message, fb03._is_error_message,
      fb03._is_warning_message, is_error_message, fb03._clear_search_criteria,
      fb03._set_company_code, fb03._set_document_number, fb03._set_document_year,
      fb03._close_popup_dialog, fb03._press_key.
    repeat first [apply emits_close_popup_dialog | emits_step]; done. }
  match goal with |- context [bind ?c ?k E ?w2] =>
    destruct (Hrest E w2) as [_ (evs & Hevs & _)]
  end.
  exists evs. rewrite Hevs. cbn. by rewrite <- !app_assoc.
Qed.

Lemma update_document_types_document E w s idx row doc_num result doc_year case_id :
  get_sess FB03 w = Some s -> link_holds E s ->
  controller.Document_Year row = Some doc_year ->
  controller.Case_ID row = Some case_id ->
  exists tail,
    hist (controller.update_document idx row doc_num result E w).2 =
      hist w ++ Act s (SetText "RF05L-BUKRS" (controller.Company_Code row))
             :: Act s (SetText "RF05L-BELNR" (str_na doc_num)) :: tail.
Proof.
  intros Hs Hup Hy Hc. unfold controller.update_document. rewrite Hy, Hc.
  assert (forall (c : M (nat * controller.DataFrame)),
    (bind c (fun r => let '(n_attempts, result) := r in
                      if negb (n_attempts =? 0)%nat
                      then raise (controller.recovery_failed "fb03")
                      else ret result) E w).2 = (c E w).2) as ->.
  { intros c. unfold bind. destruct (c E w) as [[[n r]|e|] w1]; [|done..].
    by destruct (negb _). }
  cbn [controller.update_attempts controller.MAX_RECOVERY_ATTEMPTS Nat.ltb Nat.leb].
  destruct (append_case_id_types_document E w s doc_num doc_year
              (controller.Company_Code row) case_id Hs Hup) as [tail Htail].
  destruct (fb03.append_case_id doc_num doc_year (controller.Company_Code row) case_id E w)
    as [[u|e|] w1]; simpl in Htail; [by exists tail | | by exists tail].
  assert (emits any_event
    (sess <- controller.connect_to_sap (system_code E) ;;
     fb03.start sess ;;
     controller.update_attempts 2 idx doc_num doc_year (controller.Company_Code row)
       case_id (0 + 1) result)) as Hretry.
  { emits_step; [apply emits_connect |].
    emits_step; [apply emits_fb03_start |]. apply emits_update_attempts.
    unfold controller.MAX_RECOVERY_ATTEMPTS. lia. }
  destruct e as [| | | | | | | | | | | | m msg | m msg | | | | |]; try by exists tail.
  - destruct m; try by exists tail.
    destruct (Hretry E w1) as [_ (evs & Hevs & _)].
    exists (tail ++ evs). rewrite Htail, <- app_assoc in Hevs. exact Hevs.
  - destruct m; by exists tail.
Qed.

(** C8: in the annotation stage the document typed into the search field of
    FB03 is the document number of a row that is not an order, and the
    credit-note number of an order that has one; for an order without a
    credit-note number the driver is not called (the world is unchanged),
    the other rows are left alone, and "Document skipped." is appended to the
    message the row had, which is kept in front of it. *)
Theorem annotation_row_selection E w s idx (row : controller.row)
    (result : controller.DataFrame) doc_year case_id :
  (controller.Is_Order row = Some false ->
   controller.Document_Year row = Some doc_year ->
   controller.Case_ID row = Some case_id ->
   get_sess FB03 w = Some s -> link_holds E s ->
   exists tail,
     hist (controller.update_row idx row result E w).2 =
       hist w ++ Act s (SetText "RF05L-BUKRS" (controller.Company_Code row))
              :: Act s (SetText "RF05L-BELNR"
                          (str_na (Z.of_N <$> controller.Document_Number row)))
              :: tail)
  /\ (forall credit_note,
      controller.Is_Order row = Some true ->
      controller.Credit_Note row = Some credit_note ->
      controller.Document_Year row = Some doc_year ->
      controller.Case_ID row = Some case_id ->
      get_sess FB03 w = Some s -> link_holds E s ->
      exists tail,
        hist (controller.update_row idx row result E w).2 =
          hist w ++ Act s (SetText "RF05L-BUKRS" (controller.Company_Code row))
                 :: Act s (SetText "RF05L-BELNR" (str_int credit_note))
                 :: tail)
  /\ (controller.Is_Order row = Some true ->
      controller.Credit_Note row = None ->
      controller.update_row idx row result E w
        = (Ok (controller.skip_document idx result), w)
      /\ (forall j, j <> idx -> controller.skip_document idx result !! j = result !! j)
      /\ (forall r, result !! idx = Some r ->
          exists r',
            controller.skip_document idx result !! idx = Some r'
            /\ controller.Message r' =
                 Some (strip (default "" (controller.Message r) +:+ " Document skipped."))
            /\ (forall a m, controller.Message r = Some (String a m) ->
                  is_space a = false ->
                  controller.Message r' = Some (String a m +:+ " Document skipped.")))).
Proof.
  split; [|split].
  - intros Ho Hy Hc Hs Hup. unfold controller.update_row. rewrite Ho. cbn [negb].
    by eapply update_document_types_document.
  - intros credit_note Ho Hn Hy Hc Hs Hup. unfold controller.update_row.
    rewrite Ho, Hn. cbn [negb].
    by apply (update_document_types_document E w s idx row (Some credit_note)
                result doc_year case_id).
  - intros Ho Hn. unfold controller.update_row. rewrite Ho, Hn. cbn [negb].
    split; [done |]. unfold controller.skip_document, controller.loc_idx. split.
    + intros j Hj. by apply list_lookup_alter_ne.
    + intros r Hr. eexists. split; [by rewrite list_lookup_alter_eq, Hr |].
      cbn [controller.Message controller.set_Message]. split.
      * by destruct (controller.Message r).
      * intros a m -> Ha. by rewrite strip_skipped.
Qed.

Lemma annotation_row_selection_witness :
  (exists tail,
     hist (controller.update_row 0 (invoice_row None) [invoice_row None]
             (static_env plain_screen) (started FB03)).2 =
       hist (started FB03) ++ Act 0 (SetText "RF05L-BUKRS" "0010")
         :: Act 0 (SetText "RF05L-BELNR" "544411698") :: tail)
  /\ (exists tail,
        hist (controller.update_row 0
                (controller.set_Credit_Note (Some 90012345%Z)
                   (controller.set_Is_Order (Some true) order_row))
                [order_row] (static_env plain_screen) (started FB03)).2 =
          hist (started FB03) ++ Act 0 (SetText "RF05L-BUKRS" "0010")
            :: Act 0 (SetText "RF05L-BELNR" "90012345") :: tail)
  /\ controller.update_row 0 (controller.set_Is_Order (Some true) order_row)
       [controller.set_Message (Some "The credit note does not exist yet in the system.")
          order_row]
       (static_env plain_screen) (started FB03)
     = (Ok [controller.set_Message
              (Some "The credit note does not exist yet in the system. Document skipped.")
              order_row],
        started FB03).
Proof.
  destruct (annotation_row_selection (static_env plain_screen) (started FB03) 0 0
              (invoice_row None) [invoice_row None] 2024 400081469) as (H1 & _ & _).
  destruct (annotation_row_selection (static_env plain_screen) (started FB03) 0 0
              (controller.set_Credit_Note (Some 90012345%Z)
                 (controller.set_Is_Order (Some true) order_row))
              [order_row] 2024 400081469) as (_ & H2 & _).
  destruct (annotation_row_selection (static_env plain_screen) (started FB03) 0 0
              (controller.set_Is_Order (Some true) order_row)
              [controller.set_Message
                 (Some "The credit note does not exist yet in the system.") order_row]
              2024 400081469) as (_ & _ & H3).
  split; [|split].
  - apply H1; [reflexivity.. | intros h; reflexivity].
  - apply (H2 90012345%Z); [reflexivity.. | intros h; reflexivity].
  - apply H3; reflexivity.
Defined.

(** ** The closure stage: a row without a notification *)

Lemma close_rows_app fuel idx (pre post : list controller.row) result E w :
  controller.close_rows fuel idx (pre ++ post) result E w =
    match controller.close_rows fuel idx pre result E w with
    | (Ok result', w') => controller.close_rows fuel (idx + length pre) post result' E w'
    | other => other
    end.
Proof.
  revert idx result w. induction pre as [|r pre IH]; intros idx result w.
  - cbn. by rewrite Nat.add_0_r.
  - cbn [app controller.close_rows length]. unfold bind.
    destruct (controller.close_row fuel idx r result E w) as [[result1|e|] w1]; [|done..].
    rewrite IH. by replace (S idx + length pre) with (idx + S (length pre)) by lia.
Qed.

Lemma close_rows_na fuel idx (r : controller.row) post result E w :
  controller.Notification r = None ->
  controller.close_rows fuel idx (r :: post) result E w = (Raise controller.int_of_NA, w).
Proof.
  intros Hr. cbn [controller.close_rows]. unfold controller.close_row. by rewrite Hr.
Qed.

Lemma some_notification (rows : list controller.row) r n :
  In r rows -> controller.Notification r = Some n ->
  (length (filter (fun r => negb (controller.isna (controller.Notification r))) rows) =? 0)%nat
    = false.
Proof.
  intros Hin Hn. apply Nat.eqb_neq. intros Hlen.
  apply length_zero_iff_nil in Hlen.
  assert (r ∈ filter (fun r => negb (controller.isna (controller.Notification r))) rows) as H.
  { apply list_elem_of_filter. split; [by rewrite Hn | by apply list_elem_of_In]. }
  rewrite Hlen in H. by apply not_elem_of_nil in H.
Qed.

(** C10: a batch with a row that has a notification and a row [r] that has
    none.  The closure stage never returns a frame; once the rows before [r]
    are done it raises the TypeError of [int(pd.NA)], which nothing handles:
    the stage and the processing phase end with it. *)
Theorem missing_notification_aborts fuel sess E w
    (pre post : list controller.row) (r r' : controller.row) (n : N) :
  controller.Notification r = None ->
  In r' (pre ++ r :: post) -> controller.Notification r' = Some n ->
  (forall df w',
     controller.close_service_notifications fuel sess (pre ++ r :: post) E w <> (Ok df, w'))
  /\ (forall w1 result' w2,
        qm02.start sess E w = (Ok tt, w1) ->
        controller.close_rows fuel 0 pre (pre ++ r :: post) E w1 = (Ok result', w2) ->
        controller.close_service_notifications fuel sess (pre ++ r :: post) E w
          = (Raise controller.int_of_NA, w2)
        /\ forall data in_data w0 w0',
             controller.assign_credit_note_numbers fuel sess data E w0
               = (Ok in_data, w0') ->
             controller.update_accounting_documents sess in_data E w0'
               = (Ok (pre ++ r :: post), w) ->
             app.processing fuel sess data E w0 = (Raise controller.int_of_NA, w2)).
Proof.
  intros Hr Hin Hn.
  assert (forall w1,
    controller.close_rows fuel 0 (pre ++ r :: post) (pre ++ r :: post) E w1 =
      match controller.close_rows fuel 0 pre (pre ++ r :: post) E w1 with
      | (Ok result', w') => (Raise controller.int_of_NA, w')
      | other => other
      end) as Hrows.
  { intros w1. rewrite close_rows_app.
    destruct (controller.close_rows fuel 0 pre _ E w1) as [[result'|e|] w'];
      [by apply close_rows_na | done..]. }
  unfold controller.close_service_notifications.
  rewrite (some_notification _ r' n Hin Hn). split.
  - intros df w' H. apply bind_ok_inv in H as (u & w1 & _ & H).
    apply bind_ok_inv in H as (result' & w2 & H & _). rewrite Hrows in H.
    by destruct (controller.close_rows fuel 0 pre _ E w1) as [[?|?|] ?].
  - intros w1 result' w2 Hstart Hpre.
    assert ((qm02.start sess ;;
             result <- controller.close_rows fuel 0 (pre ++ r :: post) (pre ++ r :: post) ;;
             qm02.close ;; ret result) E w = (Raise controller.int_of_NA, w2)) as Hstage.
    { erewrite bind_ok by exact Hstart. apply bind_raise. by rewrite Hrows, Hpre. }
    split; [exact Hstage |]. intros data in_data w0 w0' Hassign Hupdate.
    unfold app.processing.
    erewrite bind_ok by exact Hassign. erewrite bind_ok by exact Hupdate.
    unfold controller.close_service_notifications.
    by rewrite (some_notification _ r' n Hin Hn).
Qed.

Lemma missing_notification_aborts_witness :
  controller.close_service_notifications 0 0
    [invoice_row (Some 300012345%N); invoice_row None]
    (static_env plain_screen) initial_world
  = (Raise controller.int_of_NA,
     {| hist :=
          [Connect "P01" 0; Act 0 (StartTransaction "QM02");
           Act 0 (SetText "wnd[0]/usr/ctxtRIWO00-QMNUM" "");
           Act 0 (SetText "wnd[0]/usr/ctxtRIWO00-QMNUM" "300012345");
           Act 0 (SendVKey 0); Act 0 (SelectTab "TAB_GROUP_10" 3);
           Act 0 (Press "tbar[1]/btn[20]"); Act 0 (SendVKey 0);
           Act 0 (SetText "wnd[0]/usr/ctxtRIWO00-QMNUM" "")];
        va03_sess := None; fb03_sess := None; qm02_sess := Some 0 |}).
Proof.
  eapply (missing_notification_aborts 0 0 (static_env plain_screen) initial_world
            [invoice_row (Some 300012345%N)] [] (invoice_row None)
            (invoice_row (Some 300012345%N)) 300012345 eq_refl).
  - left. reflexivity.
  - reflexivity.
  - vm_compute. reflexivity.
  - vm_compute. reflexivity.
Defined.

(** ** Recovery from a lost connection *)

(** One pass of the loop of [close_service_notifications] that meets a lost
    connection: a new session is opened, FB03 is started on it, and the
    notification is tried again with QM02 on the session it had. *)
Lemma closure_recovery_step passes fuel notif_id n_attempts E w msg w1 :
  (n_attempts <? controller.MAX_RECOVERY_ATTEMPTS)%nat = true ->
  qm02.complete_notification fuel notif_id E w
    = (Raise (SapConnectionLostError QM02 msg), w1) ->
  reachable E (hist w1) = true ->
  link_holds E (length (filter sap.is_connect (hist w1))) ->
  let s' := length (filter sap.is_connect (hist w1)) in
  exists w2,
    controller.close_attempts (S passes) fuel notif_id n_attempts E w
      = controller.close_attempts passes fuel notif_id (n_attempts + 1) E w2
    /\ hist w2 = hist w1 ++
         [Connect (system_code E) s'; Act s' (StartTransaction "FB03");
          Act s' (SetText "RF05L-BUKRS" ""); Act s' (SetText "RF05L-BELNR" "");
          Act s' (SetText "RF05L-GJAHR" "")]
    /\ get_sess FB03 w2 = Some s'
    /\ get_sess QM02 w2 = get_sess QM02 w1.
Proof.
  intros Hn Hlost Hreach Hup s'.
  cbn [controller.close_attempts]. rewrite Hn, Hlost.
  unfold controller.connect_to_sap.
  erewrite bind_ok by (unfold sap.connect; by rewrite Hreach).
  fold s'. set (w1' := record_event (Connect (system_code E) s') w1).
  unfold fb03.start, fb03._clear_search_criteria, fb03._set_company_code,
    fb03._set_document_number, fb03._set_document_year.
  erewrite bind_ok; cycle 1.
  { erewrite bind_ok by reflexivity.
    set (w1'' := set_sess FB03 (Some s') w1').
    assert (get_sess FB03 w1'' = Some s') as Hs by done.
    erewrite bind_ok by (up Hup). erewrite bind_ok by (up Hup).
    erewrite bind_ok by (up Hup). erewrite bind_ok by (up Hup).
    erewrite bind_ok by (up Hup). up Hup. }
  eexists. split; [reflexivity |]. split; [|split; [done|done]].
  cbn. by rewrite <- !app_assoc.
Qed.

(** C1, the code at a failing input.  The claim is that the closure stage, on
    a lost connection, opens a new session and starts the driver it was
    running, QM02, again before it retries the record.  Here session 0 is
    lost while notification 300012345 is being opened: three sessions are
    opened in turn and FB03 is started on each of them, QM02 keeps session 0,
    every retry fails and the run is aborted. *)
Theorem closure_recovery_restarts_fb03 :
  controller.close_service_notifications 5 0 [invoice_row (Some 300012345%N)]
    (session0_breaks plain_screen) initial_world
  = (Raise (RuntimeError
       "Attempts to handle the qm02.SapConnectionLostError exception failed!"),
     {| hist :=
          [Connect "P01" 0; Act 0 (StartTransaction "QM02");
           Act 0 (SetText "wnd[0]/usr/ctxtRIWO00-QMNUM" "");
           Act 0 (SetText "wnd[0]/usr/ctxtRIWO00-QMNUM" "300012345");
           Act 0 (SendVKey 0);
           Connect "P01" 1; Act 1 (StartTransaction "FB03");
           Act 1 (SetText "RF05L-BUKRS" ""); Act 1 (SetText "RF05L-BELNR" "");
           Act 1 (SetText "RF05L-GJAHR" "");
           Connect "P01" 2; Act 2 (StartTransaction "FB03");
           Act 2 (SetText "RF05L-BUKRS" ""); Act 2 (SetText "RF05L-BELNR" "");
           Act 2 (SetText "RF05L-GJAHR" "");
           Connect "P01" 3; Act 3 (StartTransaction "FB03");
           Act 3 (SetText "RF05L-BUKRS" ""); Act 3 (SetText "RF05L-BELNR" "");
           Act 3 (SetText "RF05L-GJAHR" "")];
        va03_sess := None; fb03_sess := Some 3; qm02_sess := Some 0 |}).
Proof. vm_compute. reflexivity. Qed.

(** The same for [update_accounting_documents], where the driver that is
    started again is the one that was running: when the retry ends in a
    business failure, the loop is left with [n_attempts = 1] and the run is
    aborted. *)
Lemma failure_after_recovery_aborts E w idx (row : controller.row) doc_num result
    doc_year case_id msg0 w1 w2 e msg w3 :
  controller.Document_Year row = Some doc_year ->
  controller.Case_ID row = Some case_id ->
  fb03.append_case_id doc_num doc_year (controller.Company_Code row) case_id E w
    = (Raise (SapConnectionLostError FB03 msg0), w1) ->
  (sess <- controller.connect_to_sap (system_code E) ;; fb03.start sess) E w1 = (Ok tt, w2) ->
  fb03.append_case_id doc_num doc_year (controller.Company_Code row) case_id E w2
    = (Raise e, w3) ->
  e = CaseIdContainedWarning msg \/ e = DocumentProcessingError FB03 msg ->
  controller.update_document idx row doc_num result E w
    = (Raise (controller.recovery_failed "fb03"), w3).
Proof.
  intros Hy Hc Hlost Hrec Hfail He. unfold controller.update_document. rewrite Hy, Hc.
  assert (controller.update_attempts controller.MAX_RECOVERY_ATTEMPTS idx doc_num doc_year
            (controller.Company_Code row) case_id 0 result E w
          = (Ok (1, controller.loc_idx idx (controller.set_Message (Some msg)) result), w3))
    as Hloop.
  { cbn [controller.update_attempts controller.MAX_RECOVERY_ATTEMPTS Nat.ltb Nat.leb].
    rewrite Hlost. rewrite <- bind_assoc. erewrite bind_ok by exact Hrec.
    cbn [controller.update_attempts controller.MAX_RECOVERY_ATTEMPTS Nat.ltb Nat.leb Nat.add].
    rewrite Hfail. by destruct He as [-> | ->]. }
  by erewrite bind_ok by exact Hloop.
Qed.

(** C2, the code at a failing input.  The claim is that the retry counter is
    reset by a business warning or error, whose text is recorded before the
    next record is taken, also after a recovered connection.  Here session 0
    is lost while the first of two documents is being opened; on the new
    session the document is found to hold the case id already.  The warning
    leaves the loop with [n_attempts = 1] and the run is aborted, the second
    record is never reached.  Without the lost connection the same batch is
    processed to the end, with the warning recorded for both records. *)
Theorem warning_after_recovery_aborts :
  controller.update_accounting_documents 0
    [invoice_row None; invoice_row None]
    (session0_breaks (with_sgtxt "RET711884319 D 400081469" plain_screen)) initial_world
  = (Raise (RuntimeError
       "Attempts to handle the fb03.SapConnectionLostError exception failed!"),
     {| hist :=
          [Connect "P01" 0; Act 0 (StartTransaction "FB03");
           Act 0 (SetText "RF05L-BUKRS" ""); Act 0 (SetText "RF05L-BELNR" "");
           Act 0 (SetText "RF05L-GJAHR" "");
           Act 0 (SetText "RF05L-BUKRS" "0010");
           Act 0 (SetText "RF05L-BELNR" "544411698");
           Act 0 (SetText "RF05L-GJAHR" "2024"); Act 0 (SendVKey 0);
           Connect "P01" 1; Act 1 (StartTransaction "FB03");
           Act 1 (SetText "RF05L-BUKRS" ""); Act 1 (SetText "RF05L-BELNR" "");
           Act 1 (SetText "RF05L-GJAHR" "");
           Act 1 (SetText "RF05L-BUKRS" "0010");
           Act 1 (SetText "RF05L-BELNR" "544411698");
           Act 1 (SetText "RF05L-GJAHR" "2024"); Act 1 (SendVKey 0);
           Act 1 (SetFocus "RF05L-ANZDT"); Act 1 (SendVKey 2);
           Act 1 (SendVKey 12); Act 1 (SendVKey 12)];
        va03_sess := None; fb03_sess := Some 1; qm02_sess := None |})
  /\ controller.update_accounting_documents 0
       [invoice_row None; invoice_row None]
       (static_env (with_sgtxt "RET711884319 D 400081469" plain_screen)) initial_world
     = (Ok [controller.set_Message (Some "Document text already contains the case ID!")
              (invoice_row None);
            controller.set_Message (Some "Document text already contains the case ID!")
              (invoice_row None)],
        {| hist :=
             [Connect "P01" 0; Act 0 (StartTransaction "FB03");
              Act 0 (SetText "RF05L-BUKRS" ""); Act 0 (SetText "RF05L-BELNR" "");
              Act 0 (SetText "RF05L-GJAHR" "");
              Act 0 (SetText "RF05L-BUKRS" "0010");
              Act 0 (SetText "RF05L-BELNR" "544411698");
              Act 0 (SetText "RF05L-GJAHR" "2024"); Act 0 (SendVKey 0);
              Act 0 (SetFocus "RF05L-ANZDT"); Act 0 (SendVKey 2);
              Act 0 (SendVKey 12); Act 0 (SendVKey 12);
              Act 0 (SetText "RF05L-BUKRS" "0010");
              Act 0 (SetText "RF05L-BELNR" "544411698");
              Act 0 (SetText "RF05L-GJAHR" "2024"); Act 0 (SendVKey 0);
              Act 0 (SetFocus "RF05L-ANZDT"); Act 0 (SendVKey 2);
              Act 0 (SendVKey 12); Act 0 (SendVKey 12);
              Act 0 EndTransaction];
           va03_sess := None; fb03_sess := None; qm02_sess := None |}).
Proof. split; vm_compute; reflexivity. Qed.

(** ** The lookup stage: no accounting document *)

(** The lookup of an order whose document flow has no accounting document
    raises the warning, after going back to the initial screen. *)
Lemma lookup_not_found E w s (order : string) :
  get_sess VA03 w = Some s -> no_accounting_document E s ->
  exists w',
    va03.get_creditnote_number order E w = (Raise not_found, w')
    /\ get_sess VA03 w' = Some s
    /\ hist w' = hist w ++
         [Act s (SetText "VBAK-VBELN" order); Act s (SendVKey 0);
          Act s (SetFocus "KUWEV-KUNNR"); Act s (SendVKey 2); Act s (SendVKey 5);
          Act s (SendVKey 15); Act s (SendVKey 12)].
Proof.
  intros Hs Hno.
  assert (link_holds E s) as Hup by (intros h; apply Hno).
  assert (forall h, (window_type (gui E h s) =? "GuiModalWindow") = false) as Hwin
    by (intros h; apply Hno).
  unfold va03.get_creditnote_number.
  erewrite bind_ok by (unfold va03._check_prerequisities, check_prerequisities; by rewrite Hs).
  unfold except_com_error, try_except.
  unfold va03._set_order_number, va03._press_key, press_key, va03._is_popup_dialog,
    is_popup_dialog, va03._open_document_parameters, va03._is_error_message,
    is_error_message, va03._to_initial_screen.
  cbn [assoc va03._virtual_keys String.eqb Ascii.eqb Bool.eqb].
  erewrite bind_ok by (up Hup). erewrite bind_ok by (up Hup).
  erewrite bind_ok by (up Hup). rewrite Hwin. cbn [when]. erewrite bind_ok by done.
  erewrite bind_ok by (up Hup).
  match goal with |- context [contains _ (stat_text (gui E ?h s))] =>
    destruct (Hno h) as (_ & _ & -> & _) end.
  cbn [when]. erewrite bind_ok by done.
  erewrite bind_ok; cycle 1.
  { erewrite bind_ok by (up Hup). erewrite bind_ok by (up Hup). up Hup. }
  erewrite bind_ok by (up Hup). rewrite Hwin. cbn [when]. erewrite bind_ok by done.
  erewrite bind_ok by (up Hup).
  match goal with |- context [stat_type (gui E ?h s) =? "E"] =>
    destruct (Hno h) as (_ & _ & _ & -> & _) end.
  cbn [when]. erewrite bind_ok by done.
  erewrite bind_ok; cycle 1.
  { unfold va03._get_node_value. erewrite bind_ok by (up Hup).
    match goal with |- context [tree (gui E ?h s)] =>
      destruct (Hno h) as (_ & _ & _ & _ & Htree & Hnone);
      destruct (tree (gui E h s)) as [|key text children sibling] eqn:Ht; [done |]
    end.
    erewrite get_node_value_preorder;
      [|by rewrite ?get_sess_record_event|apply Hup]. by rewrite Hnone. }
  erewrite bind_ok; cycle 1.
  { erewrite bind_ok by (up Hup). up Hup. }
  eexists. split; [reflexivity |]. split; [done |]. cbn. by rewrite <- !app_assoc.
Qed.

(** The handler of the warning records its text for the rows of the order
    and clears their credit note. *)
Lemma not_found_recorded fuel (order : N) n_attempts result E w msg w' :
  (n_attempts <? controller.MAX_RECOVERY_ATTEMPTS)%nat = true ->
  va03.get_creditnote_number (str order) E w = (Raise (CreditNoteNotFoundWarning msg), w') ->
  controller.lookup_attempts (S fuel) order n_attempts result E w =
    controller.lookup_attempts fuel order n_attempts
      (controller.loc_mask order (controller.set_Credit_Note None)
         (controller.loc_mask order (controller.set_Message (Some msg)) result)) E w'.
Proof. intros Hn Hw. cbn [controller.lookup_attempts]. by rewrite Hn, Hw. Qed.

(** As long as the order shows no accounting document the loop does not
    leave it: whatever the fuel, it is used up on this one order. *)
Lemma lookup_repeats_on_not_found fuel E s (order : N) :
  no_accounting_document E s ->
  forall w result, get_sess VA03 w = Some s ->
    (controller.lookup_attempts fuel order 0 result E w).1 = OutOfFuel.
Proof.
  intros Hno. induction fuel as [|fuel IH]; intros w result Hs; [done |].
  destruct (lookup_not_found E w s (str order) Hs Hno) as (w' & Hw & Hs' & _).
  rewrite (not_found_recorded fuel order 0 result E w _ w' eq_refl Hw).
  by apply IH.
Qed.

Lemma loc_mask_lookup order f (result : list controller.row) i r :
  result !! i = Some r ->
  controller.loc_mask order f result !! i =
    Some (if bool_decide (controller.Document_Number r = Some order) then f r else r).
Proof.
  intros Hr. unfold controller.loc_mask. rewrite list_lookup_fmap, Hr. cbn.
  destruct (controller.Document_Number r) as [d|]; [|by rewrite bool_decide_eq_false_2].
  destruct (d =? order)%N eqn:Hd.
  - apply N.eqb_eq in Hd as ->. by rewrite bool_decide_eq_true_2.
  - apply N.eqb_neq in Hd. rewrite bool_decide_eq_false_2; [done | congruence].
Qed.

(** A batch in which some row is an order. *)
Lemma has_order (in_data : list controller.row) r d :
  In r in_data -> controller.Document_Number r = Some d ->
  startswith controller.ORDER_NUMBERING_PREFIX (str d) = true ->
  forallb (fun r => controller.isna (controller.Document_Number r)) in_data = false
  /\ (controller.count_orders (controller.flag_orders in_data) =? 0)%nat = false.
Proof.
  intros Hin Hd Hp. split.
  - destruct (forallb _ in_data) eqn:Hall; [|done].
    rewrite forallb_forall in Hall. specialize (Hall r Hin). by rewrite Hd in Hall.
  - apply Nat.eqb_neq. intros Hlen. apply length_zero_iff_nil in Hlen.
    assert (controller.set_Is_Order (Some true) r
              ∈ filter (fun r => bool_decide (controller.Is_Order r = Some true))
                  (controller.flag_orders in_data)) as H.
    { apply list_elem_of_filter. split; [by rewrite bool_decide_eq_true_2 |].
      unfold controller.flag_orders. apply list_elem_of_fmap.
      exists r. split; [|by apply list_elem_of_In]. rewrite Hd.
      change (startswith controller.ORDER_NUMBERING_PREFIX <$> (str <$> Some d))
        with (Some (startswith controller.ORDER_NUMBERING_PREFIX (str d))).
      by rewrite Hp. }
    unfold controller.count_orders in Hlen. rewrite Hlen in H.
    by apply not_elem_of_nil in H.
Qed.

(** C3 (as amended): a lookup that finds no node for an accounting document
    raises the warning [CreditNoteNotFoundWarning]; the controller's handler
    records the text of the warning for the rows of the order and clears
    their credit note; and when the lookup loop has ended and no row holds a
    credit note, the stage raises [RuntimeError], with which the processing
    phase ends before the annotation stage. *)
Theorem not_found_warns_and_none_found_aborts fuel sess E w s (order : N)
    (in_data : list controller.row) :
  (get_sess VA03 w = Some s -> no_accounting_document E s ->
   exists w', va03.get_creditnote_number (str order) E w = (Raise not_found, w'))
  /\ (forall n_attempts (result : list controller.row) msg w' i r,
        (n_attempts <? controller.MAX_RECOVERY_ATTEMPTS)%nat = true ->
        va03.get_creditnote_number (str order) E w
          = (Raise (CreditNoteNotFoundWarning msg), w') ->
        result !! i = Some r -> controller.Document_Number r = Some order ->
        exists result' r',
          controller.lookup_attempts (S fuel) order n_attempts result E w
            = controller.lookup_attempts fuel order n_attempts result' E w'
          /\ result' !! i = Some r'
          /\ controller.Message r' = Some msg
          /\ controller.Credit_Note r' = None)
  /\ (forall r d w1 result w2 w3,
        In r in_data -> controller.Document_Number r = Some d ->
        startswith controller.ORDER_NUMBERING_PREFIX (str d) = true ->
        va03.start sess E w = (Ok tt, w1) ->
        controller.lookup_orders fuel
          (controller.order_numbers (controller.flag_orders in_data))
          (controller.flag_orders in_data) E w1 = (Ok result, w2) ->
        va03.close E w2 = (Ok tt, w3) ->
        forallb (fun r => controller.isna (controller.Credit_Note r)) result = true ->
        controller.assign_credit_note_numbers fuel sess in_data E w
          = (Raise controller.none_found, w3)
        /\ app.processing fuel sess in_data E w = (Raise controller.none_found, w3)).
Proof.
  split; [|split].
  - intros Hs Hno. destruct (lookup_not_found E w s (str order) Hs Hno) as (w' & H & _).
    by exists w'.
  - intros n_attempts result msg w' i r Hn Hw Hr Hd.
    eexists _, _. split; [by apply not_found_recorded |].
    split; [|split].
    + erewrite loc_mask_lookup; [|by apply loc_mask_lookup].
      rewrite (bool_decide_eq_true_2 (controller.Document_Number r = Some order)) by done.
      by rewrite bool_decide_eq_true_2.
    + done.
    + done.
  - intros r d w1 result w2 w3 Hin Hd Hp Hstart Hloop Hclose Hna.
    destruct (has_order in_data r d Hin Hd Hp) as [Hall Hcount].
    assert (controller.assign_credit_note_numbers fuel sess in_data E w
            = (Raise controller.none_found, w3)) as Hstage.
    { unfold controller.assign_credit_note_numbers. rewrite Hall, Hcount.
      erewrite bind_ok by exact Hstart. erewrite bind_ok by exact Hloop.
      erewrite bind_ok by exact Hclose. by rewrite Hna. }
    split; [done |]. unfold app.processing. by erewrite bind_raise.
Qed.

(** C3, a run in which no order resolves to a credit note: the lookup of the
    only order raises the warning, and the run is aborted at the end of the
    lookup stage; FB03 is never started. *)
Lemma none_found_run_aborts :
  va03.get_creditnote_number "5012233445" archived_on_retry (started VA03)
    = (Raise not_found,
       {| hist :=
            [Connect "P01" 0; Act 0 (SetText "VBAK-VBELN" "5012233445");
             Act 0 (SendVKey 0); Act 0 (SetFocus "KUWEV-KUNNR");
             Act 0 (SendVKey 2); Act 0 (SendVKey 5);
             Act 0 (SendVKey 15); Act 0 (SendVKey 12)];
          va03_sess := Some 0; fb03_sess := None; qm02_sess := None |})
  /\ app.processing 2 0 [order_row] archived_on_retry initial_world
     = (Raise (RuntimeError "None of the processed orders was found in VA03!"),
        {| hist :=
             [Connect "P01" 0; Act 0 (StartTransaction "VA03");
              Act 0 (SetText "VBAK-VBELN" ""); Act 0 (SetText "RV45S-BSTNK" "");
              Act 0 (SetText "RV45S-KUNNR" ""); Act 0 (SetText "RV45Z-LFNKD" "");
              Act 0 (SetText "RV45S-FAKKD" ""); Act 0 (SetText "RV45S-PSPID" "");
              Act 0 (SetText "VBAK-VBELN" "5012233445"); Act 0 (SendVKey 0);
              Act 0 (SetFocus "KUWEV-KUNNR"); Act 0 (SendVKey 2); Act 0 (SendVKey 5);
              Act 0 (SendVKey 15); Act 0 (SendVKey 12);
              Act 0 (SetText "VBAK-VBELN" "5012233445"); Act 0 (SendVKey 0);
              Act 0 EndTransaction];
           va03_sess := None; fb03_sess := None; qm02_sess := None |}).
Proof. split; vm_compute; reflexivity. Qed.

Lemma not_found_warns_and_none_found_aborts_witness :
  (exists w',
     va03.get_creditnote_number (str 5012233445) 
       (static_env (with_tree flow_without_accounting "" plain_screen)) (started VA03)
     = (Raise not_found, w'))
  /\ (exists result' r',
        controller.lookup_attempts 2 5012233445 0 (controller.flag_orders [order_row])
          archived_on_retry (started VA03)
        = controller.lookup_attempts 1 5012233445 0 result' archived_on_retry
            (record_event (Act 0 (SendVKey 12)) (record_event (Act 0 (SendVKey 15))
             (record_event (Act 0 (SendVKey 5)) (record_event (Act 0 (SendVKey 2))
              (record_event (Act 0 (SetFocus "KUWEV-KUNNR")) (record_event (Act 0 (SendVKey 0))
               (record_event (Act 0 (SetText "VBAK-VBELN" "5012233445")) (started VA03))))))))
        /\ result' !! 0 = Some r'
        /\ controller.Message r'
           = Some "The credit note does not exist yet in the system."
        /\ controller.Credit_Note r' = None)
  /\ app.processing 2 0 [order_row] archived_on_retry initial_world
     = (Raise controller.none_found,
        {| hist :=
             [Connect "P01" 0; Act 0 (StartTransaction "VA03");
              Act 0 (SetText "VBAK-VBELN" ""); Act 0 (SetText "RV45S-BSTNK" "");
              Act 0 (SetText "RV45S-KUNNR" ""); Act 0 (SetText "RV45Z-LFNKD" "");
              Act 0 (SetText "RV45S-FAKKD" ""); Act 0 (SetText "RV45S-PSPID" "");
              Act 0 (SetText "VBAK-VBELN" "5012233445"); Act 0 (SendVKey 0);
              Act 0 (SetFocus "KUWEV-KUNNR"); Act 0 (SendVKey 2); Act 0 (SendVKey 5);
              Act 0 (SendVKey 15); Act 0 (SendVKey 12);
              Act 0 (SetText "VBAK-VBELN" "5012233445"); Act 0 (SendVKey 0);
              Act 0 EndTransaction];
           va03_sess := None; fb03_sess := None; qm02_sess := None |}).
Proof.
  split; [|split].
  - apply (not_found_warns_and_none_found_aborts 0 0
             (static_env (with_tree flow_without_accounting "" plain_screen))
             (started VA03) 0 5012233445 []); [reflexivity |].
    intros h. repeat split; done.
  - eapply (not_found_warns_and_none_found_aborts 1 0 archived_on_retry
              (started VA03) 0 5012233445 []); [reflexivity | | reflexivity..].
    vm_compute. reflexivity.
  - eapply (not_found_warns_and_none_found_aborts 2 0 archived_on_retry
              initial_world 0 5012233445 [order_row]).
    + left. reflexivity.
    + reflexivity.
    + reflexivity.
    + vm_compute. reflexivity.
    + vm_compute. reflexivity.
    + vm_compute. reflexivity.
    + reflexivity.
Defined.

(** * More of the drivers and of the controller *)

(** ** The life cycle of a driver *)


























(** ** Lost connections and faults *)






(** ** Starting and closing a transaction *)





Lemma hist_set_sess m o w : hist (set_sess m o w) = hist w.
Proof. by destruct m. Qed.

Lemma get_sess_set_sess m o w : get_sess m (set_sess m o w) = o.
Proof. by destruct m. Qed.

Lemma get_sess_set_sess_ne m m' o w : m <> m' -> get_sess m' (set_sess m o w) = get_sess m' w.
Proof. by destruct m, m'. Qed.

Lemma start_on_broken_link sess E w :
  link (gui E (hist w) sess) <> LinkUp ->
  fb03.start sess E w = (Raise com_error, set_sess FB03 (Some sess) w)
  /\ va03.start sess E w = (Raise com_error, set_sess VA03 (Some sess) w)
  /\ qm02.start sess E w = (Raise com_error, set_sess QM02 (Some sess) w).
Proof.
  intros Hup.
  assert (forall m, com m (fun _ => tt) E (set_sess m (Some sess) w)
                    = (Raise com_error, set_sess m (Some sess) w)) as Hcom.
  { intros m. unfold com. rewrite get_sess_set_sess, hist_set_sess.
    by destruct (link (gui E (hist w) sess)). }
  split; [|split].
  - unfold fb03.start. erewrite bind_ok by reflexivity. by erewrite bind_raise.
  - unfold va03.start. erewrite bind_ok by reflexivity. by erewrite bind_raise.
  - unfold qm02.start. erewrite bind_ok by reflexivity. by erewrite bind_raise.
Qed.

(** X3: [start] of each driver stores the session in the module before it
    talks to it.  On a session whose link holds the transaction is started
    and its search fields are blanked, whatever session the module held
    before, and the other modules are not touched.  On a link that is not up
    the [com_error] comes out as it is, and the module is left holding the
    new session. *)
Theorem start_binds_the_session sess E w :
  (link_holds E sess ->
   (exists w',
      fb03.start sess E w = (Ok tt, w')
      /\ get_sess FB03 w' = Some sess
      /\ get_sess VA03 w' = get_sess VA03 w /\ get_sess QM02 w' = get_sess QM02 w
      /\ hist w' = hist w ++
           [Act sess (StartTransaction "FB03"); Act sess (SetText "RF05L-BUKRS" "");
            Act sess (SetText "RF05L-BELNR" ""); Act sess (SetText "RF05L-GJAHR" "")])
   /\ (exists w',
         va03.start sess E w = (Ok tt, w')
         /\ get_sess VA03 w' = Some sess
         /\ get_sess FB03 w' = get_sess FB03 w /\ get_sess QM02 w' = get_sess QM02 w
         /\ hist w' = hist w ++
              [Act sess (StartTransaction "VA03"); Act sess (SetText "VBAK-VBELN" "");
               Act sess (SetText "RV45S-BSTNK" ""); Act sess (SetText "RV45S-KUNNR" "");
               Act sess (SetText "RV45Z-LFNKD" ""); Act sess (SetText "RV45S-FAKKD" "");
               Act sess (SetText "RV45S-PSPID" "")])
   /\ (exists w',
         qm02.start sess E w = (Ok tt, w')
         /\ get_sess QM02 w' = Some sess
         /\ get_sess FB03 w' = get_sess FB03 w /\ get_sess VA03 w' = get_sess VA03 w
         /\ hist w' = hist w ++
              [Act sess (StartTransaction "QM02");
               Act sess (SetText "wnd[0]/usr/ctxtRIWO00-QMNUM" "")]))
  /\ (link (gui E (hist w) sess) <> LinkUp ->
      fb03.start sess E w = (Raise com_error, set_sess FB03 (Some sess) w)
      /\ va03.start sess E w = (Raise com_error, set_sess VA03 (Some sess) w)
      /\ qm02.start sess E w = (Raise com_error, set_sess QM02 (Some sess) w)).
Proof.
  split.
  - intros Hup. split; [|split].
    + unfold fb03.start, fb03._clear_search_criteria, fb03._set_company_code,
        fb03._set_document_number, fb03._set_document_year.
      erewrite bind_ok by reflexivity.
      assert (get_sess FB03 (set_sess FB03 (Some sess) w) = Some sess) as Hs by done.
      erewrite bind_ok by (up Hup). erewrite bind_ok by (up Hup).
      erewrite bind_ok by (up Hup). erewrite bind_ok by (up Hup).
      erewrite bind_ok by (up Hup). eexists. split; [up Hup |].
      repeat split; [done.. |]. cbn. by rewrite <- !app_assoc.
    + unfold va03.start, va03._clear_search_criteria, va03._set_order_number,
        va03._set_purchase_order_number, va03._set_sold_to_number,
        va03._set_delivery_number, va03._set_billing_document_number, va03._set_wbs_element.
      erewrite bind_ok by reflexivity.
      assert (get_sess VA03 (set_sess VA03 (Some sess) w) = Some sess) as Hs by done.
      do 8 (erewrite bind_ok by (up Hup)). eexists. split; [up Hup |].
      repeat split; [done.. |]. cbn. by rewrite <- !app_assoc.
    + unfold qm02.start, qm02._clear_notification_search_field, qm02._set_notification_id.
      erewrite bind_ok by reflexivity.
      assert (get_sess QM02 (set_sess QM02 (Some sess) w) = Some sess) as Hs by done.
      do 3 (erewrite bind_ok by (up Hup)). eexists. split; [up Hup |].
      repeat split; [done.. |]. cbn. by rewrite <- !app_assoc.
  - apply start_on_broken_link.
Qed.

Lemma start_binds_the_session_witness :
  (exists w',
     fb03.start 1 (static_env plain_screen) (started FB03) = (Ok tt, w')
     /\ get_sess FB03 w' = Some 1
     /\ get_sess VA03 w' = None /\ get_sess QM02 w' = None
     /\ hist w' =
          [Connect "P01" 0; Act 1 (StartTransaction "FB03"); Act 1 (SetText "RF05L-BUKRS" "");
           Act 1 (SetText "RF05L-BELNR" ""); Act 1 (SetText "RF05L-GJAHR" "")])
  /\ qm02.start 1 (static_env (with_link LinkFault plain_screen)) (started QM02)
     = (Raise com_error, set_sess QM02 (Some 1) (started QM02)).
Proof.
  split.
  - apply (start_binds_the_session 1 (static_env plain_screen) (started FB03)).
    by intros h.
  - apply (start_binds_the_session 1 (static_env (with_link LinkFault plain_screen))
             (started QM02)).
    by cbn.
Defined.

(** ** The controller's retry loops *)

(** X4: the recovery in the retry loop of [update_accounting_documents] is
    itself not guarded.  After a lost connection, an exception of
    [connect_to_sap] leaves the loop and the stage as it is; and when the new
    session's link is not up, the [com_error] of [fb03.start] does, with the
    module left on the new session.  No further attempt is made, and the row
    gets no message. *)
Theorem failed_recovery_is_not_retried fuel idx doc_num doc_year cocd case_id n_attempts
    (result : controller.DataFrame) E w msg w1 :
  (n_attempts <? controller.MAX_RECOVERY_ATTEMPTS)%nat = true ->
  fb03.append_case_id doc_num doc_year cocd case_id E w
    = (Raise (SapConnectionLostError FB03 msg), w1) ->
  (forall e w2,
     controller.connect_to_sap (system_code E) E w1 = (Raise e, w2) ->
     controller.update_attempts (S fuel) idx doc_num doc_year cocd case_id n_attempts result
       E w = (Raise e, w2))
  /\ (forall sess w2,
        controller.connect_to_sap (system_code E) E w1 = (Ok sess, w2) ->
        link (gui E (hist w2) sess) <> LinkUp ->
        controller.update_attempts (S fuel) idx doc_num doc_year cocd case_id n_attempts result
          E w = (Raise com_error, set_sess FB03 (Some sess) w2)).
Proof.
  intros Hn Hlost. split.
  - intros e w2 Hconn. cbn [controller.update_attempts]. rewrite Hn, Hlost.
    by erewrite bind_raise.
  - intros sess w2 Hconn Hup. cbn [controller.update_attempts]. rewrite Hn, Hlost.
    erewrite bind_ok by exact Hconn.
    erewrite bind_raise; [done |].
    by apply (start_on_broken_link sess E w2).
Qed.

Lemma failed_recovery_is_not_retried_witness :
  controller.update_attempts 3 0 (Some 544411698%Z) 2024 "0010" 400081469 0
    [invoice_row None] (second_session_faulty plain_screen) (started FB03)
  = (Raise com_error,
     {| hist :=
          [Connect "P01" 0; Act 0 (SetText "RF05L-BUKRS" "0010");
           Act 0 (SetText "RF05L-BELNR" "544411698");
           Act 0 (SetText "RF05L-GJAHR" "2024"); Act 0 (SendVKey 0); Connect "P01" 1];
        va03_sess := None; fb03_sess := Some 1; qm02_sess := None |}).
Proof.
  destruct (failed_recovery_is_not_retried 2 0 (Some 544411698%Z) 2024 "0010" 400081469 0
           [invoice_row None] (second_session_faulty plain_screen) (started FB03)
           "Connection to SAP lost!"
           {| hist :=
                [Connect "P01" 0; Act 0 (SetText "RF05L-BUKRS" "0010");
                 Act 0 (SetText "RF05L-BELNR" "544411698");
                 Act 0 (SetText "RF05L-GJAHR" "2024"); Act 0 (SendVKey 0)];
              va03_sess := None; fb03_sess := Some 0; qm02_sess := None |}
           eq_refl) as [_ H]; [vm_compute; reflexivity |].
  apply (H 1 {| hist :=
                  [Connect "P01" 0; Act 0 (SetText "RF05L-BUKRS" "0010");
                   Act 0 (SetText "RF05L-BELNR" "544411698");
                   Act 0 (SetText "RF05L-GJAHR" "2024"); Act 0 (SendVKey 0);
                   Connect "P01" 1];
                va03_sess := None; fb03_sess := Some 0; qm02_sess := None |});
    [vm_compute; reflexivity | by cbn].
Defined.

(** ** Popups *)

Lemma keys_of_confirm m (confirm : bool) :
  assoc (if confirm then "Enter" else "F12") (keys_of m)
    = Some (if confirm then 0 else 12)%Z.
Proof. by destruct m, confirm. Qed.

Lemma close_popup_presses_bounded m confirm remaining E w s :
  get_sess m w = Some s ->
  exists k (r : result unit) w',
    close_popup_presses m (keys_of m) confirm remaining E w = (r, w')
    /\ k <= remaining
    /\ hist w' = hist w ++ repeat (Act s (SendVKey (if confirm then 0 else 12))) k
    /\ get_sess m w' = Some s
    /\ (r = Ok tt \/ r = Raise com_error).
Proof.
  revert w. induction remaining as [|r IH]; intros w Hs;
    rewrite close_popup_presses_eq;
    (destruct (link (gui E (hist w) s)) eqn:Hl;
     [erewrite bind_ok by (by apply com_up)
     |erewrite bind_raise by (unfold com; by rewrite Hs, Hl);
      exists 0; do 2 eexists; split; [reflexivity |]; rewrite app_nil_r;
      split; [lia | by eauto]..]).
  - exists 0, (Ok tt), w. rewrite app_nil_r.
    split; [by destruct (in_list _ _) | by eauto].
  - destruct (in_list _ _);
      [|exists 0, (Ok tt), w; rewrite app_nil_r; split; [done |]; split; [lia | by eauto]].
    assert ((if confirm then press_key m (keys_of m) "Enter"
             else press_key m (keys_of m) "F12") E w
            = (Ok tt, record_event (Act s (SendVKey (if confirm then 0 else 12))) w)) as Hkey.
    { pose proof (keys_of_confirm m confirm) as Hk. unfold press_key.
      destruct confirm; rewrite Hk; by apply act_up. }
    erewrite bind_ok by exact Hkey.
    destruct (IH (record_event (Act s (SendVKey (if confirm then 0 else 12))) w))
      as (k & r' & w' & Hc & Hk & Hh & Hs' & Hr); [by rewrite get_sess_record_event |].
    exists (S k), r', w'. split; [done |]. split; [lia |]. split; [|done].
    rewrite Hh. cbn. by rewrite <- app_assoc.
Qed.

(** X5: [_close_popup_dialog] of each driver presses its key, Enter to
    confirm and F12 to decline, at most [max_attempts] times, and after that
    at most the one button, "Yes" or "No".  It returns, or it ends in the
    [com_error] of a broken link, or, when the window is still a dialog after
    the key presses, in a RuntimeError that names the title; in both cases no
    button is pressed. *)
Theorem close_popup_dialog_bounded m (confirm : bool) (max_attempts : nat) E w s :
  get_sess m w = Some s ->
  let key := Act s (SendVKey (if confirm then 0 else 12)) in
  let button := Act s (PressButton (if confirm then "Yes" else "No")) in
  exists k tail (r : result unit) w',
    close_popup_dialog m (keys_of m) confirm max_attempts E w = (r, w')
    /\ k <= max_attempts
    /\ hist w' = hist w ++ repeat key k ++ tail
    /\ (r = Ok tt /\ (tail = [] \/ tail = [button])
        \/ r = Raise com_error /\ tail = []
        \/ (exists title,
              r = Raise (RuntimeError
                           ("Could not close the dialog window: '" +:+ title +:+ "'!")))
           /\ tail = []).
Proof.
  intros Hs key button. unfold close_popup_dialog.
  destruct (close_popup_presses_bounded m confirm max_attempts E w s Hs)
    as (k & r & w1 & Hc & Hk & Hh & Hs' & Hr).
  exists k.
  destruct Hr as [-> | ->];
    [erewrite bind_ok by exact Hc
    |erewrite bind_raise by exact Hc; exists []; do 2 eexists;
     split; [reflexivity |]; rewrite app_nil_r; by eauto 10].
  destruct (link (gui E (hist w1) s)) eqn:Hl;
    [erewrite bind_ok by (by apply com_up)
    |erewrite bind_raise by (unfold com; by rewrite Hs', Hl); exists []; do 2 eexists;
     split; [reflexivity |]; rewrite app_nil_r; by eauto 10..].
  destruct (window_type _ =? "GuiModalWindow").
  - erewrite bind_ok by (by apply com_up). exists []. do 2 eexists.
    split; [reflexivity |]. rewrite app_nil_r. by eauto 10.
  - erewrite bind_ok by (by apply com_up).
    destruct (has_button _ _); cbn [when].
    + exists [button]. do 2 eexists. split; [by apply act_up |].
      split; [done |]. split; [|by eauto]. cbn. by rewrite Hh, <- app_assoc.
    + exists [], (Ok tt), w1. rewrite app_nil_r. by eauto 10.
Qed.

Lemma close_popup_dialog_bounded_witness :
  exists k tail (r : result unit) w',
    fb03._close_popup_dialog false 3
      (static_env (with_window "GuiModalWindow" "Information" plain_screen)) (started FB03)
      = (r, w')
    /\ k <= 3
    /\ hist w' = hist (started FB03) ++ repeat (Act 0 (SendVKey 12)) k ++ tail
    /\ (r = Ok tt /\ (tail = [] \/ tail = [Act 0 (PressButton "No")])
        \/ r = Raise com_error /\ tail = []
        \/ (exists title,
              r = Raise (RuntimeError
                           ("Could not close the dialog window: '" +:+ title +:+ "'!")))
           /\ tail = []).
Proof.
  apply (close_popup_dialog_bounded FB03 false 3
           (static_env (with_window "GuiModalWindow" "Information" plain_screen))
           (started FB03) 0).
  reflexivity.
Defined.

(** ** What a computation adds to the history, fuel or no fuel *)

Lemma emits_adds {A} P (c : M A) : emits P c -> adds P c.
Proof. intros Hc E w. apply Hc. Qed.

Lemma adds_ret {A} P (a : A) : adds P (ret a).
Proof. intros E w. apply extends_refl. Qed.

Lemma adds_raise {A} P e : adds P (@raise A e).
Proof. intros E w. apply extends_refl. Qed.

Lemma adds_out_of_fuel {A} P : adds P (@out_of_fuel A).
Proof. intros E w. apply extends_refl. Qed.

(** What follows [c] need only be looked at for the values [c] returns. *)
Lemma adds_bind_ok {A B} P (c : M A) (k : A -> M B) :
  adds P c -> (forall E w a w', c E w = (Ok a, w') -> adds P (k a)) -> adds P (bind c k).
Proof.
  intros Hc Hk E w. unfold bind. specialize (Hc E w).
  destruct (c E w) as [[a|e|] w1] eqn:Hcw; simpl in *; [|done..].
  eapply extends_trans; [done |]. by apply (Hk E w a w1).
Qed.

Lemma adds_bind {A B} P (c : M A) (k : A -> M B) :
  adds P c -> (forall a, adds P (k a)) -> adds P (bind c k).
Proof. intros Hc Hk. apply adds_bind_ok; [done |]. intros ? ? a ? _. apply Hk. Qed.

Lemma adds_com {A} P m (f : screen -> A) : adds P (com m f).
Proof. apply emits_adds, emits_com. Qed.

Lemma adds_act (P : event -> Prop) m a : (forall s, P (Act s a)) -> adds P (act m a).
Proof. intros H. by apply emits_adds, emits_act. Qed.

Lemma adds_sleep (P : event -> Prop) secs : P (Sleep secs) -> adds P (sleep secs).
Proof. intros H E w. by apply extends_record. Qed.

Lemma adds_when P b c : adds P c -> adds P (when b c).
Proof. intros Hc. destruct b; [done | apply adds_ret]. Qed.

Lemma adds_try_except {A} P (c : M A) handles h :
  adds P c -> (forall e, adds P (h e)) -> adds P (try_except c handles h).
Proof.
  intros Hc Hh E w. unfold try_except. specialize (Hc E w).
  destruct (c E w) as [[a|e|] w1]; simpl in *; [done | | done].
  destruct (handles e); [|done]. eapply extends_trans; [done | apply Hh].
Qed.

Lemma adds_except_com_error {A} P m (c : M A) : adds P c -> adds P (except_com_error m c).
Proof. intros Hc E w. rewrite except_com_error_world. apply Hc. Qed.

Lemma adds_check_prerequisities P m : adds P (check_prerequisities m).
Proof. apply emits_adds, emits_check_prerequisities. Qed.

Lemma adds_assign_sess P m o : adds P (assign_sess m o).
Proof. apply emits_adds, emits_assign_sess. Qed.

Lemma adds_press_key (P : event -> Prop) m keys name :
  (forall s code, P (Act s (SendVKey code))) -> adds P (press_key m keys name).
Proof. intros H. apply emits_adds, emits_press_key. intros s code _. apply H. Qed.

Lemma adds_for_each {A} P (l : list A) body :
  (forall x, adds P (body x)) -> adds P (for_each l body).
Proof.
  intros Hb. induction l as [|x l IH]; cbn [for_each]; [apply adds_ret |].
  by apply adds_bind.
Qed.

(** Goals [adds P c] for straight-line code: one rule per construct. *)
Ltac adds_step :=
  match goal with
  | |- adds _ (bind _ _) => apply adds_bind; [|intros ?]
  | |- adds _ (ret _) => apply adds_ret
  | |- adds _ (raise _) => apply adds_raise
  | |- adds _ out_of_fuel => apply adds_out_of_fuel
  | |- adds _ (com _ _) => apply adds_com
  | |- adds _ (act _ _) => apply adds_act; intros ?
  | |- adds _ (sleep _) => apply adds_sleep
  | |- adds _ (when _ _) => apply adds_when
  | |- adds _ (except_com_error _ _) => apply adds_except_com_error
  | |- adds _ (check_prerequisities _) => apply adds_check_prerequisities
  | |- adds _ (assign_sess _ _) => apply adds_assign_sess
  | |- adds _ (press_key _ _ _) => apply adds_press_key; intros ? ?
  | |- adds _ (if ?b then _ else _) => destruct b
  | |- adds _ (match ?x with _ => _ end) => destruct x
  end.

Lemma adds_close_popup_dialog (P : event -> Prop) m keys confirm max_attempts :
  (forall s code, P (Act s (SendVKey code))) ->
  (forall s caption, P (Act s (PressButton caption))) ->
  adds P (close_popup_dialog m keys confirm max_attempts).
Proof.
  intros HP HB. unfold close_popup_dialog.
  assert (adds P (close_popup_presses m keys confirm max_attempts)) as Hloop.
  { induction max_attempts as [|r IH]; rewrite close_popup_presses_eq.
    - repeat adds_step.
    - adds_step; [adds_step |]. destruct (in_list _ _); [|adds_step].
      adds_step; [|done]. destruct confirm; by apply adds_press_key. }
  adds_step; [done |]. repeat adds_step; done.
Qed.

Section DriverEvents.

Variable P : event -> Prop.
Hypothesis P_act : forall s a, P (Act s a).
Hypothesis P_sleep : forall secs, P (Sleep secs).

Ltac driver_steps :=
  repeat first
    [ apply adds_close_popup_dialog; intros; apply P_act
    | apply adds_for_each; intros [? ?]
    | adds_step ];
  try apply P_act; try apply P_sleep.

Lemma adds_fb03_append_case_id document fiscal_year company_code case_id :
  adds P (fb03.append_case_id document fiscal_year company_code case_id).
Proof.
  unfold fb03.append_case_id, fb03._check_prerequisities, fb03._set_search_criteria,
    fb03._is_alert_message, fb03._is_error_message, fb03._is_warning_message,
    is_error_message, fb03._open_document_parameters, fb03._get_document_text,
    fb03._append_case_id, fb03._to_initial_screen, fb03._is_popup_dialog, is_popup_dialog,
    fb03._set_document_text, fb03._is_cleared_document, fb03._to_initial_screen,
    fb03._save_changes, fb03._is_alert_message, fb03._is_error_message,
    fb03._is_warning_message, is_error_message, fb03._clear_search_criteria,
    fb03._set_company_code, fb03._set_document_number, fb03._set_document_year,
    fb03._close_popup_dialog, fb03._press_key.
  driver_steps.
Qed.

Lemma adds_fb03_start sess : adds P (fb03.start sess).
Proof.
  unfold fb03.start, fb03._clear_search_criteria,
    fb03._set_company_code, fb03._set_document_number, fb03._set_document_year.
  driver_steps.
Qed.

Lemma adds_fb03_close : adds P fb03.close.
Proof.
  intros E w. unfold fb03.close. destruct (get_sess FB03 w); [|apply extends_refl].
  match goal with |- extends P w (?c E w).2 => assert (adds P c) as H; [|apply H] end.
  unfold fb03._is_popup_dialog, is_popup_dialog, fb03._close_popup_dialog.
  driver_steps.
Qed.

Lemma adds_qm02_start sess : adds P (qm02.start sess).
Proof.
  unfold qm02.start, qm02._clear_notification_search_field, qm02._set_notification_id.
  driver_steps.
Qed.

Lemma adds_qm02_close : adds P qm02.close.
Proof.
  intros E w. unfold qm02.close. destruct (get_sess QM02 w); [|apply extends_refl].
  match goal with |- extends P w (?c E w).2 => assert (adds P c) as H; [|apply H] end.
  unfold qm02._is_popup_dialog, is_popup_dialog, qm02._close_popup_dialog.
  driver_steps.
Qed.

Lemma adds_confirm_popups fuel : adds P (qm02.confirm_popups fuel).
Proof.
  induction fuel as [|fuel IH]; cbn [qm02.confirm_popups];
    unfold qm02._is_popup_dialog, is_popup_dialog, qm02._close_popup_dialog.
  - driver_steps.
  - adds_step; [adds_step |]. destruct a; [|adds_step].
    adds_step; [apply adds_close_popup_dialog; intros; apply P_act | done].
Qed.

Lemma adds_available_tasks_from remaining row_idx tasks :
  adds P (qm02.available_tasks_from remaining row_idx tasks).
Proof.
  revert row_idx tasks. induction remaining as [|r IH]; intros row_idx tasks;
    cbn [qm02.available_tasks_from]; [adds_step |].
  unfold qm02._get_task_viewer, qm02._get_task_param. cbn [String.eqb Ascii.eqb Bool.eqb].
  adds_step; [adds_step |]. destruct (a =? 0)%Z; [adds_step |].
  adds_step; [driver_steps |]. adds_step; [adds_step |].
  destruct (a1 =? ""); [adds_step |].
  adds_step; [driver_steps |]. adds_step; [driver_steps |].
  destruct a2; [|adds_step]. destruct a3; [adds_step |]. apply IH.
Qed.

Lemma adds_reopen_attempts remaining wait_secs :
  adds P (qm02.reopen_attempts remaining wait_secs).
Proof.
  induction remaining as [|r IH]; cbn [qm02.reopen_attempts]; [adds_step |].
  unfold qm02._press_key, qm02._is_error_message, is_error_message.
  adds_step; [by adds_step |]. adds_step; [driver_steps |]. adds_step; [adds_step |].
  by destruct (negb a1); [adds_step |].
Qed.

Lemma adds_complete_notification fuel notif_id :
  adds P (qm02.complete_notification fuel notif_id).
Proof.
  unfold qm02.complete_notification.
  unfold qm02._check_prerequisities, qm02._search_notification, qm02._set_notification_id,
    qm02._is_popup_dialog, is_popup_dialog, qm02._reopen_blocked, qm02._is_error_message,
    is_error_message, qm02._to_initial_screen, qm02._activate_tab, qm02._get_task_viewer,
    qm02._complete, qm02._get_available_tasks, qm02._complete_task, qm02._select_task,
    qm02._get_task_viewer, qm02._clear_notification_search_field, qm02._set_notification_id,
    qm02._close_popup_dialog, qm02._press_key, qm02._is_popup_dialog, is_popup_dialog.
  cbn [String.eqb Ascii.eqb Bool.eqb].
  repeat first
    [ apply adds_reopen_attempts
    | apply adds_available_tasks_from
    | apply adds_confirm_popups
    | apply adds_close_popup_dialog; intros; apply P_act
    | apply adds_for_each; intros [? ?]
    | adds_step ];
  try apply P_act; try apply P_sleep.
Qed.

End DriverEvents.

(** ** How many connections a stage opens *)

Lemma driver_event_act s a : driver_event (Act s a).
Proof. done. Qed.

Lemma driver_event_sleep secs : driver_event (Sleep secs).
Proof. done. Qed.

Lemma connections_extends w w' :
  extends driver_event w w' -> connections (hist w') = connections (hist w).
Proof.
  intros (evs & -> & Hevs). unfold connections. rewrite filter_app, length_app.
  assert (filter sap.is_connect evs = []) as ->; [|simpl; lia].
  induction Hevs as [|e evs He _ IH]; [done |].
  rewrite filter_cons. unfold driver_event in He. by rewrite He.
Qed.

Lemma connections_adds {A} (c : M A) E w :
  adds driver_event c -> connections (hist (c E w).2) = connections (hist w).
Proof. intros Hc. apply connections_extends, Hc. Qed.

Lemma connections_connect system E w :
  connections (hist (controller.connect_to_sap system E w).2) <= connections (hist w) + 1.
Proof.
  unfold controller.connect_to_sap, sap.connect. destruct (reachable E (hist w)); simpl; [|lia].
  unfold connections. rewrite filter_app, length_app. simpl. lia.
Qed.

Lemma connections_bind {A B} (c : M A) (k : A -> M B) E w n1 n2 :
  connections (hist (c E w).2) <= connections (hist w) + n1 ->
  (forall a w1, connections (hist (k a E w1).2) <= connections (hist w1) + n2) ->
  connections (hist (bind c k E w).2) <= connections (hist w) + (n1 + n2).
Proof.
  intros Hc Hk. unfold bind. destruct (c E w) as [[a|e|] w1]; simpl in *; [|lia..].
  specialize (Hk a w1). lia.
Qed.

Lemma connections_retry {A} (start : nat -> M unit) (retry : M A) E w n :
  (forall sess, adds driver_event (start sess)) ->
  (forall w1, connections (hist (retry E w1).2) <= connections (hist w1) + n) ->
  connections (hist ((sess <- controller.connect_to_sap (system_code E) ;;
                      start sess ;; retry) E w).2)
    <= connections (hist w) + S n.
Proof.
  intros Hstart Hretry.
  replace (S n) with (1 + (0 + n)) by lia.
  apply connections_bind; [apply connections_connect |]. intros sess w1.
  apply connections_bind; [|by intros].
  rewrite (connections_adds _ E w1); [lia |]. apply Hstart.
Qed.

Lemma connections_update_attempts fuel idx doc_num doc_year cocd case_id n_attempts
    (result : controller.DataFrame) E w :
  n_attempts <= controller.MAX_RECOVERY_ATTEMPTS ->
  connections (hist (controller.update_attempts fuel idx doc_num doc_year cocd case_id
                       n_attempts result E w).2)
    <= connections (hist w) + (controller.MAX_RECOVERY_ATTEMPTS - n_attempts).
Proof.
  revert n_attempts w. induction fuel as [|fuel IH]; intros n_attempts w Hn;
    cbn [controller.update_attempts];
    (destruct (n_attempts <? controller.MAX_RECOVERY_ATTEMPTS)%nat eqn:Hlt;
     [|simpl; lia]); [simpl; lia |].
  apply Nat.ltb_lt in Hlt.
  pose proof (connections_adds _ E w
                (adds_fb03_append_case_id driver_event driver_event_act
                   doc_num doc_year cocd case_id)) as Hc.
  destruct (fb03.append_case_id doc_num doc_year cocd case_id E w) as [[u|e|] w1];
    simpl in Hc; [simpl; lia | | simpl; lia].
  assert (connections
            (hist ((sess <- controller.connect_to_sap (system_code E) ;;
                    fb03.start sess ;;
                    controller.update_attempts fuel idx doc_num doc_year cocd case_id
                      (n_attempts + 1) result) E w1).2)
          <= connections (hist w1)
             + S (controller.MAX_RECOVERY_ATTEMPTS - (n_attempts + 1))) as Hretry.
  { apply (connections_retry (fun sess => fb03.start sess)).
    - intros sess. apply adds_fb03_start. apply driver_event_act.
    - intros w2. apply IH. lia. }
  destruct e as [| | | | | | | | | | | | m msg | m msg | | | | |]; try (simpl; lia).
  - destruct m; try (simpl; lia).
  - destruct m; simpl; lia.
Qed.

Lemma connections_close_attempts passes fuel notif_id n_attempts E w :
  n_attempts <= controller.MAX_RECOVERY_ATTEMPTS ->
  connections (hist (controller.close_attempts passes fuel notif_id n_attempts E w).2)
    <= connections (hist w) + (controller.MAX_RECOVERY_ATTEMPTS - n_attempts).
Proof.
  revert n_attempts w. induction passes as [|passes IH]; intros n_attempts w Hn;
    cbn [controller.close_attempts];
    (destruct (n_attempts <? controller.MAX_RECOVERY_ATTEMPTS)%nat eqn:Hlt;
     [|simpl; lia]); [simpl; lia |].
  apply Nat.ltb_lt in Hlt.
  pose proof (connections_adds _ E w
                (adds_complete_notification driver_event driver_event_act
                   driver_event_sleep fuel notif_id)) as Hc.
  destruct (qm02.complete_notification fuel notif_id E w) as [[u|e|] w1];
    simpl in Hc; [simpl; lia | | simpl; lia].
  assert (connections
            (hist ((sess <- controller.connect_to_sap (system_code E) ;;
                    fb03.start sess ;;
                    controller.close_attempts passes fuel notif_id (n_attempts + 1)) E w1).2)
          <= connections (hist w1)
             + S (controller.MAX_RECOVERY_ATTEMPTS - (n_attempts + 1))) as Hretry.
  { apply (connections_retry (fun sess => fb03.start sess)).
    - intros sess. apply adds_fb03_start. apply driver_event_act.
    - intros w2. apply IH. lia. }
  destruct e as [| | | | | | | | | | | | m msg | | | | | |]; try (simpl; lia).
  destruct m; simpl; lia.
Qed.

Lemma connections_update_row idx (row : controller.row) (result : controller.DataFrame) E w :
  connections (hist (controller.update_row idx row result E w).2)
    <= connections (hist w) + controller.MAX_RECOVERY_ATTEMPTS.
Proof.
  assert (forall doc_num,
    connections (hist (controller.update_document idx row doc_num result E w).2)
      <= connections (hist w) + controller.MAX_RECOVERY_ATTEMPTS) as Hdoc.
  { intros doc_num. unfold controller.update_document.
    destruct (controller.Document_Year row); [|simpl; lia].
    destruct (controller.Case_ID row); [|simpl; lia].
    replace controller.MAX_RECOVERY_ATTEMPTS
      with ((controller.MAX_RECOVERY_ATTEMPTS - 0) + 0) at 2 by lia.
    apply connections_bind; [apply connections_update_attempts; lia |].
    intros [k r] w1. destruct (negb _); simpl; lia. }
  unfold controller.update_row. destruct (controller.Is_Order row) as [[]|]; cbn [negb];
    [|by apply Hdoc | simpl; lia].
  destruct (controller.Credit_Note row); [by apply Hdoc | simpl; lia].
Qed.

Lemma connections_close_row fuel idx (row : controller.row) (result : controller.DataFrame)
    E w :
  connections (hist (controller.close_row fuel idx row result E w).2)
    <= connections (hist w) + controller.MAX_RECOVERY_ATTEMPTS.
Proof.
  unfold controller.close_row. destruct (controller.Notification row); [|simpl; lia].
  replace controller.MAX_RECOVERY_ATTEMPTS
    with ((controller.MAX_RECOVERY_ATTEMPTS - 0) + 0) at 2 by lia.
  apply connections_bind; [apply connections_close_attempts; lia |].
  intros [k msg] w1. destruct (negb _); [simpl; lia |].
  destruct msg; [|simpl; lia].
  destruct (controller.Message <$> result !! idx) as [[]|]; simpl; lia.
Qed.

(** X6: the annotation stage and the closure stage open at most
    [MAX_RECOVERY_ATTEMPTS] connections for each row of the data, whatever
    the remote side does. *)
Theorem stages_open_few_connections fuel sess (in_data : controller.DataFrame) E w :
  connections (hist (controller.update_accounting_documents sess in_data E w).2)
    <= connections (hist w) + controller.MAX_RECOVERY_ATTEMPTS * length in_data
  /\ connections (hist (controller.close_service_notifications fuel sess in_data E w).2)
     <= connections (hist w) + controller.MAX_RECOVERY_ATTEMPTS * length in_data.
Proof.
  split.
  - assert (forall rows idx result w1,
      connections (hist (controller.update_rows idx rows result E w1).2)
        <= connections (hist w1) + controller.MAX_RECOVERY_ATTEMPTS * length rows) as Hrows.
    { induction rows as [|row rows IH]; intros idx result w1; [simpl; lia |].
      cbn [controller.update_rows length].
      replace (controller.MAX_RECOVERY_ATTEMPTS * S (length rows))
        with (controller.MAX_RECOVERY_ATTEMPTS
              + controller.MAX_RECOVERY_ATTEMPTS * length rows) by lia.
      apply connections_bind; [apply connections_update_row |]. intros; apply IH. }
    unfold controller.update_accounting_documents. destruct (_ =? 0)%nat; [simpl; lia |].
    replace (controller.MAX_RECOVERY_ATTEMPTS * length in_data)
      with (0 + (controller.MAX_RECOVERY_ATTEMPTS * length in_data + (0 + 0))) by lia.
    apply connections_bind.
    { rewrite connections_adds; [lia |]. apply adds_fb03_start, driver_event_act. }
    intros _ w1. apply connections_bind; [apply Hrows |]. intros result w2.
    apply connections_bind; [|intros; simpl; lia].
    rewrite connections_adds; [lia |]. apply adds_fb03_close, driver_event_act.
  - assert (forall rows idx result w1,
      connections (hist (controller.close_rows fuel idx rows result E w1).2)
        <= connections (hist w1) + controller.MAX_RECOVERY_ATTEMPTS * length rows) as Hrows.
    { induction rows as [|row rows IH]; intros idx result w1; [simpl; lia |].
      cbn [controller.close_rows length].
      replace (controller.MAX_RECOVERY_ATTEMPTS * S (length rows))
        with (controller.MAX_RECOVERY_ATTEMPTS
              + controller.MAX_RECOVERY_ATTEMPTS * length rows) by lia.
      apply connections_bind; [apply connections_close_row |]. intros; apply IH. }
    unfold controller.close_service_notifications. destruct (_ =? 0)%nat; [simpl; lia |].
    replace (controller.MAX_RECOVERY_ATTEMPTS * length in_data)
      with (0 + (controller.MAX_RECOVERY_ATTEMPTS * length in_data + (0 + 0))) by lia.
    apply connections_bind.
    { rewrite connections_adds; [lia |]. apply adds_qm02_start, driver_event_act. }
    intros _ w1. apply connections_bind; [apply Hrows |]. intros result w2.
    apply connections_bind; [|intros; simpl; lia].
    rewrite connections_adds; [lia |]. apply adds_qm02_close, driver_event_act.
Qed.

(** ** The columns a stage writes *)

Lemma same_but_message_refl (a : controller.DataFrame) : same_but_message a a.
Proof. apply Forall2_same_length_lookup_2; [done |]. by intros i x y -> [= ->]. Qed.

Lemma same_but_message_trans (a b c : controller.DataFrame) :
  same_but_message a b -> same_but_message b c -> same_but_message a c.
Proof.
  unfold same_but_message. intros Hab Hbc.
  eapply Forall2_trans; [|done..]. intros x y z Hxy Hyz. by rewrite Hxy.
Qed.

Lemma same_but_message_loc_idx idx f (result : controller.DataFrame) :
  (forall r, controller.set_Message None (f r) = controller.set_Message None r) ->
  same_but_message result (controller.loc_idx idx f result).
Proof.
  intros Hf. unfold same_but_message, controller.loc_idx.
  apply Forall2_alter_r; [apply same_but_message_refl |].
  intros x y _ _ ->. by rewrite Hf.
Qed.

Lemma same_but_message_update_attempts fuel idx doc_num doc_year cocd case_id n_attempts
    (result : controller.DataFrame) E w n result' w' :
  controller.update_attempts fuel idx doc_num doc_year cocd case_id n_attempts result E w
    = (Ok (n, result'), w') ->
  same_but_message result result'.
Proof.
  revert n_attempts w. induction fuel as [|fuel IH]; intros n_attempts w;
    cbn [controller.update_attempts];
    (destruct (n_attempts <? controller.MAX_RECOVERY_ATTEMPTS)%nat;
     [|intros [= _ <- _]; apply same_but_message_refl]); [done |].
  destruct (fb03.append_case_id doc_num doc_year cocd case_id E w) as [[u|e|] w1];
    [intros [= _ <- _]; by apply same_but_message_loc_idx | | done].
  destruct e as [| | | | | | | | | | | | m msg | m msg | | | | |]; try done.
  - destruct m; try done. intros H.
    apply bind_ok_inv in H as (sess & w2 & _ & H).
    apply bind_ok_inv in H as (u & w3 & _ & H). by eapply IH.
  - destruct m; try done. intros [= _ <- _]. by apply same_but_message_loc_idx.
  - intros [= _ <- _]. by apply same_but_message_loc_idx.
Qed.

Lemma same_but_message_update_row idx (row : controller.row) (result : controller.DataFrame)
    E w result' w' :
  controller.update_row idx row result E w = (Ok result', w') ->
  same_but_message result result'.
Proof.
  assert (forall doc_num,
    controller.update_document idx row doc_num result E w = (Ok result', w') ->
    same_but_message result result') as Hdoc.
  { intros doc_num. unfold controller.update_document.
    destruct (controller.Document_Year row); [|done].
    destruct (controller.Case_ID row); [|done]. intros H.
    apply bind_ok_inv in H as ([k r] & w1 & Hloop & H).
    destruct (negb _); [done |]. injection H as <- <-.
    by eapply same_but_message_update_attempts. }
  unfold controller.update_row. destruct (controller.Is_Order row) as [[]|]; cbn [negb];
    [|by apply Hdoc | done].
  destruct (controller.Credit_Note row); [by apply Hdoc |].
  intros [= <- _]. by apply same_but_message_loc_idx.
Qed.

Lemma same_but_message_close_row fuel idx (row : controller.row)
    (result : controller.DataFrame) E w result' w' :
  controller.close_row fuel idx row result E w = (Ok result', w') ->
  same_but_message result result'.
Proof.
  unfold controller.close_row. destruct (controller.Notification row); [|done]. intros H.
  apply bind_ok_inv in H as ([k msg] & w1 & _ & H).
  destruct (negb _); [done |]. destruct msg; [|done].
  destruct (controller.Message <$> result !! idx) as [[]|]; [|done..].
  injection H as <- _. by apply same_but_message_loc_idx.
Qed.

(** X7: when the annotation stage or the closure stage returns, the frame
    it returns has the rows of the frame it was given, in the same order, and
    differs from it at most in the column Message. *)
Theorem stages_change_only_messages fuel sess (in_data result : controller.DataFrame)
    E w w' :
  (controller.update_accounting_documents sess in_data E w = (Ok result, w') ->
   same_but_message in_data result)
  /\ (controller.close_service_notifications fuel sess in_data E w = (Ok result, w') ->
      same_but_message in_data result).
Proof.
  split.
  - assert (forall rows idx r0 w1 r1 w2,
      controller.update_rows idx rows r0 E w1 = (Ok r1, w2) -> same_but_message r0 r1)
      as Hrows.
    { induction rows as [|row rows IH]; intros idx r0 w1 r1 w2;
        cbn [controller.update_rows]; [intros [= <- _]; apply same_but_message_refl |].
      intros H. apply bind_ok_inv in H as (r & w3 & Hrow & H).
      eapply same_but_message_trans; [by eapply same_but_message_update_row |].
      by eapply IH. }
    unfold controller.update_accounting_documents. destruct (_ =? 0)%nat;
      [intros [= <- _]; apply same_but_message_refl |].
    intros H. apply bind_ok_inv in H as (u & w1 & _ & H).
    apply bind_ok_inv in H as (r & w2 & Hr & H).
    apply bind_ok_inv in H as (u' & w3 & _ & H). injection H as <- _.
    by eapply Hrows.
  - assert (forall rows idx r0 w1 r1 w2,
      controller.close_rows fuel idx rows r0 E w1 = (Ok r1, w2) -> same_but_message r0 r1)
      as Hrows.
    { induction rows as [|row rows IH]; intros idx r0 w1 r1 w2;
        cbn [controller.close_rows]; [intros [= <- _]; apply same_but_message_refl |].
      intros H. apply bind_ok_inv in H as (r & w3 & Hrow & H).
      eapply same_but_message_trans; [by eapply same_but_message_close_row |].
      by eapply IH. }
    unfold controller.close_service_notifications. destruct (_ =? 0)%nat;
      [intros [= <- _]; apply same_but_message_refl |].
    intros H. apply bind_ok_inv in H as (u & w1 & _ & H).
    apply bind_ok_inv in H as (r & w2 & Hr & H).
    apply bind_ok_inv in H as (u' & w3 & _ & H). injection H as <- _.
    by eapply Hrows.
Qed.

Lemma stages_change_only_messages_witness :
  same_but_message [invoice_row None; invoice_row None]
    [controller.set_Message (Some "Document text already contains the case ID!")
       (invoice_row None);
     controller.set_Message (Some "Document text already contains the case ID!")
       (invoice_row None)].
Proof.
  eapply (proj1 (stages_change_only_messages 0 0 _ _
                   (static_env (with_sgtxt "RET711884319 D 400081469" plain_screen))
                   initial_world _)).
  vm_compute. reflexivity.
Defined.

(** ** An exception without a handler of its own *)

Lemma some_document (rows : list controller.row) r :
  In r rows -> controller.Document_Number r <> None ->
  (length (filter (fun r => negb (controller.isna (controller.Document_Number r))) rows)
   =? 0)%nat = false.
Proof.
  intros Hin Hn. apply Nat.eqb_neq. intros Hlen.
  apply length_zero_iff_nil in Hlen.
  assert (r ∈ filter (fun r => negb (controller.isna (controller.Document_Number r))) rows)
    as H.
  { apply list_elem_of_filter. split; [|by apply list_elem_of_In].
    by destruct (controller.Document_Number r). }
  rewrite Hlen in H. by apply not_elem_of_nil in H.
Qed.

(** X8: an exception of [append_case_id] for which the retry loop of
    [update_accounting_documents] has no handler (anything but the lost
    connection, the warning and the error of fb03: a [com_error] of a live
    session, the RuntimeError of a dialog that does not close) ends the loop
    over the rows and the stage.  No message is recorded, the rows that
    follow are not looked at, and FB03 is not closed. *)
Theorem unhandled_failure_ends_annotation sess idx (row : controller.row)
    (rest result : list controller.row) doc_year case_id E w0 w e w' :
  controller.Is_Order row = Some false ->
  controller.Document_Year row = Some doc_year ->
  controller.Case_ID row = Some case_id ->
  fb03.append_case_id (Z.of_N <$> controller.Document_Number row) doc_year
    (controller.Company_Code row) case_id E w = (Raise e, w') ->
  handled_by_annotation e = false ->
  controller.update_rows idx (row :: rest) result E w = (Raise e, w')
  /\ (controller.Document_Number row <> None ->
      fb03.start sess E w0 = (Ok tt, w) ->
      controller.update_accounting_documents sess (row :: rest) E w0 = (Raise e, w')).
Proof.
  intros Ho Hy Hc Hfail He.
  assert (forall idx result,
    controller.update_rows idx (row :: rest) result E w = (Raise e, w')) as Hrows.
  { intros idx' result'. cbn [controller.update_rows]. apply bind_raise.
    unfold controller.update_row. rewrite Ho. cbn [negb].
    unfold controller.update_document. rewrite Hy, Hc. apply bind_raise.
    cbn [controller.update_attempts controller.MAX_RECOVERY_ATTEMPTS Nat.ltb Nat.leb].
    rewrite Hfail.
    destruct e as [| | | | | | | | | | | | m msg | m msg | | | | |]; try done;
      by destruct m. }
  split; [apply Hrows |]. intros Hd Hstart.
  unfold controller.update_accounting_documents.
  rewrite (some_document _ row) by (done || by left).
  erewrite bind_ok by exact Hstart. by apply bind_raise.
Qed.

Lemma unhandled_failure_ends_annotation_witness :
  controller.update_accounting_documents 0 [invoice_row None; invoice_row None]
    stuck_dialog initial_world
  = (Raise (RuntimeError "Could not close the dialog window: 'Information'!"),
     {| hist :=
          [Connect "P01" 0; Act 0 (StartTransaction "FB03");
           Act 0 (SetText "RF05L-BUKRS" ""); Act 0 (SetText "RF05L-BELNR" "");
           Act 0 (SetText "RF05L-GJAHR" "");
           Act 0 (SetText "RF05L-BUKRS" "0010");
           Act 0 (SetText "RF05L-BELNR" "544411698");
           Act 0 (SetText "RF05L-GJAHR" "2024"); Act 0 (SendVKey 0);
           Act 0 (SetFocus "RF05L-ANZDT"); Act 0 (SendVKey 2);
           Act 0 (SendVKey 12); Act 0 (SendVKey 12); Act 0 (SendVKey 12)];
        va03_sess := None; fb03_sess := Some 0; qm02_sess := None |}).
Proof.
  destruct (unhandled_failure_ends_annotation 0 0 (invoice_row None) [invoice_row None]
              [invoice_row None; invoice_row None] 2024 400081469 stuck_dialog initial_world
              {| hist :=
                   [Connect "P01" 0; Act 0 (StartTransaction "FB03");
                    Act 0 (SetText "RF05L-BUKRS" ""); Act 0 (SetText "RF05L-BELNR" "");
                    Act 0 (SetText "RF05L-GJAHR" "")];
                 va03_sess := None; fb03_sess := Some 0; qm02_sess := None |}
              (RuntimeError "Could not close the dialog window: 'Information'!")
              {| hist :=
                   [Connect "P01" 0; Act 0 (StartTransaction "FB03");
                    Act 0 (SetText "RF05L-BUKRS" ""); Act 0 (SetText "RF05L-BELNR" "");
                    Act 0 (SetText "RF05L-GJAHR" "");
                    Act 0 (SetText "RF05L-BUKRS" "0010");
                    Act 0 (SetText "RF05L-BELNR" "544411698");
                    Act 0 (SetText "RF05L-GJAHR" "2024"); Act 0 (SendVKey 0);
                    Act 0 (SetFocus "RF05L-ANZDT"); Act 0 (SendVKey 2);
                    Act 0 (SendVKey 12); Act 0 (SendVKey 12); Act 0 (SendVKey 12)];
                 va03_sess := None; fb03_sess := Some 0; qm02_sess := None |})
    as [_ H]; [reflexivity | reflexivity | reflexivity | vm_compute; reflexivity
              | reflexivity |].
  apply H; [done | vm_compute; reflexivity].
Defined.



(** ** What the annotation stage writes *)

Lemma append_case_id_ok_inv text case_id E w t w' :
  fb03._append_case_id text case_id E w = (Ok t, w') ->
  contains (str case_id) text = false
  /\ t = strip text +:+ " D " +:+ str case_id
  /\ String.length t <= fb03.MAX_TEXT_FIELD_CHARS.
Proof.
  unfold fb03._append_case_id. destruct (contains (str case_id) text) eqn:Hc.
  - intros H. by apply bind_ok_inv in H as (u & w1 & _ & H).
  - rewrite remove_duplicates_not_contained by done.
    destruct (_ <=? _)%nat eqn:Hlen; [|done]. intros [= <- _].
    by apply Nat.leb_le in Hlen.
Qed.

Lemma adds_append_case_id_fit document fiscal_year company_code case_id :
  adds writes_fit (fb03.append_case_id document fiscal_year company_code case_id).
Proof.
  unfold fb03.append_case_id, fb03._check_prerequisities.
  adds_step; [adds_step |]. adds_step.
  adds_step.
  { unfold fb03._set_search_criteria, fb03._set_company_code, fb03._set_document_number,
      fb03._set_document_year, fb03._press_key.
    repeat adds_step; done. }
  adds_step.
  { unfold fb03._is_alert_message, fb03._is_error_message, fb03._is_warning_message,
      is_error_message.
    repeat adds_step. }
  adds_step; [repeat adds_step |].
  adds_step.
  { unfold fb03._open_document_parameters, fb03._press_key. repeat adds_step; done. }
  adds_step; [unfold fb03._get_document_text; adds_step |].
  apply adds_bind_ok.
  { unfold fb03._append_case_id, fb03._to_initial_screen, fb03._press_key.
    repeat adds_step; done. }
  intros E w new_text w' Hok. apply append_case_id_ok_inv in Hok as (Hc & Ht & Hlen).
  unfold fb03._is_popup_dialog, is_popup_dialog, fb03._close_popup_dialog,
    fb03._set_document_text, fb03._is_cleared_document, fb03._to_initial_screen,
    fb03._save_changes, fb03._is_alert_message, fb03._is_error_message,
    fb03._is_warning_message, is_error_message, fb03._clear_search_criteria,
    fb03._set_company_code, fb03._set_document_number, fb03._set_document_year,
    fb03._press_key.
  repeat first [apply adds_close_popup_dialog; done | adds_step]; try done.
  intros _. split; [done |]. by eauto.
Qed.

Lemma adds_update_attempts_fit fuel idx doc_num doc_year cocd case_id n_attempts
    (result : controller.DataFrame) :
  adds writes_fit
    (controller.update_attempts fuel idx doc_num doc_year cocd case_id n_attempts result).
Proof.
  revert n_attempts. induction fuel as [|fuel IH]; intros n_attempts;
    cbn [controller.update_attempts];
    (destruct (n_attempts <? controller.MAX_RECOVERY_ATTEMPTS)%nat; [|apply adds_ret]);
    [apply adds_out_of_fuel |].
  intros E w.
  pose proof (adds_append_case_id_fit doc_num doc_year cocd case_id E w) as Hw.
  destruct (fb03.append_case_id doc_num doc_year cocd case_id E w) as [[u|e|] w1];
    simpl in *; [done | | done].
  assert (adds writes_fit
    (sess <- controller.connect_to_sap (system_code E) ;;
     fb03.start sess ;;
     controller.update_attempts fuel idx doc_num doc_year cocd case_id
       (n_attempts + 1) result)) as Hretry.
  { adds_step.
    - intros E' w'. unfold controller.connect_to_sap, sap.connect.
      destruct (reachable E' (hist w')); [by apply extends_record | apply extends_refl].
    - adds_step; [|apply IH].
      unfold fb03.start, fb03._clear_search_criteria, fb03._set_company_code,
        fb03._set_document_number, fb03._set_document_year.
      repeat adds_step; done. }
  destruct e as [| | | | | | | | | | | | m msg | m msg | | | | |]; try done.
  - destruct m; try done. eapply extends_trans; [done | apply Hretry].
  - destruct m; done.
Qed.

(** X10: whatever the remote side does, every text that the annotation
    stage writes into the text field of a document is a trimmed text followed
    by " D " and a case id which that text did not hold, and has at most 50
    characters. *)
Theorem annotation_writes_fit sess (in_data : controller.DataFrame) :
  adds writes_fit (controller.update_accounting_documents sess in_data).
Proof.
  assert (forall rows idx result, adds writes_fit (controller.update_rows idx rows result))
    as Hrows.
  { induction rows as [|row rows IH]; intros idx result; cbn [controller.update_rows];
      [apply adds_ret |].
    adds_step; [|apply IH].
    unfold controller.update_row, controller.update_document.
    repeat first [apply adds_update_attempts_fit | adds_step]. }
  unfold controller.update_accounting_documents. destruct (_ =? 0)%nat; [apply adds_ret |].
  adds_step.
  { unfold fb03.start, fb03._clear_search_criteria, fb03._set_company_code,
      fb03._set_document_number, fb03._set_document_year.
    repeat adds_step; done. }
  adds_step; [apply Hrows |]. adds_step; [|adds_step].
  intros E w. unfold fb03.close. destruct (get_sess FB03 w); [|apply extends_refl].
  match goal with |- extends _ w (?c E w).2 => assert (adds writes_fit c) as H; [|apply H] end.
  unfold fb03._is_popup_dialog, is_popup_dialog, fb03._close_popup_dialog.
  repeat first [apply adds_close_popup_dialog; done | adds_step]; done.
Qed.

(** ** Batches with nothing to do, and batches of two kinds of rows *)






Lemma update_rows_app idx (pre post : list controller.row) result E w :
  controller.update_rows idx (pre ++ post) result E w =
    match controller.update_rows idx pre result E w with
    | (Ok result', w') => controller.update_rows (idx + length pre) post result' E w'
    | other => other
    end.
Proof.
  revert idx result w. induction pre as [|r pre IH]; intros idx result w.
  - cbn. by rewrite Nat.add_0_r.
  - cbn [app controller.update_rows length]. unfold bind.
    destruct (controller.update_row idx r result E w) as [[result1|e|] w1]; [|done..].
    rewrite IH. by replace (S idx + length pre) with (idx + S (length pre)) by lia.
Qed.

(** X12: a batch in which some row has a document number and the row [r]
    has none (a row that only names a notification).  The order flag of [r]
    is NA; the annotation stage never returns a frame; once the rows before
    [r] are done it raises the TypeError of [not pd.NA], which nothing
    handles. *)
Theorem row_without_document_aborts_annotation sess E w
    (pre post : list controller.row) (r r' : controller.row) :
  controller.Document_Number r = None ->
  In r' (pre ++ r :: post) -> controller.Document_Number r' <> None ->
  let in_data := controller.flag_orders (pre ++ r :: post) in
  (forall df w', controller.update_accounting_documents sess in_data E w <> (Ok df, w'))
  /\ (forall w1 result' w2,
        fb03.start sess E w = (Ok tt, w1) ->
        controller.update_rows 0 (controller.flag_orders pre) in_data E w1
          = (Ok result', w2) ->
        controller.update_accounting_documents sess in_data E w
          = (Raise (TypeError "boolean value of NA is ambiguous"), w2)).
Proof.
  intros Hr Hin Hd in_data.
  assert (in_data = controller.flag_orders pre
                    ++ controller.set_Is_Order None r :: controller.flag_orders post) as Hdata.
  { unfold in_data, controller.flag_orders. rewrite map_app. cbn [map]. by rewrite Hr. }
  assert (forall w1,
    controller.update_rows 0 in_data in_data E w1 =
      match controller.update_rows 0 (controller.flag_orders pre) in_data E w1 with
      | (Ok result', w') => (Raise (TypeError "boolean value of NA is ambiguous"), w')
      | other => other
      end) as Hrows.
  { intros w1. rewrite Hdata at 1. rewrite update_rows_app.
    by destruct (controller.update_rows 0 _ in_data E w1) as [[result'|e|] w']. }
  assert ((length (filter (fun r => negb (controller.isna (controller.Document_Number r)))
                     in_data) =? 0)%nat = false) as Hdocs.
  { apply (some_document _ (controller.set_Is_Order
                              (startswith controller.ORDER_NUMBERING_PREFIX
                                 <$> (str <$> controller.Document_Number r')) r')); [|done].
    unfold in_data, controller.flag_orders. apply in_map_iff. by exists r'. }
  unfold controller.update_accounting_documents. rewrite Hdocs. split.
  - intros df w' H. apply bind_ok_inv in H as (u & w1 & _ & H).
    apply bind_ok_inv in H as (result' & w2 & H & _). rewrite Hrows in H.
    by destruct (controller.update_rows 0 _ in_data E w1) as [[?|?|] ?].
  - intros w1 result' w2 Hstart Hpre.
    erewrite bind_ok by exact Hstart. apply bind_raise. by rewrite Hrows, Hpre.
Qed.

Lemma row_without_document_aborts_annotation_witness :
  controller.update_accounting_documents 0
    (controller.flag_orders
       [a_row "0010" 544411698 2024 400081469 None;
        {| controller.Company_Code := ""; controller.Document_Number := None;
           controller.Document_Year := None; controller.Case_ID := None;
           controller.Notification := Some 300012345%N; controller.Message := Some "";
           controller.Credit_Note := None; controller.Is_Order := None |}])
    (static_env (with_sgtxt "RET711884319" plain_screen)) initial_world
  = (Raise (TypeError "boolean value of NA is ambiguous"),
     {| hist :=
          [Connect "P01" 0; Act 0 (StartTransaction "FB03");
           Act 0 (SetText "RF05L-BUKRS" ""); Act 0 (SetText "RF05L-BELNR" "");
           Act 0 (SetText "RF05L-GJAHR" "");
           Act 0 (SetText "RF05L-BUKRS" "0010");
           Act 0 (SetText "RF05L-BELNR" "544411698");
           Act 0 (SetText "RF05L-GJAHR" "2024"); Act 0 (SendVKey 0);
           Act 0 (SetFocus "RF05L-ANZDT"); Act 0 (SendVKey 2);
           Act 0 (SendVKey 25);
           Act 0 (SetText "BSEG-SGTXT" "RET711884319 D 400081469");
           Act 0 (SendVKey 11);
           Act 0 (SetText "RF05L-BUKRS" ""); Act 0 (SetText "RF05L-BELNR" "");
           Act 0 (SetText "RF05L-GJAHR" "")];
        va03_sess := None; fb03_sess := Some 0; qm02_sess := None |}).
Proof.
  eapply (row_without_document_aborts_annotation 0
            (static_env (with_sgtxt "RET711884319" plain_screen)) initial_world
            [a_row "0010" 544411698 2024 400081469 None] []
            _ (a_row "0010" 544411698 2024 400081469 None)).
  - reflexivity.
  - left. reflexivity.
  - done.
  - vm_compute. reflexivity.
  - vm_compute. reflexivity.
Defined.

(** ** Notification closure: a blocked notification *)

Lemma reopen_attempts_blocked remaining wait_secs E w s :
  get_sess QM02 w = Some s -> stays_blocked E s ->
  exists w',
    qm02.reopen_attempts remaining wait_secs E w = (Ok tt, w')
    /\ get_sess QM02 w' = Some s
    /\ hist w' = hist w ++ concat (replicate remaining [Sleep wait_secs; Act s (SendVKey 0)]).
Proof.
  intros Hs Hb. assert (link_holds E s) as Hup by (intros h; apply Hb).
  revert w Hs. induction remaining as [|r IH]; intros w Hs; cbn [qm02.reopen_attempts].
  - exists w. by rewrite app_nil_r.
  - unfold qm02._press_key, press_key, qm02._is_error_message, is_error_message.
    cbn [assoc qm02._virtual_keys String.eqb Ascii.eqb Bool.eqb].
    erewrite bind_ok by reflexivity.
    assert (get_sess QM02 (record_event (Sleep wait_secs) w) = Some s) as Hs1 by done.
    erewrite bind_ok by (up Hup). erewrite bind_ok by (up Hup).
    rewrite (proj2 (Hb _)). cbn [String.eqb Ascii.eqb Bool.eqb negb].
    edestruct IH as (w' & Hr & Hs' & Hh); [|exists w'; split; [exact Hr |]];
      [by rewrite !get_sess_record_event |].
    split; [done |]. rewrite Hh. cbn. by rewrite <- !app_assoc.
Qed.

Lemma sleeps_bind {A B} (c : M A) (k : A -> M B) E w n1 n2 :
  sleeps (hist (c E w).2) <= sleeps (hist w) + n1 ->
  (forall a w1, sleeps (hist (k a E w1).2) <= sleeps (hist w1) + n2) ->
  sleeps (hist (bind c k E w).2) <= sleeps (hist w) + (n1 + n2).
Proof.
  intros Hc Hk. unfold bind. destruct (c E w) as [[a|e|] w1]; simpl in *; [|lia..].
  specialize (Hk a w1). lia.
Qed.

Lemma sleeps_adds {A} (c : M A) E w :
  adds (fun e => is_sleep e = false) c -> sleeps (hist (c E w).2) = sleeps (hist w).
Proof.
  intros Hc. destruct (Hc E w) as (evs & -> & Hevs).
  unfold sleeps. rewrite filter_app, length_app.
  assert (filter is_sleep evs = []) as ->; [|simpl; lia].
  induction Hevs as [|e evs He _ IH]; [done |]. rewrite filter_cons. by rewrite He.
Qed.

Lemma sleeps_reopen_attempts remaining wait_secs E w :
  sleeps (hist (qm02.reopen_attempts remaining wait_secs E w).2) <= sleeps (hist w) + remaining.
Proof.
  revert w. induction remaining as [|r IH]; intros w; cbn [qm02.reopen_attempts];
    [simpl; lia |].
  replace (S r) with (1 + (0 + (0 + r))) by lia.
  apply sleeps_bind.
  { unfold sleeps. cbn. rewrite filter_app, length_app. simpl. lia. }
  intros _ w1. apply sleeps_bind.
  { rewrite sleeps_adds; [lia |]. unfold qm02._press_key. by apply adds_press_key. }
  intros _ w2. apply sleeps_bind.
  { rewrite sleeps_adds; [lia |]. apply adds_com. }
  intros err w3. destruct (negb err); [simpl; lia | apply IH].
Qed.

(** X13: [_reopen_blocked] sleeps and presses Enter again until the status
    bar no longer shows an error, at most [max_attempts + 1] times: one more
    than its argument says.  When the error stays it has done so exactly
    [max_attempts + 1] times and raises [NotificationCompletionError] with
    the text of the status bar. *)
Theorem reopen_blocked_tries_once_more (max_attempts : nat) (wait_secs : Z) E w :
  sleeps (hist (qm02._reopen_blocked max_attempts wait_secs E w).2)
    <= sleeps (hist w) + (max_attempts + 1)
  /\ (forall s,
        get_sess QM02 w = Some s -> stays_blocked E s ->
        exists w',
          qm02._reopen_blocked max_attempts wait_secs E w
            = (Raise (NotificationCompletionError (stat_text (gui E (hist w') s))), w')
          /\ hist w' = hist w ++
               concat (replicate (max_attempts + 1) [Sleep wait_secs; Act s (SendVKey 0)])).
Proof.
  split.
  - unfold qm02._reopen_blocked.
    replace (max_attempts + 1) with ((max_attempts + 1) + (0 + 0)) at 2 by lia.
    apply sleeps_bind; [apply sleeps_reopen_attempts |]. intros _ w1.
    apply sleeps_bind.
    { rewrite sleeps_adds; [lia |]. apply adds_com. }
    intros err w2. rewrite sleeps_adds; [lia |]. repeat adds_step.
  - intros s Hs Hb. assert (link_holds E s) as Hup by (intros h; apply Hb).
    destruct (reopen_attempts_blocked (max_attempts + 1) wait_secs E w s Hs Hb)
      as (w' & Hloop & Hs' & Hh).
    exists w'. split; [|done]. unfold qm02._reopen_blocked.
    erewrite bind_ok by exact Hloop.
    unfold qm02._is_error_message, is_error_message.
    erewrite bind_ok by (up Hup). rewrite (proj2 (Hb _)).
    cbn [String.eqb Ascii.eqb Bool.eqb when].
    by erewrite bind_ok by (up Hup).
Qed.

Lemma reopen_blocked_tries_once_more_witness :
  exists w',
    qm02._reopen_blocked 3 2 locked_notification (started QM02)
      = (Raise (NotificationCompletionError
                  (stat_text (gui locked_notification (hist w') 0))), w')
    /\ hist w' = hist (started QM02) ++
         concat (replicate (3 + 1) [Sleep 2; Act 0 (SendVKey 0)]).
Proof.
  apply (reopen_blocked_tries_once_more 3 2 locked_notification (started QM02));
    [reflexivity | by intros h].
Defined.

(** ** Notification closure: the tasks *)

Lemma dict_set_keys k v (d : list (Z * qm02.task)) :
  NoDup (fst <$> d) ->
  NoDup (fst <$> qm02.dict_set k v d)
  /\ (forall k', k' ∈ fst <$> qm02.dict_set k v d -> k' = k \/ k' ∈ fst <$> d).
Proof.
  induction d as [|[k0 v0] d IH]; intros Hd; cbn [qm02.dict_set].
  - split; [by apply NoDup_singleton |]. intros k' Hk. left. by apply list_elem_of_singleton.
  - apply NoDup_cons in Hd as [Hk0 Hd]. destruct (k =? k0)%Z eqn:Hk.
    + apply Z.eqb_eq in Hk as ->. split.
      * cbn. by apply NoDup_cons.
      * intros k' Hk'. by right.
    + destruct (IH Hd) as [IH1 IH2]. split.
      * cbn. apply NoDup_cons. split; [|done]. intros Hin.
        apply IH2 in Hin as [-> | Hin]; [|done]. by rewrite Z.eqb_refl in Hk.
      * intros k' Hk'. cbn in Hk'. apply elem_of_cons in Hk' as [-> | Hk'].
        { right. by left. }
        apply IH2 in Hk' as [-> | Hk']; [by left | right; by right].
Qed.

Lemma dict_set_length k v (d : list (Z * qm02.task)) :
  length (qm02.dict_set k v d) <= S (length d).
Proof.
  induction d as [|[k0 v0] d IH]; cbn [qm02.dict_set]; [simpl; lia |].
  destruct (k =? k0)%Z; simpl in *; lia.
Qed.

Lemma dict_set_Forall (P : Z * qm02.task -> Prop) k v (d : list (Z * qm02.task)) :
  P (k, v) -> Forall P d -> Forall P (qm02.dict_set k v d).
Proof.
  intros Hkv. induction 1 as [|[k0 v0] d H0 Hd IH]; cbn [qm02.dict_set];
    [by repeat constructor |].
  destruct (k =? k0)%Z; by constructor.
Qed.

Lemma available_tasks_from_bounded remaining (row_idx : Z) tasks E w tasks' w' :
  (0 <= row_idx)%Z ->
  NoDup (fst <$> tasks) ->
  length tasks <= Z.to_nat row_idx ->
  Forall (fun t => (0 <= qm02.row_idx t.2 < row_idx)%Z) tasks ->
  qm02.available_tasks_from remaining row_idx tasks E w = (Ok tasks', w') ->
  NoDup (fst <$> tasks')
  /\ length tasks' <= Z.to_nat row_idx + remaining
  /\ Forall (fun t => (0 <= qm02.row_idx t.2 < row_idx + Z.of_nat remaining)%Z) tasks'.
Proof.
  revert row_idx tasks w. induction remaining as [|r IH]; intros row_idx tasks w Hi Hd Hl Hf;
    cbn [qm02.available_tasks_from].
  - intros [= <- _]. split; [done |]. split; [lia |].
    eapply Forall_impl; [done |]. intros t Ht. simpl in *. lia.
  - assert (NoDup (fst <$> tasks)
            /\ length tasks <= Z.to_nat row_idx + S r
            /\ Forall (fun t => (0 <= qm02.row_idx t.2 < row_idx + Z.of_nat (S r))%Z) tasks)
      as Hstop.
    { split; [done |]. split; [lia |].
      eapply Forall_impl; [done |]. intros t Ht. simpl in *. lia. }
    intros H. apply bind_ok_inv in H as (visible & w1 & _ & H).
    destruct (visible =? 0)%Z; [done |].
    apply bind_ok_inv in H as (u & w2 & _ & H).
    apply bind_ok_inv in H as (id_text & w3 & _ & H).
    destruct (id_text =? ""); [by injection H as <- _ |].
    apply bind_ok_inv in H as (task_num & w4 & _ & H).
    apply bind_ok_inv in H as (compl_date & w5 & _ & H).
    destruct task_num as [n|]; [|done]. destruct compl_date as [|d]; [done |].
    apply IH in H; [| lia | by apply dict_set_keys | |].
    + destruct H as (H1 & H2 & H3). split; [done |]. split.
      * rewrite Z2Nat.inj_add in H2 by lia. simpl in H2. lia.
      * eapply Forall_impl; [done |]. intros t Ht. simpl in *. lia.
    + pose proof (dict_set_length n {| qm02.completion_date := d; qm02.row_idx := row_idx |}
                    tasks).
      rewrite Z2Nat.inj_add by lia. simpl. lia.
    + apply dict_set_Forall; [simpl; lia |].
      eapply Forall_impl; [done |]. intros t Ht. simpl in *. lia.
Qed.

(** X14: the tasks that [_get_available_tasks] returns.  No task number
    occurs twice, and every task was read from a row between the first and
    the last but one of the grid: there are at most [RowCount - 1] of them,
    none when the grid has at most one row.  On a grid that can be read the
    function does return. *)
Theorem available_tasks_are_bounded E w s :
  get_sess QM02 w = Some s ->
  let rows := row_count (gui E (hist w) s) in
  (forall tasks w',
     qm02._get_available_tasks E w = (Ok tasks, w') ->
     NoDup (fst <$> tasks)
     /\ length tasks <= Z.to_nat (rows - 1)
     /\ Forall (fun t => (0 <= qm02.row_idx t.2 < rows - 1)%Z) tasks)
  /\ (link_holds E s -> grid_readable E s ->
      exists tasks w', qm02._get_available_tasks E w = (Ok tasks, w')).
Proof.
  intros Hs rows. split.
  - intros tasks w' H. unfold qm02._get_available_tasks in H.
    apply bind_ok_inv in H as (rows' & w1 & Hrows & H).
    apply com_ok_inv in Hrows as (-> & s' & Hs' & ->).
    rewrite Hs in Hs'. injection Hs' as <-. fold rows in H.
    apply available_tasks_from_bounded in H; [|done | by constructor | simpl; lia | done].
    destruct H as (H1 & H2 & H3). split; [done |]. split; [simpl in H2; lia |].
    eapply Forall_impl; [done |]. intros t Ht. simpl in *. lia.
  - intros Hup Hgrid. unfold qm02._get_available_tasks.
    erewrite bind_ok by (up Hup).
    destruct (available_tasks_read E s (Z.to_nat (rows - 1 - 0)) Hup Hgrid 0%Z [] w Hs)
      as (tasks & w' & H & _).
    by exists tasks, w'.
Qed.

Lemma available_tasks_are_bounded_witness :
  exists tasks w', qm02._get_available_tasks two_tasks (started QM02) = (Ok tasks, w').
Proof.
  apply (available_tasks_are_bounded two_tasks (started QM02) 0 eq_refl).
  - by intros h.
  - intros h. split; [done |]. intros row. unfold two_task_cells. cbn.
    destruct (row =? 0)%Z; [by right |]. destruct (row =? 1)%Z; [by right | by left].
Defined.

Lemma complete_task_quietly fuel E w s (task_num : Z) :
  get_sess QM02 w = Some s -> no_popup E s ->
  exists w',
    qm02._complete_task fuel task_num E w = (Ok tt, w')
    /\ get_sess QM02 w' = Some s
    /\ hist w' = hist w ++
         [Act s (SetScrollbar (task_num - 1)); Act s (SelectRow (task_num - 1));
          Act s (Press "FC_ERLEDIGT")].
Proof.
  intros Hs Hq. assert (link_holds E s) as Hup by (intros h; apply Hq).
  unfold qm02._complete_task, qm02._select_task, qm02._get_task_viewer.
  eexists. split; [|split]; cycle 1; [shelve | shelve |].
  erewrite bind_ok; cycle 1.
  { erewrite bind_ok by (up Hup). erewrite bind_ok by (up Hup).
    erewrite bind_ok by (up Hup). up Hup. }
  erewrite bind_ok by (up Hup). erewrite bind_ok by (up Hup).
  destruct (Hq (hist w ++ [Act s (SetScrollbar (task_num - 1))]
                       ++ [Act s (SelectRow (task_num - 1))]
                       ++ [Act s (Press "FC_ERLEDIGT")])) as (_ & Ht & Hm).
  cbn [hist record_event]. rewrite <- !app_assoc. rewrite Ht.
  assert (forall w1, hist w1 = hist w ++ [Act s (SetScrollbar (task_num - 1))]
                         ++ [Act s (SelectRow (task_num - 1))]
                         ++ [Act s (Press "FC_ERLEDIGT")] ->
                     get_sess QM02 w1 = Some s ->
                     qm02.confirm_popups fuel E w1 = (Ok tt, w1)) as Hconfirm.
  { intros w1 Hh Hs1. destruct fuel; cbn [qm02.confirm_popups];
      unfold qm02._is_popup_dialog, is_popup_dialog;
      (erewrite bind_ok by (up Hup)); by rewrite Hh, Hm. }
  apply Hconfirm; [|done]. cbn. by rewrite <- !app_assoc.
  Unshelve.
  - done.
  - cbn. by rewrite <- !app_assoc.
Qed.

Lemma complete_tasks_quietly fuel E s (tasks : list (Z * qm02.task)) w :
  get_sess QM02 w = Some s -> no_popup E s ->
  exists w',
    for_each tasks (fun item =>
      let '(task_num, param) := item in
      if negb (qm02.completion_date param =? "") then ret tt
      else qm02._complete_task fuel task_num) E w = (Ok tt, w')
    /\ get_sess QM02 w' = Some s
    /\ hist w' = hist w ++ flat_map (completes_task s) tasks.
Proof.
  intros Hs Hq. revert w Hs. induction tasks as [|[task_num param] tasks IH]; intros w Hs.
  - exists w. by rewrite app_nil_r.
  - cbn [for_each flat_map]. unfold completes_task at 1. cbn [fst snd].
    destruct (qm02.completion_date param =? ""); cbn [negb].
    + destruct (complete_task_quietly fuel E w s task_num Hs Hq) as (w1 & Hc & Hs1 & Hh1).
      erewrite bind_ok by exact Hc.
      destruct (IH w1 Hs1) as (w' & Hloop & Hs' & Hh). exists w'.
      split; [done |]. split; [done |]. by rewrite Hh, Hh1, <- app_assoc.
    + erewrite bind_ok by reflexivity. by apply IH.
Qed.

Lemma complete_quietly fuel E w s (tasks : list (Z * qm02.task)) w1 :
  get_sess QM02 w = Some s -> no_popup E s ->
  qm02._get_available_tasks E w = (Ok tasks, w1) ->
  exists w',
    qm02._complete fuel E w = (Ok tt, w')
    /\ get_sess QM02 w' = Some s
    /\ hist w' = hist w1 ++ flat_map (completes_task s) tasks
                 ++ [Act s (Press "tbar[1]/btn[20]")].
Proof.
  intros Hs Hq Htasks. assert (link_holds E s) as Hup by (intros h; apply Hq).
  assert (get_sess QM02 w1 = Some s) as Hs1.
  { pose proof (keeps_get_available_tasks E w QM02) as H. rewrite Htasks in H.
    by rewrite <- Hs. }
  destruct (complete_tasks_quietly fuel E s tasks w1 Hs1 Hq) as (w2 & Hloop & Hs2 & Hh2).
  unfold qm02._complete. erewrite bind_ok by exact Htasks.
  erewrite bind_ok by exact Hloop. erewrite bind_ok by (up Hup).
  erewrite bind_ok by (up Hup).
  rewrite (proj1 (proj2 (Hq _))). cbn [when].
  eexists. split; [reflexivity |]. split; [done |]. cbn. by rewrite Hh2, <- app_assoc.
Qed.

(** X15: [_complete] on a notification that raises no dialog.  The tasks of
    the dict are taken in order; one that has a completion date is passed
    over; for one that has none the row selected is the task number less one
    (not the row the task was read from) and its completion button is
    pressed, once.  Then the completion control of the notification is
    pressed and [_complete] returns. *)
Theorem open_tasks_are_completed fuel E w s (tasks : list (Z * qm02.task)) w1 :
  get_sess QM02 w = Some s -> no_popup E s ->
  qm02._get_available_tasks E w = (Ok tasks, w1) ->
  exists w',
    qm02._complete fuel E w = (Ok tt, w')
    /\ hist w' = hist w1 ++ flat_map (completes_task s) tasks
                 ++ [Act s (Press "tbar[1]/btn[20]")].
Proof.
  intros Hs Hq Htasks.
  destruct (complete_quietly fuel E w s tasks w1 Hs Hq Htasks) as (w' & H & _ & Hh).
  by exists w'.
Qed.

Lemma open_tasks_are_completed_witness :
  exists w',
    qm02._complete 0 two_tasks (started QM02) = (Ok tt, w')
    /\ hist w' = hist (started QM02) ++
         flat_map (completes_task 0)
           [(10%Z, {| qm02.completion_date := ""; qm02.row_idx := 0 |});
            (20%Z, {| qm02.completion_date := "15.01.2024"; qm02.row_idx := 1 |})]
         ++ [Act 0 (Press "tbar[1]/btn[20]")].
Proof.
  apply (open_tasks_are_completed 0 two_tasks (started QM02) 0
           [(10%Z, {| qm02.completion_date := ""; qm02.row_idx := 0 |});
            (20%Z, {| qm02.completion_date := "15.01.2024"; qm02.row_idx := 1 |})]
           (started QM02)).
  - reflexivity.
  - by intros h.
  - vm_compute. reflexivity.
Defined.

(** ** Notification closure: a notification that cannot be opened *)

(** X16: what [complete_notification] makes of the status bar after the
    notification number is entered, when no dialog is up.  A text with "does
    not exist" is raised as [NotificationCompletionError]; otherwise a text
    with "can only be displayed" is raised as
    [NotificationCompletionWarning], after F12.  In both cases no tab is
    selected and no task is touched. *)
Theorem unavailable_notification fuel (notif_id : N) E w s :
  get_sess QM02 w = Some s -> link_holds E s ->
  let w1 := searched s notif_id w in
  let msg := stat_text (gui E (hist w1) s) in
  (window_type (gui E (hist w1) s) =? "GuiModalWindow") = false ->
  (contains "does not exist" msg = true ->
   qm02.complete_notification fuel notif_id E w
     = (Raise (NotificationCompletionError msg), w1))
  /\ (contains "does not exist" msg = false ->
      contains "can only be displayed" msg = true ->
      qm02.complete_notification fuel notif_id E w
        = (Raise (NotificationCompletionWarning msg), record_event (Act s (SendVKey 12)) w1)).
Proof.
  intros Hs Hup w1 msg Hwin. subst msg w1. unfold searched in *.
  set (w1 := record_event (Act s (SendVKey 0))
               (record_event (Act s (SetText "wnd[0]/usr/ctxtRIWO00-QMNUM" (str notif_id)))
                  w)) in *.
  assert (get_sess QM02 w1 = Some s) as Hs1 by exact Hs.
  assert (forall e w',
    (msg0 <- com QM02 stat_text ;;
     when (contains "does not exist" msg0) (raise (NotificationCompletionError msg0)) ;;
     when (contains "can only be displayed" msg0)
       (qm02._press_key "F12" ;; raise (NotificationCompletionWarning msg0)) ;;
     if contains "blocked" msg0 then qm02._reopen_blocked 3 2
     else
       popup <- qm02._is_popup_dialog ;;
       when popup (qm02._close_popup_dialog true 3 ;;
                   qm02._to_initial_screen ;;
                   raise (NotificationCompletionError msg0))) E w1 = (Raise e, w') ->
    is_com_error e = false ->
    qm02.complete_notification fuel notif_id E w = (Raise e, w')) as Hrest.
  { intros e w' H He. unfold qm02.complete_notification, except_com_error, try_except.
    match goal with |- context [match ?c E w with _ => _ end] =>
      assert (c E w = (Raise e, w')) as ->; [|by rewrite He]
    end.
    erewrite bind_ok
      by (unfold qm02._check_prerequisities, check_prerequisities; by rewrite Hs).
    apply bind_raise.
    unfold qm02._search_notification, qm02._set_notification_id, qm02._press_key, press_key,
      qm02._is_popup_dialog, is_popup_dialog.
    cbn [assoc qm02._virtual_keys String.eqb Ascii.eqb Bool.eqb].
    erewrite bind_ok by (up Hup). erewrite bind_ok by (up Hup).
    erewrite bind_ok by (apply com_up; [exact Hs1 | apply Hup]).
    fold w1. rewrite Hwin. cbn [when].
    erewrite bind_ok by reflexivity. exact H. }
  split.
  - intros Hne. apply Hrest; [|done].
    erewrite bind_ok by (up Hup). rewrite Hne. cbn [when].
    by erewrite bind_raise.
  - intros Hne Hdisp. apply Hrest; [|done].
    erewrite bind_ok by (up Hup). rewrite Hne, Hdisp. cbn [when].
    erewrite bind_ok by reflexivity.
    unfold qm02._press_key, press_key.
    cbn [assoc qm02._virtual_keys String.eqb Ascii.eqb Bool.eqb].
    erewrite bind_raise; [reflexivity |].
    by erewrite bind_ok by (up Hup).
Qed.

Lemma unavailable_notification_witness :
  qm02.complete_notification 0 300012345 display_only (started QM02)
  = (Raise (NotificationCompletionWarning "Notification 300012345 can only be displayed"),
     record_event (Act 0 (SendVKey 12)) (searched 0 300012345 (started QM02))).
Proof.
  apply (unavailable_notification 0 300012345 display_only (started QM02) 0);
    [reflexivity | by intros h | reflexivity | reflexivity | reflexivity].
Defined.

(** ** Credit-note lookup: the reference number *)













(** ** Credit-note lookup: a dialog after the order number *)



(** ** The lookup stage: an order that cannot be looked up *)



(** ** Document annotation: saving, and a text field that cannot be set *)

Lemma startswith_char (c : ascii) (p s : string) :
  startswith p s = true -> contains (String c "") p = true -> contains (String c "") s = true.
Proof.
  revert s. induction p as [|a p IH]; intros [|b s]; simpl; try done.
  intros [Hab Hp]%andb_true_iff. apply Ascii.eqb_eq in Hab as ->.
  rewrite !andb_true_r. intros [Hc | Hc]%orb_true_iff; [by rewrite Hc |].
  rewrite (IH s Hp Hc). by rewrite orb_true_r.
Qed.

Lemma contains_char (c : ascii) (p s : string) :
  contains p s = true -> contains (String c "") p = true -> contains (String c "") s = true.
Proof.
  intros Hps Hc. induction s as [|b s IH].
  - simpl in Hps. rewrite orb_false_r in Hps. by apply (startswith_char c p "").
  - cbn [contains] in Hps. apply orb_true_iff in Hps as [Hps | Hps].
    + by apply (startswith_char c p).
    + cbn [contains]. rewrite (IH Hps). by rewrite orb_true_r.
Qed.

(** X20: [_save_changes] presses Ctrl+S and looks at the status bar.
    Without an error or a warning it returns.  With one, it presses Enter
    and returns only if the text of the status bar has the very string "Net
    due date on * is in the past" in it, asterisk included; for every text
    without an asterisk it raises [DocumentProcessingError], "Unable to save
    document changes!". *)
Theorem save_alert_needs_the_asterisk E w s :
  get_sess FB03 w = Some s -> link_holds E s ->
  let w1 := record_event (Act s (SendVKey 11)) w in
  let alert := (stat_type (gui E (hist w1) s) =? "E") || (stat_type (gui E (hist w1) s) =? "W") in
  let msg := stat_text (gui E (hist w1) s) in
  (alert = false -> fb03._save_changes E w = (Ok tt, w1))
  /\ (alert = true -> contains net_due_date_alert msg = true ->
      fb03._save_changes E w = (Ok tt, record_event (Act s (SendVKey 0)) w1))
  /\ (alert = true -> contains "*" msg = false ->
      fb03._save_changes E w
        = (Raise (DocumentProcessingError FB03 "Unable to save document changes!"), w1)).
Proof.
  intros Hs Hup w1 alert msg.
  assert (get_sess FB03 w1 = Some s) as Hs1 by exact Hs.
  assert (fb03._save_changes E w =
          (if alert then
             if contains net_due_date_alert msg then fb03._press_key "Enter"
             else raise (DocumentProcessingError FB03 "Unable to save document changes!")
           else ret tt) E w1) as ->.
  { unfold fb03._save_changes, fb03._press_key, press_key.
    cbn [assoc fb03._virtual_keys String.eqb Ascii.eqb Bool.eqb].
    erewrite bind_ok by (up Hup). fold w1.
    erewrite bind_ok by (apply com_up; [exact Hs1 | apply Hup]).
    erewrite bind_ok; [reflexivity |].
    unfold fb03._is_alert_message, fb03._is_error_message, is_error_message,
      fb03._is_warning_message.
    erewrite bind_ok by (apply com_up; [exact Hs1 | apply Hup]).
    unfold alert. destruct (stat_type _ =? "E"); [done |]. cbn [orb].
    by apply (com_up FB03 (fun sc => stat_type sc =? "W") E w1 s). }
  split; [|split].
  - by intros ->.
  - intros -> ->. unfold fb03._press_key, press_key.
    cbn [assoc fb03._virtual_keys String.eqb Ascii.eqb Bool.eqb].
    by apply act_up; [exact Hs1 | apply Hup].
  - intros -> Hstar.
    destruct (contains net_due_date_alert msg) eqn:Hc; [|done].
    by rewrite (contains_char "*" net_due_date_alert msg Hc eq_refl) in Hstar.
Qed.

Lemma save_alert_needs_the_asterisk_witness :
  fb03._save_changes past_due_date (started FB03)
  = (Raise (DocumentProcessingError FB03 "Unable to save document changes!"),
     record_event (Act 0 (SendVKey 11)) (started FB03)).
Proof.
  apply (save_alert_needs_the_asterisk past_due_date (started FB03) 0);
    [reflexivity | by intros h | reflexivity | reflexivity].
Defined.

(** X21: [_set_document_text] on a text field that cannot be set.  Nothing
    is written; F12 is pressed twice, and [DocumentProcessingError] is
    raised: with the text "The document is already cleared and the text
    cannot be changed!" when the screen then has exactly one field
    BSEG-AUGBL, with the text of the failed assignment otherwise. *)
Theorem locked_text_is_not_written (val : string) E w s :
  get_sess FB03 w = Some s -> link_holds E s ->
  sgtxt_settable (gui E (hist w) s) = false ->
  let w' := record_event (Act s (SendVKey 12)) (record_event (Act s (SendVKey 12)) w) in
  exists msg,
    fb03._set_document_text val E w = (Raise (DocumentProcessingError FB03 msg), w')
    /\ (augbl_count (gui E (hist w') s) = 1 ->
        msg = "The document is already cleared and the text cannot be changed!").
Proof.
  intros Hs Hup Hset w'.
  assert (get_sess FB03 w' = Some s) as Hs' by exact Hs.
  unfold fb03._set_document_text, fb03._to_initial_screen, fb03._is_cleared_document,
    fb03._press_key, press_key.
  cbn [assoc fb03._virtual_keys String.eqb Ascii.eqb Bool.eqb].
  erewrite bind_ok by (up Hup). rewrite Hset.
  erewrite bind_ok; cycle 1.
  { erewrite bind_ok by (up Hup). up Hup. }
  fold w'. erewrite bind_ok by (apply com_up; [exact Hs' | apply Hup]).
  destruct (augbl_count (gui E (hist w') s) =? 1)%nat eqn:Hc.
  - by eexists.
  - eexists. split; [reflexivity |]. intros H. rewrite H in Hc. done.
Qed.

Lemma locked_text_is_not_written_witness :
  exists msg,
    fb03._set_document_text "RET711884319 D 400081469"
      (static_env (with_sgtxt_locked 1 plain_screen)) (started FB03)
    = (Raise (DocumentProcessingError FB03 msg),
       record_event (Act 0 (SendVKey 12)) (record_event (Act 0 (SendVKey 12)) (started FB03)))
    /\ (augbl_count
          (gui (static_env (with_sgtxt_locked 1 plain_screen))
             (hist (record_event (Act 0 (SendVKey 12))
                      (record_event (Act 0 (SendVKey 12)) (started FB03)))) 0) = 1 ->
        msg = "The document is already cleared and the text cannot be changed!").
Proof.
  apply (locked_text_is_not_written "RET711884319 D 400081469"
           (static_env (with_sgtxt_locked 1 plain_screen)) (started FB03) 0);
    [reflexivity | by intros h | reflexivity].
Defined.

(** ** The stages when nothing goes wrong *)

Lemma append_case_id_updates E w s (text : string) (case_id : N)
    (document : option Z) (fiscal_year : N) (company_code : string) :
  get_sess FB03 w = Some s -> edits_quietly E s text ->
  contains (str case_id) text = false ->
  String.length (strip text +:+ " D " +:+ str case_id) <= fb03.MAX_TEXT_FIELD_CHARS ->
  exists w',
    fb03.append_case_id document fiscal_year company_code case_id E w = (Ok tt, w')
    /\ get_sess FB03 w' = Some s
    /\ hist w' = hist w ++ updates_document s company_code document fiscal_year
                             (strip text +:+ " D " +:+ str case_id).
Proof.
  intros Hs Hq Hc Hlen.
  assert (link_holds E s) as Hup by (intros h; apply Hq).
  destruct (append_case_id_opens E w s text document fiscal_year company_code
              (fun old_text =>
                 new_text <- fb03._append_case_id old_text case_id ;;
                 popup <- fb03._is_popup_dialog ;;
                 when popup (fb03._close_popup_dialog false 3 ;;
                             raise (DocumentProcessingError FB03
                                      "Unable to edit the document!")) ;;
                 fb03._press_key "CtrlF1" ;;
                 fb03._set_document_text new_text ;;
                 fb03._save_changes ;;
                 fb03._clear_search_criteria) Hs Hq) as (w1 & Hs1 & Hh1 & Hrun).
  eexists. split; [|split]; cycle 1; [shelve | shelve |].
  unfold fb03.append_case_id.
  erewrite bind_ok
    by (unfold fb03._check_prerequisities, check_prerequisities; by rewrite Hs).
  unfold except_com_error, try_except. rewrite Hrun.
  erewrite bind_ok by (by apply append_case_id_fits).
  unfold fb03._is_popup_dialog, is_popup_dialog.
  erewrite bind_ok by (up Hup).
  destruct (Hq (hist w1)) as (_ & _ & _ & _ & -> & _). cbn [when].
  erewrite bind_ok by done.
  unfold fb03._press_key, press_key.
  cbn [assoc fb03._virtual_keys String.eqb Ascii.eqb Bool.eqb].
  erewrite bind_ok by (up Hup).
  erewrite bind_ok; cycle 1.
  { unfold fb03._set_document_text. erewrite bind_ok by (up Hup).
    match goal with |- context [sgtxt_settable (gui E ?h s)] =>
      destruct (Hq h) as (_ & _ & _ & _ & _ & _ & ->) end.
    up Hup. }
  erewrite bind_ok; cycle 1.
  { unfold fb03._save_changes, fb03._press_key, press_key.
    cbn [assoc fb03._virtual_keys String.eqb Ascii.eqb Bool.eqb].
    erewrite bind_ok by (up Hup). erewrite bind_ok by (up Hup).
    unfold fb03._is_alert_message, fb03._is_error_message, is_error_message,
      fb03._is_warning_message.
    erewrite bind_ok; cycle 1.
    { erewrite bind_ok by (up Hup).
      match goal with |- context [stat_type (gui E ?h s) =? "E"] =>
        destruct (Hq h) as (_ & _ & -> & HW & _) end.
      erewrite com_up; [|by rewrite !get_sess_record_event | apply Hup].
      by rewrite HW. }
    reflexivity. }
  unfold fb03._clear_search_criteria, fb03._set_company_code,
    fb03._set_document_number, fb03._set_document_year.
  erewrite bind_ok by (up Hup). erewrite bind_ok by (up Hup).
  erewrite act_up; [|by rewrite !get_sess_record_event | apply Hup].
  reflexivity.
  Unshelve.
  - by rewrite !get_sess_record_event.
  - cbn. rewrite Hh1. by rewrite <- !app_assoc.
Qed.

Lemma update_row_updates E w s (text : string) idx (r : controller.row)
    (result : controller.DataFrame) :
  get_sess FB03 w = Some s -> edits_quietly E s text -> to_annotate text r ->
  exists w',
    controller.update_row idx r result E w
      = (Ok (controller.loc_idx idx (controller.set_Message (Some "Document updated."))
               result), w')
    /\ get_sess FB03 w' = Some s
    /\ hist w' = hist w ++ annotates_row s text r.
Proof.
  intros Hs Hq (Ho & year & case_id & Hy & Hc & Hin & Hlen).
  destruct (append_case_id_updates E w s text case_id
              (Z.of_N <$> controller.Document_Number r) year (controller.Company_Code r)
              Hs Hq Hin Hlen) as (w' & Hrun & Hs' & Hh).
  exists w'. split; [|split; [done |]].
  - unfold controller.update_row. rewrite Ho. cbn [negb].
    unfold controller.update_document. rewrite Hy, Hc.
    erewrite bind_ok; cycle 1.
    { cbn [controller.update_attempts controller.MAX_RECOVERY_ATTEMPTS Nat.ltb Nat.leb].
      by rewrite Hrun. }
    done.
  - unfold annotates_row. by rewrite Hy, Hc.
Qed.

Lemma update_rows_updates E s (text : string) (rows pre : list controller.row) w :
  get_sess FB03 w = Some s -> edits_quietly E s text -> Forall (to_annotate text) rows ->
  exists w',
    controller.update_rows (length pre) rows (pre ++ rows) E w
      = (Ok (pre ++ map (controller.set_Message (Some "Document updated.")) rows), w')
    /\ get_sess FB03 w' = Some s
    /\ hist w' = hist w ++ flat_map (annotates_row s text) rows.
Proof.
  intros Hs Hq Hrows. revert pre w Hs.
  induction Hrows as [|r rows Hr _ IH]; intros pre w Hs.
  - exists w. cbn. by rewrite !app_nil_r.
  - cbn [controller.update_rows map flat_map].
    destruct (update_row_updates E w s text (length pre) r (pre ++ r :: rows) Hs Hq Hr)
      as (w1 & Hrow & Hs1 & Hh1).
    erewrite bind_ok by exact Hrow.
    assert (controller.loc_idx (length pre)
              (controller.set_Message (Some "Document updated.")) (pre ++ r :: rows)
            = (pre ++ [controller.set_Message (Some "Document updated.") r]) ++ rows) as ->.
    { unfold controller.loc_idx.
      rewrite <- (Nat.add_0_r (length pre)), alter_app_r. cbn. by rewrite <- app_assoc. }
    destruct (IH (pre ++ [controller.set_Message (Some "Document updated.") r]) w1 Hs1)
      as (w' & Hrun & Hs' & Hh).
    rewrite length_app in Hrun. cbn [length] in Hrun.
    replace (length pre + 1) with (S (length pre)) in Hrun by lia.
    exists w'. split; [by rewrite Hrun, <- app_assoc |]. split; [done |].
    by rewrite Hh, Hh1, <- app_assoc.
Qed.

(** X22: the annotation stage when nothing goes wrong.  The rows are
    documents that are not orders; every document opens, is edited and is
    saved without a message or a dialog, and shows the text [text], which
    does not hold the case id of any row and has room for each of them.
    Then the stage starts FB03, updates the documents in the order of the
    rows, closes FB03, and returns the frame with "Document updated." as the
    message of every row. *)
Theorem annotation_updates_every_document sess (in_data : controller.DataFrame)
    (text : string) E w :
  edits_quietly E sess text ->
  Forall (to_annotate text) in_data ->
  Exists (fun r => controller.Document_Number r <> None) in_data ->
  exists w',
    controller.update_accounting_documents sess in_data E w
      = (Ok (map (controller.set_Message (Some "Document updated.")) in_data), w')
    /\ get_sess FB03 w' = None
    /\ hist w' = hist w ++
         [Act sess (StartTransaction "FB03"); Act sess (SetText "RF05L-BUKRS" "");
          Act sess (SetText "RF05L-BELNR" ""); Act sess (SetText "RF05L-GJAHR" "")]
         ++ flat_map (annotates_row sess text) in_data
         ++ [Act sess EndTransaction].
Proof.
  intros Hq Hrows Hdoc.
  assert (link_holds E sess) as Hup by (intros h; apply Hq).
  apply Exists_exists in Hdoc as (r & Hin & Hr).
  unfold controller.update_accounting_documents.
  rewrite (some_document _ r) by (done || by apply list_elem_of_In).
  unfold fb03.start, fb03._clear_search_criteria, fb03._set_company_code,
    fb03._set_document_number, fb03._set_document_year.
  rewrite !bind_assoc. erewrite bind_ok by reflexivity.
  assert (get_sess FB03 (set_sess FB03 (Some sess) w) = Some sess) as Hs by done.
  do 5 (rewrite ?bind_assoc; erewrite bind_ok by (up Hup)).
  rewrite ?bind_assoc. erewrite bind_ok by (up Hup).
  match goal with |- context [bind (controller.update_rows 0 in_data in_data) _ E ?w1] =>
    destruct (update_rows_updates E sess text in_data [] w1) as (w2 & Hrun & Hs2 & Hh2);
      [by rewrite ?get_sess_record_event | done | done |]
  end.
  cbn [length app] in Hrun. erewrite bind_ok by exact Hrun.
  unfold fb03.close at 1. unfold bind at 1. rewrite Hs2.
  unfold fb03._is_popup_dialog, is_popup_dialog.
  erewrite bind_ok by (up Hup). erewrite bind_ok by (up Hup).
  destruct (Hq (hist w2 ++ [Act sess EndTransaction])) as (_ & _ & _ & _ & Hwin & _).
  cbn [hist record_event]. rewrite Hwin. cbn [when].
  eexists. split; [reflexivity |]. split; [done |].
  cbn. rewrite Hh2. cbn. by rewrite <- !app_assoc.
Qed.

Lemma invoice_to_annotate : to_annotate "RET711884319" (invoice_row None).
Proof.
  split; [reflexivity |]. exists 2024%N, 400081469%N.
  repeat split. apply Nat.leb_le. reflexivity.
Qed.

Lemma annotation_updates_every_document_witness :
  exists w',
    controller.update_accounting_documents 0 [invoice_row None; invoice_row None]
      (static_env (with_sgtxt "RET711884319" plain_screen)) initial_world
      = (Ok (map (controller.set_Message (Some "Document updated."))
               [invoice_row None; invoice_row None]), w')
    /\ get_sess FB03 w' = None
    /\ hist w' = hist initial_world ++
         [Act 0 (StartTransaction "FB03"); Act 0 (SetText "RF05L-BUKRS" "");
          Act 0 (SetText "RF05L-BELNR" ""); Act 0 (SetText "RF05L-GJAHR" "")]
         ++ flat_map (annotates_row 0 "RET711884319") [invoice_row None; invoice_row None]
         ++ [Act 0 EndTransaction].
Proof.
  apply (annotation_updates_every_document 0 [invoice_row None; invoice_row None]
           "RET711884319" (static_env (with_sgtxt "RET711884319" plain_screen))
           initial_world).
  - by intros h.
  - repeat constructor; apply invoice_to_annotate.
  - by left.
Defined.

Lemma complete_notification_quietly fuel (notif_id : N) E w s :
  get_sess QM02 w = Some s -> no_popup E s -> notification_opens E s -> grid_readable E s ->
  exists w',
    qm02.complete_notification fuel notif_id E w = (Ok tt, w')
    /\ get_sess QM02 w' = Some s.
Proof.
  intros Hs Hq Hopen Hgrid. assert (link_holds E s) as Hup by (intros h; apply Hq).
  unfold qm02.complete_notification, except_com_error, try_except.
  match goal with |- context [match ?c E w with _ => _ end] =>
    assert (exists w', c E w = (Ok tt, w') /\ get_sess QM02 w' = Some s)
      as (w' & -> & Hs'); [|by exists w']
  end.
  erewrite bind_ok
    by (unfold qm02._check_prerequisities, check_prerequisities; by rewrite Hs).
  erewrite bind_ok; cycle 1.
  { unfold qm02._search_notification, qm02._set_notification_id, qm02._press_key, press_key,
      qm02._is_popup_dialog, is_popup_dialog.
    cbn [assoc qm02._virtual_keys String.eqb Ascii.eqb Bool.eqb].
    erewrite bind_ok by (up Hup). erewrite bind_ok by (up Hup).
    erewrite bind_ok by (up Hup). rewrite hist_record_event.
    match goal with |- context [gui E (?h ++ [Act s (SendVKey 0)]) s] =>
      destruct (Hopen h) as (Hw & Hm1 & Hm2 & Hm3) end.
    rewrite Hw. cbn [when]. erewrite bind_ok by done. erewrite bind_ok by (up Hup).
    rewrite hist_record_event, Hm1, Hm2, Hm3.
    cbn [when]. erewrite bind_ok by done. erewrite bind_ok by done.
    erewrite bind_ok by (up Hup). rewrite hist_record_event, Hw. reflexivity. }
  unfold qm02._activate_tab. cbn [String.eqb Ascii.eqb Bool.eqb].
  erewrite bind_ok by (up Hup).
  unfold qm02._get_task_viewer at 1. erewrite bind_ok by (up Hup).
  match goal with |- context [bind (qm02._complete fuel) _ E ?w1] =>
    assert (get_sess QM02 w1 = Some s) as Hs1 by (by rewrite !get_sess_record_event);
    destruct (available_tasks_read E s
                (Z.to_nat (row_count (gui E (hist w1) s) - 1 - 0)) Hup Hgrid 0%Z [] w1 Hs1)
      as (tasks & w2 & Htasks & _);
    destruct (complete_quietly fuel E w1 s tasks w2) as (w3 & Hc & Hs3 & _); try done
  end.
  - unfold qm02._get_available_tasks. by erewrite bind_ok by (up Hup).
  - erewrite bind_ok by exact Hc.
    unfold qm02._press_key, press_key, qm02._clear_notification_search_field,
      qm02._set_notification_id.
    cbn [assoc qm02._virtual_keys String.eqb Ascii.eqb Bool.eqb].
    erewrite bind_ok by (up Hup). eexists. split; [up Hup |].
    by rewrite !get_sess_record_event.
Qed.

Lemma close_rows_completes fuel E s (rows pre : list controller.row) w :
  get_sess QM02 w = Some s -> no_popup E s -> notification_opens E s -> grid_readable E s ->
  Forall (fun r => is_Some (controller.Notification r) /\ is_Some (controller.Message r))
    rows ->
  exists w',
    controller.close_rows fuel (length pre) rows (pre ++ rows) E w
      = (Ok (pre ++ map completed rows), w')
    /\ get_sess QM02 w' = Some s.
Proof.
  intros Hs Hq Hopen Hgrid Hrows. revert pre w Hs.
  induction Hrows as [|r rows [[notif_id Hn] [old Hold]] _ IH]; intros pre w Hs.
  - exists w. cbn. by rewrite !app_nil_r.
  - cbn [controller.close_rows map].
    destruct (complete_notification_quietly fuel notif_id E w s Hs Hq Hopen Hgrid)
      as (w1 & Hrun & Hs1).
    assert (controller.close_row fuel (length pre) r (pre ++ r :: rows) E w
            = (Ok ((pre ++ [completed r]) ++ rows), w1)) as Hrow.
    { unfold controller.close_row. rewrite Hn.
      erewrite bind_ok; cycle 1.
      { cbn [controller.close_attempts controller.MAX_RECOVERY_ATTEMPTS Nat.ltb Nat.leb].
        by rewrite Hrun. }
      cbn [Nat.eqb negb].
      assert ((pre ++ r :: rows) !! length pre = Some r) as ->
        by (by rewrite list_lookup_middle).
      cbn. rewrite Hold. unfold ret. do 2 f_equal. unfold controller.loc_idx.
      rewrite <- (Nat.add_0_r (length pre)), alter_app_r. cbn.
      rewrite <- app_assoc. unfold completed. by rewrite Hold. }
    erewrite bind_ok by exact Hrow.
    destruct (IH (pre ++ [completed r]) w1 Hs1) as (w' & Hloop & Hs').
    rewrite length_app in Hloop. cbn [length] in Hloop.
    replace (length pre + 1) with (S (length pre)) in Hloop by lia.
    exists w'. split; [by rewrite Hloop, <- app_assoc | done].
Qed.

(** X23: the closure stage when nothing goes wrong.  Every row has a
    notification and a message; on the session every notification opens, its
    task grid can be read, and no dialog comes up.  Then the stage returns
    the frame in which the message of every row is the message it had,
    a space, and "Notification completed." (so a row whose message was empty
    gets a message that begins with a space), and QM02 is closed. *)
Theorem closure_completes_every_notification fuel sess (in_data : controller.DataFrame)
    E w :
  no_popup E sess -> notification_opens E sess -> grid_readable E sess ->
  in_data <> [] ->
  Forall (fun r => is_Some (controller.Notification r) /\ is_Some (controller.Message r))
    in_data ->
  exists w',
    controller.close_service_notifications fuel sess in_data E w
      = (Ok (map completed in_data), w')
    /\ get_sess QM02 w' = None.
Proof.
  intros Hq Hopen Hgrid Hne Hrows.
  assert (link_holds E sess) as Hup by (intros h; apply Hq).
  destruct in_data as [|r0 in_data]; [done |].
  pose proof (Forall_inv Hrows) as [[n0 Hn0] _].
  unfold controller.close_service_notifications.
  rewrite (some_notification _ r0 n0) by (done || by left).
  unfold qm02.start, qm02._clear_notification_search_field, qm02._set_notification_id.
  rewrite !bind_assoc. erewrite bind_ok by reflexivity.
  assert (get_sess QM02 (set_sess QM02 (Some sess) w) = Some sess) as Hs by done.
  do 3 (rewrite ?bind_assoc; erewrite bind_ok by (up Hup)).
  rewrite ?bind_assoc. erewrite bind_ok by (up Hup).
  match goal with
  |- context [bind (controller.close_rows fuel 0 ?rows ?rows) _ E ?w1] =>
    destruct (close_rows_completes fuel E sess rows [] w1) as (w2 & Hrun & Hs2);
      [by rewrite ?get_sess_record_event | done.. |]
  end.
  cbn [length app] in Hrun. erewrite bind_ok by exact Hrun.
  unfold qm02.close at 1. unfold bind at 1. rewrite Hs2.
  unfold qm02._is_popup_dialog, is_popup_dialog.
  erewrite bind_ok by (up Hup). erewrite bind_ok by (up Hup).
  destruct (Hq (hist w2 ++ [Act sess EndTransaction])) as (_ & _ & Hwin).
  cbn [hist record_event]. rewrite Hwin. cbn [when].
  eexists. split; [reflexivity | done].
Qed.

Lemma closure_completes_every_notification_witness :
  exists w',
    controller.close_service_notifications 0 0
      [controller.set_Message (Some "Document updated.") (invoice_row (Some 300012345%N));
       invoice_row (Some 300012346%N)]
      two_tasks initial_world
      = (Ok (map completed
               [controller.set_Message (Some "Document updated.")
                  (invoice_row (Some 300012345%N));
                invoice_row (Some 300012346%N)]), w')
    /\ get_sess QM02 w' = None.
Proof.
  apply (closure_completes_every_notification 0 0 _ two_tasks initial_world).
  - by intros h.
  - by intros h.
  - intros h. split; [done |]. intros row. unfold two_task_cells. cbn.
    destruct (row =? 0)%Z; [by right |]. destruct (row =? 1)%Z; [by right | by left].
  - done.
  - repeat constructor; by eexists.
Defined.

(** ** Document annotation: a document that does not open *)




(** ** The width of a column of the report *)

(** X25: the width [_calculate_max_column_width] gives a column of the
    report.  With a margin of 2 for every column but "Message", which has
    none, the width is enough for the name of the column and for every value
    that is not missing, and it is no wider than that: it is the length of
    the name or of one of these values, plus the margin.  Missing values do
    not count. *)
Theorem column_width_fits (values : list report.value) (name : string) :
  let width := report._calculate_max_column_width values name in
  let margin := if name =? "Message" then 0 else 2 in
  String.length name + margin <= width
  /\ (forall v s, v ∈ values -> report.astype_string v = Some s ->
      String.length s + margin <= width)
  /\ (width = String.length name + margin
      \/ exists v s, v ∈ values /\ report.astype_string v = Some s
                     /\ width = String.length s + margin).
Proof.
  intros width margin.
  set (lengths := map String.length (omap report.astype_string values)
                  ++ [String.length name]).
  assert (width = max_list lengths + margin) as ->.
  { subst width margin. unfold report._calculate_max_column_width. fold lengths.
    destruct (name =? "Message"); cbn [negb]; lia. }
  split; [|split].
  - apply Nat.add_le_mono_r, max_list_elem_of_le.
    subst lengths. apply elem_of_app. right. by apply list_elem_of_singleton.
  - intros v s Hv Hs. apply Nat.add_le_mono_r, max_list_elem_of_le.
    subst lengths. apply elem_of_app. left.
    apply list_elem_of_fmap. exists s. split; [done |].
    apply list_elem_of_omap. by exists v.
  - assert (lengths <> []) as Hne by (subst lengths; by destruct (map _ _)).
    pose proof (max_list_elem_of lengths Hne) as Hmax.
    subst lengths. apply elem_of_app in Hmax as [Hmax | Hmax].
    + right. apply list_elem_of_fmap in Hmax as (s & Heq & Hs).
      apply list_elem_of_omap in Hs as (v & Hv & Hs).
      exists v, s. by rewrite Heq.
    + left. apply list_elem_of_singleton in Hmax. by rewrite Hmax.
Qed.

(** ** The attachments of a message *)

Lemma lower_char_idemp c : lower_char (lower_char c) = lower_char c.
Proof. by destruct c as [[] [] [] [] [] [] [] []]. Qed.

Lemma lower_idemp s : lower (lower s) = lower s.
Proof. induction s as [|c s IH]; [done |]. cbn. by rewrite lower_char_idemp, IH. Qed.

Lemma length_lower s : String.length (lower s) = String.length s.
Proof. induction s as [|c s IH]; [done |]. cbn. by rewrite IH. Qed.

Lemma drop_s_lower n s : drop_s n (lower s) = lower (drop_s n s).
Proof.
  revert s. induction n as [|n IH]; intros s; [done |].
  destruct s as [|c s]; [done |]. apply IH.
Qed.

Lemma endswith_lower_inv e s :
  endswith e (lower s) = true ->
  exists k, lower (drop_s k s) = e /\ String.length e <= String.length s
            /\ k = String.length s - String.length e.
Proof.
  unfold endswith. intros [Hlen Heq]%andb_prop.
  apply Nat.leb_le in Hlen. apply String.eqb_eq in Heq.
  rewrite length_lower in Hlen, Heq. rewrite drop_s_lower in Heq. eauto.
Qed.

Lemma lower_char_dot c : lower_char c = "."%char -> c = "."%char.
Proof. by destruct c as [[] [] [] [] [] [] [] []]. Qed.

Lemma lower_char_star c : lower_char c = "*"%char -> c = "*"%char.
Proof. by destruct c as [[] [] [] [] [] [] [] []]. Qed.

Lemma get_attachments_fetched attachments ext att :
  att ∈ mails.get_attachments attachments (Some ext) ->
  endswith ext (lower (mails.name att)) = true.
Proof.
  induction attachments as [|a rest IH]; cbn; [by intros ?%elem_of_nil |].
  destruct (endswith ext (lower (mails.name a))) eqn:He; [|done].
  intros [-> | Hin]%elem_of_cons; [done | by apply IH].
Qed.

(** X26: [get_attachments] compares the extension as it is written with
    the end of the lowered name of an attachment.  So an extension that has
    a capital letter fetches nothing, whatever the message holds; and with
    ".*", the value used when the caller gives no extension, only an
    attachment whose name ends with a dot and an asterisk is fetched. *)
Theorem extension_is_matched_as_written (attachments : list mails.attachment) :
  (forall ext, lower ext <> ext -> mails.get_attachments attachments (Some ext) = [])
  /\ (forall att, att ∈ mails.get_attachments attachments (Some ".*") ->
      endswith ".*" (mails.name att) = true).
Proof.
  split.
  - intros ext Hext.
    induction attachments as [|a rest IH]; cbn; [done |].
    destruct (endswith ext (lower (mails.name a))) eqn:He; [|done].
    apply endswith_lower_inv in He as (k & He & _).
    destruct Hext. by rewrite <- He, lower_idemp.
  - intros att Hin. apply get_attachments_fetched in Hin.
    apply endswith_lower_inv in Hin as (k & He & Hlen & ->).
    unfold endswith. apply andb_true_intro. split; [by apply Nat.leb_le |].
    apply String.eqb_eq.
    destruct (drop_s _ (mails.name att)) as [|c1 [|c2 [|c3 s]]]; try done.
    cbn in He. injection He as H1 H2.
    by rewrite (lower_char_dot c1 H1), (lower_char_star c2 H2).
Qed.

Lemma extension_is_matched_as_written_witness :
  mails.get_attachments
    [{| mails.name := "REPORT.XLSM"; mails.content := [] |}] (Some ".XLSM") = [].
Proof.
  destruct (extension_is_matched_as_written
              [{| mails.name := "REPORT.XLSM"; mails.content := [] |}]) as [H _].
  apply H. discriminate.
Defined.

(** ** The lookup stage: the number that is found *)




(** ** The lookup stage: no row gets a credit note *)








